(** * kwess: a client of the Questrade REST API

    A shallow embedding of [kwess/__init__.py] (class [Trader]) and the
    properties of its two pieces of logic: the date-range chunking decorator
    [get_all] and the credential life cycle ([__init__],
    [get_new_refresh_token], [_get_accounts]), together with the small string
    helpers [object_to_qdstr] and the state filter of [get_account_orders].

    Conventions of the embedding
    - a naive [datetime] is an instant: the number of microseconds since
      0001-01-01T00:00:00 (the first representable instant), a [timedelta] is
      a signed number of microseconds; [datetime + timedelta] raises
      [OverflowError] outside [datetime.min .. datetime.max];
    - printing and parsing go through the broken-down fields of an instant;
    - a method of [Trader] is a function in a state-and-exception monad over
      the object's attributes and the outside world (files, clock, network,
      standard output). *)

From Stdlib Require Import ZArith Lia Ascii String DecimalString.
From stdpp Require Import base option list gmap strings.

#[local] Open Scope string_scope.
#[local] Open Scope list_scope.
#[local] Open Scope Z_scope.

(** ** Dates and durations *)

Module Time.

Definition timedelta := Z.
Definition datetime := Z.

Definition US_PER_SECOND : Z := 1000000.
Definition US_PER_DAY : Z := 86400 * US_PER_SECOND.

(** [timedelta(days=d, seconds=s)] *)
Definition td (days seconds : Z) : timedelta :=
  days * US_PER_DAY + seconds * US_PER_SECOND.

(** [dlt.days]: a timedelta is normalised with [0 <= seconds < 86400] and
    [0 <= microseconds < 10**6], so [days] is the floor of the duration. *)
Definition td_days (dlt : timedelta) : Z := dlt / US_PER_DAY.

(** [date.max.toordinal()], the ordinal of 9999-12-31 *)
Definition MAXORDINAL : Z := 3652059.

(** [datetime.max], 9999-12-31T23:59:59.999999 *)
Definition DT_MAX : datetime := MAXORDINAL * US_PER_DAY - 1.

Definition dt_valid (t : datetime) : Prop := 0 <= t <= DT_MAX.

(** [a - b] on two naive datetimes never fails. *)
Definition dt_sub (a b : datetime) : timedelta := a - b.

(** [t + d]; [None] is [OverflowError("date value out of range")]. *)
Definition dt_add (t : datetime) (d : timedelta) : option datetime :=
  if (0 <=? t + d) && (t + d <=? DT_MAX) then Some (t + d) else None.

(** The proleptic Gregorian calendar of the [datetime] module. *)
Definition is_leap (year : Z) : bool :=
  (year mod 4 =? 0) && (negb (year mod 100 =? 0) || (year mod 400 =? 0)).

Definition days_before_year (year : Z) : Z :=
  let y := year - 1 in y * 365 + y / 4 - y / 100 + y / 400.

Definition days_in_month (year month : Z) : Z :=
  if month =? 2 then (if is_leap year then 29 else 28)
  else if (month =? 4) || (month =? 6) || (month =? 9) || (month =? 11)
       then 30 else 31.

Fixpoint days_before_month_upto (year : Z) (months : nat) : Z :=
  match months with
  | O => 0
  | S k => days_before_month_upto year k + days_in_month year (Z.of_nat (S k))
  end.

Definition days_before_month (year month : Z) : Z :=
  days_before_month_upto year (Z.to_nat (month - 1)).

(** [_ymd2ord]: 0001-01-01 has ordinal 1. *)
Definition ymd2ord (year month day : Z) : Z :=
  days_before_year year + days_before_month year month + day.

(** [datetime(year, month, day, hour, minute, second, microsecond)];
    [None] is the constructor's [ValueError]. *)
Definition mk_datetime (y m d h mi s us : Z) : option datetime :=
  if (1 <=? y) && (y <=? 9999) && (1 <=? m) && (m <=? 12)
     && (1 <=? d) && (d <=? days_in_month y m)
     && (0 <=? h) && (h <? 24) && (0 <=? mi) && (mi <? 60)
     && (0 <=? s) && (s <? 60) && (0 <=? us) && (us <? US_PER_SECOND)
  then Some ((ymd2ord y m d - 1) * US_PER_DAY
             + ((h * 60 + mi) * 60 + s) * US_PER_SECOND + us)
  else None.

(** A date at midnight, for readable examples ([0] outside the calendar). *)
Definition date (y m d : Z) : datetime :=
  default 0 (mk_datetime y m d 0 0 0 0).

End Time.

(** ** Python strings *)

Module PyStr.

(** [s[:k]] and [s[k:]]: a negative index counts from the end, and indices
    beyond either end are clipped. *)
Definition clip (len k : Z) : nat :=
  Z.to_nat (Z.min len (if k <? 0 then Z.max 0 (len + k) else k)).

Definition slice_to (s : string) (k : Z) : string :=
  String.substring 0 (clip (Z.of_nat (String.length s)) k) s.

Definition slice_from (s : string) (k : Z) : string :=
  let i := clip (Z.of_nat (String.length s)) k in
  String.substring i (String.length s - i) s.

(** [c.lower()] on ASCII letters *)
Definition lower_ascii (c : ascii) : ascii :=
  let n := nat_of_ascii c in
  if (65 <=? n)%nat && (n <=? 90)%nat then ascii_of_nat (n + 32) else c.

Fixpoint lower (s : string) : string :=
  match s with
  | EmptyString => EmptyString
  | String c s' => String (lower_ascii c) (lower s')
  end.

(** [s.startswith(p)] *)
Definition startswith (s p : string) : bool := String.prefix p s.

(** [sep.join(l)] *)
Fixpoint join (sep : string) (l : list string) : string :=
  match l with
  | [] => ""
  | [x] => x
  | x :: l' => x +:+ sep +:+ join sep l'
  end.

(** ASCII white space, what [str.strip()] and the [\s] of [re] remove *)
Definition is_space (c : ascii) : bool :=
  let n := nat_of_ascii c in
  ((9 <=? n)%nat && (n <=? 13)%nat) || (n =? 32)%nat
  || ((28 <=? n)%nat && (n <=? 31)%nat).

Fixpoint lstrip (s : string) : string :=
  match s with
  | String c s' => if is_space c then lstrip s' else s
  | EmptyString => EmptyString
  end.

Fixpoint rstrip (s : string) : string :=
  match s with
  | EmptyString => EmptyString
  | String c s' =>
      match rstrip s' with
      | EmptyString => if is_space c then EmptyString else String c EmptyString
      | r => String c r
      end
  end.

(** [s.strip()] *)
Definition strip (s : string) : string := rstrip (lstrip s).

(** decimal digits *)
Definition digit (n : Z) : ascii := ascii_of_nat (48 + Z.to_nat (n mod 10)).

Definition digit_val (c : ascii) : option Z :=
  let n := nat_of_ascii c in
  if (48 <=? n)%nat && (n <=? 57)%nat then Some (Z.of_nat n - 48) else None.

(** ["%02d" % n], ["%04d" % n] and ["%06d" % n] for [n] in range *)
Definition pad2 (n : Z) : string :=
  String (digit (n / 10)) (String (digit n) "").
Definition pad4 (n : Z) : string :=
  String (digit (n / 1000)) (String (digit (n / 100)) (pad2 n)).
Definition pad6 (n : Z) : string :=
  String (digit (n / 100000)) (String (digit (n / 10000)) (pad4 n)).

End PyStr.

(** ** Broken-down time: printing and parsing *)

Module Calendar.
Import Time PyStr.

(** The attributes of a [datetime] object. *)
Record fields := Fields {
  year : Z; month : Z; day : Z;
  hour : Z; minute : Z; second : Z; microsecond : Z }.

(** The end of [_ord2ymd]: the month and the day of the [n]-th day (from 0)
    of a year.  The month is estimated, and corrected when the estimate is one
    too large.  The tables [_DAYS_BEFORE_MONTH] and [_DAYS_IN_MONTH] are those
    of a common year, such as the year 1. *)
Definition month_day (leapyear : bool) (n : Z) : Z * Z :=
  let month := Z.shiftr (n + 50) 5 in
  let preceding :=
    days_before_month 1 month
    + (if (2 <? month) && leapyear then 1 else 0) in
  if n <? preceding then
    let month := month - 1 in
    let preceding :=
      preceding - (days_in_month 1 month
                   + (if (month =? 2) && leapyear then 1 else 0)) in
    (month, n - preceding + 1)
  else (month, n - preceding + 1).

(** [_ord2ymd], the inverse of [_ymd2ord] *)
Definition ord2ymd (n : Z) : Z * Z * Z :=
  let n := n - 1 in
  let n400 := n / 146097 in
  let n := n mod 146097 in
  let year := n400 * 400 + 1 in
  let n100 := n / 36524 in
  let n := n mod 36524 in
  let n4 := n / 1461 in
  let n := n mod 1461 in
  let n1 := n / 365 in
  let n := n mod 365 in
  let year := year + n100 * 100 + n4 * 4 + n1 in
  if (n1 =? 4) || (n100 =? 4) then (year - 1, 12, 31)
  else
    let leapyear := (n1 =? 3) && (negb (n4 =? 24) || (n100 =? 3)) in
    let '(month, day) := month_day leapyear n in
    (year, month, day).

(** a leap year and a common year to compute with *)
Definition model_year (leap : bool) : Z := if leap then 4 else 1.

(** the month and the day found for the day [n] of a year are those of the
    calendar (a check to run on the 366 days of both kinds of year) *)
Definition month_day_ok (leap : bool) (n : nat) : bool :=
  let y := model_year leap in
  let '(m, d) := month_day leap (Z.of_nat n) in
  (1 <=? m) && (m <=? 12) && (1 <=? d) && (d <=? days_in_month y m)
  && (days_before_month y m + d =? Z.of_nat n + 1).

(** the attributes of an instant *)
Definition broken_down (t : datetime) : fields :=
  let '(y, m, d) := ord2ymd (t / US_PER_DAY + 1) in
  let r := t mod US_PER_DAY in
  let secs := r / US_PER_SECOND in
  Fields y m d (secs / 3600) (secs / 60 mod 60) (secs mod 60)
         (r mod US_PER_SECOND).

Definition of_fields (f : fields) : option datetime :=
  mk_datetime (year f) (month f) (day f) (hour f) (minute f) (second f)
              (microsecond f).

(** the ranges of the attributes (the day is checked against the month by
    [mk_datetime]) *)
Definition fields_ok (f : fields) : Prop :=
  1 <= year f <= 9999 /\ 1 <= month f <= 12 /\ 1 <= day f <= 31
  /\ 0 <= hour f < 24 /\ 0 <= minute f < 60 /\ 0 <= second f < 60
  /\ 0 <= microsecond f < 1000000.

(** the date as [isoformat] prints it, with four digits for the year, and
    ["%H:%M:%S"] (which is ["%X"] in the C locale) *)
Definition fmt_date (f : fields) : string :=
  pad4 (year f) +:+ "-" +:+ pad2 (month f) +:+ "-" +:+ pad2 (day f).
Definition fmt_time (f : fields) : string :=
  pad2 (hour f) +:+ ":" +:+ pad2 (minute f) +:+ ":" +:+ pad2 (second f).

(** [str(d)], that is [d.isoformat(sep=' ')]: the microseconds are printed
    only when they are not zero. *)
Definition str_fields (f : fields) : string :=
  fmt_date f +:+ " " +:+ fmt_time f
  +:+ (if microsecond f =? 0 then "" else "." +:+ pad6 (microsecond f)).

Definition str_datetime (t : datetime) : string := str_fields (broken_down t).

(** *** [datetime.strptime(s, '%Y-%m-%d %X')]

    [_strptime] compiles the format to the regular expression
    [(?P<Y>\d\d\d\d)-(?P<m>1[0-2]|0[1-9]|[1-9])-(?P<d>3[01]|[12]\d|0[1-9]|[1-9]| [1-9])\s+(?P<H>2[0-3]|[0-1]\d|\d):(?P<M>[0-5]\d|\d):(?P<S>6[0-1]|[0-5]\d|\d)]
    (with ["%X"] being ["%H:%M:%S"], the C locale), matches it at the start of
    the string and rejects unconverted data.  Each group is followed by a
    character that is no digit, or by nothing, so taking the first alternative
    that matches is what the backtracking matcher does. *)

Definition matcher := string -> option (Z * string).

(** two digits [x y] accepted by [p] *)
Definition alt2 (p : Z -> Z -> bool) : matcher := fun s =>
  match s with
  | String a (String b r) =>
      match digit_val a, digit_val b with
      | Some x, Some y => if p x y then Some (10 * x + y, r) else None
      | _, _ => None
      end
  | _ => None
  end.

(** one digit accepted by [p] *)
Definition alt1 (p : Z -> bool) : matcher := fun s =>
  match s with
  | String a r =>
      match digit_val a with
      | Some x => if p x then Some (x, r) else None
      | None => None
      end
  | _ => None
  end.

Definition orelse (m1 m2 : matcher) : matcher := fun s =>
  match m1 s with Some r => Some r | None => m2 s end.

Definition re_Y : matcher := fun s =>
  match alt2 (fun _ _ => true) s with
  | Some (hi, r) =>
      match alt2 (fun _ _ => true) r with
      | Some (lo, r') => Some (100 * hi + lo, r')
      | None => None
      end
  | None => None
  end.

Definition re_m : matcher :=
  orelse (alt2 (fun x y => (x =? 1) && (y <=? 2)))
    (orelse (alt2 (fun x y => (x =? 0) && (1 <=? y)))
            (alt1 (fun x => 1 <=? x))).

Definition re_d : matcher :=
  orelse (alt2 (fun x y => (x =? 3) && (y <=? 1)))
    (orelse (alt2 (fun x y => (1 <=? x) && (x <=? 2)))
      (orelse (alt2 (fun x y => (x =? 0) && (1 <=? y)))
        (orelse (alt1 (fun x => 1 <=? x))
                (fun s => match s with
                          | String " " r => alt1 (fun x => 1 <=? x) r
                          | _ => None
                          end)))).

Definition re_H : matcher :=
  orelse (alt2 (fun x y => (x =? 2) && (y <=? 3)))
    (orelse (alt2 (fun x y => x <=? 1)) (alt1 (fun _ => true))).

Definition re_M : matcher :=
  orelse (alt2 (fun x y => x <=? 5)) (alt1 (fun _ => true)).

Definition re_S : matcher :=
  orelse (alt2 (fun x y => (x =? 6) && (y <=? 1)))
    (orelse (alt2 (fun x y => x <=? 5)) (alt1 (fun _ => true))).

(** a literal character of the format *)
Definition lit (c : ascii) (s : string) : option string :=
  match s with
  | String a r => if Ascii.eqb a c then Some r else None
  | _ => None
  end.

(** [\s+] *)
Definition spaces (s : string) : option string :=
  match s with
  | String a r => if is_space a then Some (lstrip r) else None
  | _ => None
  end.

(** the attributes found by the expression; [None] is [ValueError] *)
Definition strptime_fields (s : string) : option fields :=
  '(y, s) ← re_Y s; s ← lit "-" s;
  '(m, s) ← re_m s; s ← lit "-" s;
  '(d, s) ← re_d s; s ← spaces s;
  '(h, s) ← re_H s; s ← lit ":" s;
  '(mi, s) ← re_M s; s ← lit ":" s;
  '(sec, s) ← re_S s;
  match s with
  | EmptyString => Some (Fields y m d h mi sec 0)
  | _ => None
  end.

(** [dt.strptime(s, '%Y-%m-%d %X')]; [None] is [ValueError] *)
Definition strptime (s : string) : option datetime :=
  f ← strptime_fields s; of_fields f.

(** *** [dto.strftime(fmt)]

    The directives the client uses; [None] stands for a directive outside
    this fragment.  The text of each directive is the one of the C library
    of Linux (glibc), which CPython calls: ["%Y"] is the year in decimal
    without padding, so it has four digits from the year 1000 on and fewer
    before ([datetime(999, 1, 2).strftime("%Y")] is ["999"]), whereas [str]
    and [isoformat] always print four. *)
Definition year_text (y : Z) : string :=
  if y <? 10 then String (digit y) ""
  else if y <? 100 then String (digit (y / 10)) (String (digit y) "")
  else if y <? 1000 then
    String (digit (y / 100)) (String (digit (y / 10)) (String (digit y) ""))
  else pad4 y.

Fixpoint strftime (fmt : string) (f : fields) : option string :=
  match fmt with
  | EmptyString => Some EmptyString
  | String "%" (String c fmt') =>
      r ← strftime fmt' f;
      d ← (if Ascii.eqb c "Y" then Some (year_text (year f))
           else if Ascii.eqb c "m" then Some (pad2 (month f))
           else if Ascii.eqb c "d" then Some (pad2 (day f))
           else if Ascii.eqb c "H" then Some (pad2 (hour f))
           else if Ascii.eqb c "M" then Some (pad2 (minute f))
           else if Ascii.eqb c "S" then Some (pad2 (second f))
           else if Ascii.eqb c "X" then Some (fmt_time f)
           else if Ascii.eqb c "%" then Some "%"
           else None);
      Some (d +:+ r)
  | String "%" EmptyString => None
  | String c fmt' => r ← strftime fmt' f; Some (String c r)
  end.

End Calendar.

(** ** The string helpers of [Trader] *)

Module Helpers.
Import Time PyStr Calendar.

(** [dto.replace(tzinfo=tz.utc)]: a new object with the attributes of [dto]
    and the offset of UTC; [dto] is not modified *)
Definition replace_tzinfo_utc (dto : datetime) : datetime * Z := (dto, 0).

(** [object_to_qdstr(self, dto, gmt=False)]; [local_offset] is what
    [time.strftime("%z")] returns on this machine, such as ["-0500"].  The
    value of [dto.replace(tzinfo=tz.utc)] is bound to nothing. *)
Definition object_to_qdstr (local_offset : string) (dto : datetime)
           (gmt : bool) : option string :=
  let utcoffset := local_offset in
  let unused := if gmt then Some (replace_tzinfo_utc dto) else None in
  let utcoffset := if gmt then "+0000" else utcoffset in
  strftime ("%Y-%m-%dT%X" +:+ slice_to utcoffset 3 +:+ ":"
            +:+ slice_from utcoffset (-2))
           (broken_down dto).

(** the [stateFilter] that [get_account_orders] puts in its query *)
Definition state_filter (statefilter : string) : string :=
  if startswith (lower statefilter) "o" then "Open"
  else if startswith (lower statefilter) "c" then "Closed"
  else "All".

(** a string without the character that starts a directive *)
Fixpoint no_percent (s : string) : bool :=
  match s with
  | EmptyString => true
  | String c s' => negb (Ascii.eqb c "%") && no_percent s'
  end.

(** the normalisation the specification describes: a trailing slash, if
    there is one, is removed *)
Definition without_trailing_slash (s : string) : string :=
  if String.eqb (slice_from s (-1)) "/" then slice_to s (-1) else s.

End Helpers.


(** ** The chunking decorator [get_all] *)

Module Chunker.
Import Time.

(** How the iteration of a generator ends. [OutOfFuel] is an artefact of
    the bounded loop below and is shown never to happen. *)
Inductive completion := StopIteration | OverflowError | OutOfFuel.

Record run (A : Type) := Run { yielded : list A; ending : completion }.
Arguments Run {A} _ _.
Arguments yielded {A} _.
Arguments ending {A} _.

Definition yield_first {A} (x : A) (r : run A) : run A :=
  Run (x :: yielded r) (ending r).

Section Inner.
Context {A : Type}.
(** [f(self, startdatetime=..., enddatetime=..., *args, **kwargs)] with
    everything but the two bounds fixed. *)
Variable f : datetime -> datetime -> A.
Variable enddatetime : datetime.

Definition thirdy_days : timedelta := td 29 0.

(** The [while dlt.days > 29] loop and the [if dlt.days >= 1] after it.
    The loop variables are [startdatetime], [idt] and [dlt]. *)
Fixpoint while_loop (fuel : nat) (startdatetime idt : datetime)
         (dlt : timedelta) : run A :=
  if 29 <? td_days dlt then
    match fuel with
    | O => Run [] OutOfFuel
    | S fuel' =>
        let js := f startdatetime idt in
        let startdatetime := idt in
        match dt_add startdatetime thirdy_days with
        | None => Run [js] OverflowError
        | Some idt =>
            let dlt := dt_sub enddatetime startdatetime in
            yield_first js (while_loop fuel' startdatetime idt dlt)
        end
    end
  else if 1 <=? td_days dlt then
    Run [f startdatetime enddatetime] StopIteration
  else Run [] StopIteration.

Definition inner_with_end (startdatetime : datetime) : run A :=
  let dlt := dt_sub enddatetime startdatetime in
  if td_days dlt <=? 29 then
    Run [f startdatetime enddatetime] StopIteration
  else
    match dt_add startdatetime thirdy_days with
    | None => Run [] OverflowError
    | Some idt =>
        let js := f startdatetime idt in
        let startdatetime := idt in
        match dt_add startdatetime thirdy_days with
        | None => Run [js] OverflowError
        | Some idt =>
            let dlt := dt_sub enddatetime startdatetime in
            yield_first js
              (while_loop (Z.to_nat (td_days dlt)) startdatetime idt dlt)
        end
    end.
End Inner.

(** The generator function [inner], run to its end.  [now] is what
    [dt.now()] returns when the generator is entered. *)
Definition inner {A} (f : datetime -> datetime -> A) (now : datetime)
           (startdatetime : datetime) (enddatetime : option datetime) : run A :=
  let enddatetime :=
    match enddatetime with None => now | Some e => e end in
  inner_with_end f enddatetime startdatetime.

(** The decorator: [get_all(f)] is [inner]. *)
Definition get_all {A} (f : datetime -> datetime -> A) := inner f.

(** The sub-ranges queried: [get_all] applied to the function that records
    its two bounds. *)
Definition ranges (now start : datetime) (end_ : option datetime)
  : run (datetime * datetime) :=
  get_all pair now start end_.

(** [n] consecutive strides of 29 days from [start]. *)
Fixpoint strides (start : datetime) (n : nat) : list (datetime * datetime) :=
  match n with
  | O => []
  | S k => (start, start + thirdy_days) :: strides (start + thirdy_days) k
  end.

(** The reading of the specification: whole strides of 29 days from
    [start], then a last, partial stride [cursor, end) of at most 29 days,
    yielded when it is at least one day long. *)
Definition partition_29 (start end_ : datetime)
           (out : list (datetime * datetime)) : Prop :=
  exists n : nat,
    let cursor := start + Z.of_nat n * thirdy_days in
    dt_sub end_ cursor <= thirdy_days
    /\ out = strides start n
             ++ (if 1 <=? td_days (dt_sub end_ cursor)
                 then [(cursor, end_)] else []).

(** every queried sub-range lasts at most [limit] *)
Definition ranges_within (limit : timedelta)
           (out : list (datetime * datetime)) : Prop :=
  Forall (fun r => dt_sub (snd r) (fst r) <= limit) out.

End Chunker.

(** ** Python values, exceptions and the outside world *)

Module Py.
Import Time PyStr.

(** what [json.load] and [Response.json()] return (the numbers that the
    client meets are integers) *)
#[local] Unset Elimination Schemes.
Inductive json :=
| JNull
| JBool (b : bool)
| JNum (n : Z)
| JStr (s : string)
| JArr (l : list json)
| JObj (o : list (string * json)).
#[local] Set Elimination Schemes.

(** the value of an attribute of a [Trader] *)
Inductive pyval :=
| PJson (j : json)
| PDatetime (t : datetime).

Record request := Request {
  url : string;
  params : list (string * string);
  headers : list (string * string) }.

Record response := Response {
  status_code : Z;
  request_url : string;        (* [resp.request.url] *)
  text : string;               (* [resp.text] *)
  body : option json }.        (* [resp.json()], [None] when it raises *)

Inductive exn :=
| Exception_ (args : list string)     (* [raise Exception(...)] *)
| SystemExit (code : Z)               (* [sys.exit(code)] *)
| OSError (path : string)             (* [open] failed *)
| ConnectionError                     (* [requests.get] raised: no response *)
| HTTPError (r : response)            (* [raise_for_status], holds the response *)
| JSONDecodeError
| KeyError (key : string)
| AttributeError (name : string)
| UnboundLocalError (name : string)
| TypeError
| ValueError
| OverflowError.

(** [except Exception]: everything but [SystemExit] *)
Definition is_Exception (e : exn) : bool :=
  match e with SystemExit _ => false | _ => true end.

(** [except requests.exceptions.RequestException] *)
Definition is_RequestException (e : exn) : bool :=
  match e with ConnectionError | HTTPError _ => true | _ => false end.

(** a bare [except:] *)
Definition anything (e : exn) : bool := true.

(** what [print] was given *)
Inductive printed :=
| Line (s : string)
| ExnObj (e : exn).

(** A file: its text and what [json.load] makes of it ([None] when it is no
    JSON document, which is what a file holding a token is taken to be). *)
Record file := File { content : string; parsed : option json }.

Record world := World {
  files : gmap string file;
  write_protected : gset string;  (* paths that cannot be opened for writing *)
  clock : datetime;               (* [dt.now()] *)
  network : nat -> request -> option response;
                                  (* the answer to the n-th request;
                                     [None]: [requests.get] raises *)
  sent : list request;            (* the requests made so far *)
  stdout : list printed }.

Record trader := Trader {
  rt_file : string;
  server_type : string;
  timeout : option Z;
  attrs : gmap string pyval }.

Record st := St { self : trader; outside : world }.

Inductive result (A : Type) :=
| Ok (a : A)
| Raise (e : exn).
Arguments Ok {A} _.
Arguments Raise {A} _.

(** A computation reads and changes the object and the world, and returns
    or raises. *)
Definition M (A : Type) : Type := st -> result A * st.

Definition ret {A} (a : A) : M A := fun s => (Ok a, s).
Definition raise {A} (e : exn) : M A := fun s => (Raise e, s).
Definition bind {A B} (m : M A) (k : A -> M B) : M B := fun s =>
  match m s with
  | (Ok a, s') => k a s'
  | (Raise e, s') => (Raise e, s')
  end.

(** [try: m  except <catches> as ex: handler ex] *)
Definition try_except {A} (m : M A) (catches : exn -> bool)
           (handler : exn -> M A) : M A := fun s =>
  match m s with
  | (Raise e, s') => if catches e then handler e s' else (Raise e, s')
  | r => r
  end.

Definition when (b : bool) (m : M unit) : M unit := if b then m else ret tt.

Definition of_option {A} (o : option A) (e : exn) : M A :=
  match o with Some a => ret a | None => raise e end.

Definition set_attrs (a : gmap string pyval) (s : st) : st :=
  St (Trader (rt_file (self s)) (server_type (self s)) (timeout (self s)) a)
     (outside s).

Definition set_files (f : gmap string file) (w : world) : world :=
  World f (write_protected w) (clock w) (network w) (sent w) (stdout w).

Definition set_sent (l : list request) (w : world) : world :=
  World (files w) (write_protected w) (clock w) (network w) l (stdout w).

Definition set_stdout (l : list printed) (w : world) : world :=
  World (files w) (write_protected w) (clock w) (network w) (sent w) l.

(** [self.name] *)
Definition getattr (name : string) : M pyval := fun s =>
  of_option (attrs (self s) !! name) (AttributeError name) s.

(** [self.name = v] *)
Definition setattr (name : string) (v : pyval) : M unit := fun s =>
  (Ok tt, set_attrs (<[name := v]> (attrs (self s))) s).

Definition get_rt_file : M string := fun s => (Ok (rt_file (self s)), s).
Definition get_server_type : M string := fun s => (Ok (server_type (self s)), s).

(** [print(x)] *)
Definition print (x : printed) : M unit := fun s =>
  (Ok tt, St (self s) (set_stdout (stdout (outside s) ++ [x]) (outside s))).

(** [dt.now()] *)
Definition dt_now : M datetime := fun s => (Ok (clock (outside s)), s).

(** [sys.exit(code)] *)
Definition sys_exit {A} (code : Z) : M A := raise (SystemExit code).

(** [with open(path, mode="r") as fp]: the file, or [OSError] *)
Definition open_read (path : string) : M file := fun s =>
  of_option (files (outside s) !! path) (OSError path) s.

(** [open(path, mode="w")]: the file is created or truncated, or [OSError] *)
Definition open_write (path : string) : M unit := fun s =>
  if bool_decide (path ∈ write_protected (outside s))
  then (Raise (OSError path), s)
  else (Ok tt, St (self s)
                  (set_files (<[path := File "" None]> (files (outside s)))
                             (outside s))).

(** what the open file holds when the [with] block is left *)
Definition write_file (path : string) (f : file) : M unit := fun s =>
  (Ok tt, St (self s)
             (set_files (<[path := f]> (files (outside s))) (outside s))).

(** [requests.get(url, params=..., headers=..., timeout=self.timeout)]:
    the response, or an exception of [requests] when there is none *)
Definition requests_get (r : request) : M response := fun s =>
  let w := outside s in
  ((match network w (List.length (sent w)) r with
    | Some resp => Ok resp
    | None => Raise ConnectionError
    end),
   St (self s) (set_sent (sent w ++ [r]) w)).

(** [resp.raise_for_status()] *)
Definition raise_for_status (r : response) : M unit :=
  if (400 <=? status_code r) && (status_code r <? 600)
  then raise (HTTPError r) else ret tt.

(** [resp.json()] *)
Definition resp_json (r : response) : M json :=
  of_option (body r) JSONDecodeError.

Fixpoint assoc {A} (k : string) (l : list (string * A)) : option A :=
  match l with
  | [] => None
  | (k', v) :: l' => if String.eqb k' k then Some v else assoc k l'
  end.

(** [d[k] = v] on a dictionary, which keeps the order of insertion *)
Fixpoint assoc_set {A} (k : string) (v : A) (l : list (string * A))
  : list (string * A) :=
  match l with
  | [] => [(k, v)]
  | (k', v') :: l' =>
      if String.eqb k' k then (k, v) :: l' else (k', v') :: assoc_set k v l'
  end.

(** [rd[key]] for a string [key] *)
Definition getitem (rd : json) (key : string) : M json :=
  match rd with
  | JObj o => of_option (assoc key o) (KeyError key)
  | _ => raise TypeError
  end.

(** [rd[key] = v] for a string [key] *)
Definition setitem (rd : json) (key : string) (v : json) : M json :=
  match rd with
  | JObj o => ret (JObj (assoc_set key v o))
  | _ => raise TypeError
  end.

(** [x[:-1]] *)
Definition drop_last (x : json) : M json :=
  match x with
  | JStr s => ret (JStr (slice_to s (-1)))
  | JArr l => ret (JArr (removelast l))
  | _ => raise TypeError
  end.

(** a value used where a [str] is required *)
Definition as_str (v : pyval) : M string :=
  match v with
  | PJson (JStr s) => ret s
  | _ => raise TypeError
  end.

(** [td(seconds=x)] *)
Definition td_seconds (v : pyval) : M timedelta :=
  match v with
  | PJson (JNum n) => ret (td 0 n)
  | PJson (JBool b) => ret (td 0 (if b then 1 else 0))
  | _ => raise TypeError
  end.

(** [x // 60] *)
Definition floordiv_60 (v : pyval) : M Z :=
  match v with
  | PJson (JNum n) => ret (n / 60)
  | PJson (JBool b) => ret 0
  | _ => raise TypeError
  end.

(** [str(n)] for an integer *)
Definition str_int (n : Z) : string :=
  DecimalString.NilZero.string_of_int (Z.to_int n).

Definition newline : string := String (ascii_of_nat 10) "".

End Py.

Declare Scope py_scope.
Notation "x <- m ;; k" := (Py.bind m (fun x => k))
  (at level 100, m at next level, right associativity) : py_scope.
Notation "m ;; k" := (Py.bind m (fun _ => k))
  (at level 100, right associativity) : py_scope.

(** ** The class [Trader] *)

Module Kwess.
Import Time PyStr Calendar Py.
#[local] Open Scope py_scope.

Section Methods.
(** [json.dumps(rd, ensure_ascii=False, indent=4)], the text of a document *)
Variable json_dumps : json -> string.

Definition server_url : list (string * string) :=
  [("live", "https://login.questrade.com/oauth2/token");
   ("test", "https://practicelogin.questrade.com/oauth2/token")].

Fixpoint print_each (args : list printed) : M unit :=
  match args with
  | [] => ret tt
  | m :: args' => print m ;; print_each args'
  end.

Definition _report_and_exit {A} (args : list printed) : M A :=
  print_each args ;; sys_exit 1.

Definition returned_line (server_type : string) (status : Z) : string :=
  server_type +:+ " server returned " +:+ str_int status
  +:+ " on get_new_refresh_token() attempt.".

(** In both handlers of [RequestException] the local [resp] is bound only
    when [requests.get] returned, that is when the exception comes from
    [raise_for_status] and holds that response. *)
Definition _get_accounts : M unit :=
  let cmd_class := "v1/accounts" in
  resp <- try_except
            (a <- getattr "api_server" ;;
             a <- as_str a ;;
             t <- getattr "token_type" ;;
             k <- getattr "access_token" ;;
             t <- as_str t ;;
             k <- as_str k ;;
             resp <- requests_get
                       (Request (join "/" [a; cmd_class]) []
                                [("Authorization", join " " [t; k])]) ;;
             raise_for_status resp ;;
             ret resp)
            is_RequestException
            (fun ex =>
               match ex with
               | HTTPError resp =>
                   st <- get_server_type ;;
                   _report_and_exit
                     [Line (request_url resp); Line (text resp);
                      Line (returned_line st (status_code resp)); ExnObj ex]
               | _ => raise (UnboundLocalError "resp")
               end) ;;
  j <- resp_json resp ;;
  u <- getitem j "userId" ;;
  setattr "userid" (PJson u) ;;
  j <- resp_json resp ;;
  a <- getitem j "accounts" ;;
  setattr "accounts" (PJson a).

(** The blocks of [get_new_refresh_token], in the order of the source: the
    request under its [try], the assignments to the attributes, and the two
    writes, each under its own [try]. *)
Definition exchange (token : string) : M response :=
  let refresh_parameters :=
    [("grant_type", "refresh_token"); ("refresh_token", token)] in
  try_except
    (st <- get_server_type ;;
     u <- of_option (assoc st server_url) (KeyError st) ;;
     resp <- requests_get (Request u refresh_parameters []) ;;
     raise_for_status resp ;;
     ret resp)
    is_RequestException
    (fun ex =>
       match ex with
       | HTTPError resp =>
           print (Line (request_url resp)) ;;
           st <- get_server_type ;;
           print (Line (returned_line st (status_code resp))) ;;
           print (ExnObj ex) ;;
           raise (Exception_ [])
       | _ => raise (UnboundLocalError "resp")
       end).

Definition store (rd : json) : M unit :=
  v <- getitem rd "access_token" ;;
  setattr "access_token" (PJson v) ;;
  v <- getitem rd "token_type" ;;
  setattr "token_type" (PJson v) ;;
  v <- getitem rd "api_server" ;;
  v <- drop_last v ;;
  setattr "api_server" (PJson v) ;;
  v <- getitem rd "refresh_token" ;;
  setattr "refresh_token" (PJson v) ;;
  v <- getitem rd "expires_in" ;;
  setattr "expires_in" (PJson v).

Definition save_refresh_token : M unit :=
  try_except
    (p <- get_rt_file ;;
     open_write p ;;
     t <- getattr "refresh_token" ;;
     t <- as_str t ;;
     write_file p (File t None))
    is_Exception
    (fun ex =>
       p <- get_rt_file ;;
       print (Line ("Could not save new refresh token in file " +:+ p +:+ ":")) ;;
       print (ExnObj ex)).

Definition save_record (rd : json) : M unit :=
  try_except
    (open_write "accessToken.json" ;;
     now <- dt_now ;;
     e <- getattr "expires_in" ;;
     d <- td_seconds e ;;
     x <- of_option (dt_add now d) OverflowError ;;
     setattr "expiry_date" (PDatetime x) ;;
     rd <- setitem rd "expiry_date" (JStr (slice_to (str_datetime x) (-7))) ;;
     write_file "accessToken.json" (File (json_dumps rd) (Some rd)))
    is_Exception
    (fun ex =>
       print (Line "Could not save new access token in file accessToken.json:") ;;
       print (ExnObj ex) ;;
       raise (Exception_ [])).

Definition get_new_refresh_token (token : string) (verbose : bool) : M unit :=
  resp <- exchange token ;;
  rd <- resp_json resp ;;
  store rd ;;
  when verbose
       (e <- getattr "expires_in" ;;
        n <- floordiv_60 e ;;
        print (Line ("Successfully exchanged refresh token for a new one, and a new "
                     +:+ str_int n +:+ " minutes access token."))) ;;
  save_refresh_token ;;
  save_record rd.

Definition will_try (p : string) : string :=
  "Will try to exchange refresh token from file " +:+ p
  +:+ " for new access token/refresh token pair.".

(** The body of the first [try] of [__init__]: the cached record is read and,
    when it has not expired, confirmed by fetching the accounts. *)
Definition load_cached (verbose : bool) : M unit :=
  f <- open_read "accessToken.json" ;;
  rd <- of_option (parsed f) JSONDecodeError ;;
  v <- getitem rd "access_token" ;;
  setattr "access_token" (PJson v) ;;
  v <- getitem rd "token_type" ;;
  setattr "token_type" (PJson v) ;;
  v <- getitem rd "api_server" ;;
  v <- drop_last v ;;
  setattr "api_server" (PJson v) ;;
  v <- getitem rd "refresh_token" ;;
  setattr "refresh_token" (PJson v) ;;
  v <- getitem rd "expires_in" ;;
  setattr "expires_in" (PJson v) ;;
  v <- getitem rd "expiry_date" ;;
  setattr "expiry_date" (PJson v) ;;
  e <- getattr "expiry_date" ;;
  e <- as_str e ;;
  dto <- of_option (strptime e) ValueError ;;
  now <- dt_now ;;
  if now <=? dto then
    try_except
      (when verbose (print (Line "Access token still valid.")) ;;
       _get_accounts ;;
       when verbose (print (Line "Got account(s)")))
      anything
      (fun _ =>
         p <- get_rt_file ;;
         raise (Exception_ ["Failed to obtain account(s)." +:+ newline
                            +:+ will_try p]))
  else
    p <- get_rt_file ;;
    raise (Exception_ ["Access token expired." +:+ newline +:+ will_try p]).

(** what the constructor does with an [Exception] of its second [try] *)
Definition ask_for_token (ex : exn) : M unit :=
  print (ExnObj ex) ;;
  p <- get_rt_file ;;
  print (Line ("Please log into your Questrade account (APP HUB), generate a new token for manual authorization, and save that token in local file "
               +:+ p +:+ ", then try again.")) ;;
  sys_exit 1.

(** The handler of the first [try]: the token of [rt_file] is exchanged and
    the accounts are fetched; any [Exception] ends the process. *)
Definition reauthenticate (verbose : bool) : M unit :=
  try_except
    (p <- get_rt_file ;;
     f <- open_read p ;;
     setattr "refresh_token" (PJson (JStr (strip (content f)))) ;;
     t <- getattr "refresh_token" ;;
     t <- as_str t ;;
     get_new_refresh_token t false ;;
     _get_accounts ;;
     when verbose (print (Line "Got account(s)")))
    is_Exception
    ask_for_token.

(** [Trader(rt_file, server_type, timeout, verbose)] in the world [w] *)
Definition __init__ (rt_file server_type : string) (timeout : option Z)
           (verbose : bool) (w : world) : result unit * st :=
  try_except (load_cached verbose) anything (fun _ => reauthenticate verbose)
             (St (Trader rt_file server_type timeout ∅) w).

End Methods.

(** the request that [exchange] sends *)
Definition exchange_request (u token : string) : request :=
  Request u [("grant_type", "refresh_token"); ("refresh_token", token)] [].

(** an exception that holds the URL of a request and the status of its
    response: an [HTTPError] does, through its response, and an [Exception]
    when they are among its arguments *)
Definition carries (e : exn) (u : string) (code : Z) : Prop :=
  match e with
  | HTTPError r => request_url r = u /\ status_code r = code
  | Exception_ args => In u args /\ In (str_int code) args
  | _ => False
  end.

(** the attributes assigned from the answer of the authorization server *)
Definition stored (a t api rt ex : json) (m : gmap string pyval)
  : gmap string pyval :=
  <["expires_in" := PJson ex]>
    (<["refresh_token" := PJson rt]>
       (<["api_server" := PJson api]>
          (<["token_type" := PJson t]>
             (<["access_token" := PJson a]> m)))).

(** the answer holds the five members that [store] reads *)
Definition has_record (o : list (string * json)) (a t api rt ex : json) : Prop :=
  assoc "access_token" o = Some a /\ assoc "token_type" o = Some t
  /\ assoc "api_server" o = Some api /\ assoc "refresh_token" o = Some rt
  /\ assoc "expires_in" o = Some ex.

Definition exchanged_line (n : Z) : printed :=
  Line ("Successfully exchanged refresh token for a new one, and a new "
        +:+ str_int (n / 60) +:+ " minutes access token.").

(** the authorization server answers [r] to the exchange of [token] *)
Definition exchange_answered (s : st) (token u : string) (r : response) : Prop :=
  assoc (server_type (self s)) server_url = Some u
  /\ network (outside s) (List.length (sent (outside s)))
             (exchange_request u token)
     = Some r.

(** the request that [_get_accounts] sends *)
Definition accounts_request (api t k : string) : request :=
  Request (join "/" [api; "v1/accounts"]) []
          [("Authorization", join " " [t; k])].

(** The cached record [o] of [accessToken.json] is complete and its
    [expiry_date] parses to [dto]. *)
Definition cached (w : world) (o : list (string * json))
           (a t : json) (api : string) (rt ex : json) (dto : datetime) : Prop :=
  exists f e,
    files w !! "accessToken.json" = Some f
    /\ parsed f = Some (JObj o)
    /\ has_record o a t (JStr api) rt ex
    /\ assoc "expiry_date" o = Some (JStr e)
    /\ strptime e = Some dto.

(** the attributes once the cached record is loaded *)
Definition loaded (o : list (string * json)) (a t : json) (api : string)
           (rt ex : json) : gmap string pyval :=
  <["expiry_date" := PJson (default JNull (assoc "expiry_date" o))]>
    (stored a t (JStr (slice_to api (-1))) rt ex ∅).

(** the world once [print(l)] has run under [if verbose] *)
Definition announce (verbose : bool) (l : printed) (w : world) : world :=
  if verbose then set_stdout (stdout w ++ [l]) w else w.

(** every exception that [m] can raise satisfies [P] *)
Definition raises_only {A} (P : exn -> Prop) (m : M A) : Prop :=
  forall s e s', m s = (Raise e, s') -> P e.

(** an exception that [except Exception] catches *)
Definition is_exc (e : exn) : Prop := is_Exception e = true.

(** such an exception, or the exit of [_report_and_exit] *)
Definition exc_or_exit (e : exn) : Prop :=
  is_Exception e = true \/ e = SystemExit 1.

(** the world after some requests and some printing *)
Definition after (w : world) (reqs : list request) (out : list printed)
  : world :=
  set_stdout (stdout w ++ out) (set_sent (sent w ++ reqs) w).

End Kwess.

(** ** A sample session *)

Module Sample.
Import Time PyStr Calendar Py Kwess.

Definition dumps (j : json) : string := "{}".

Definition login : string := "https://login.questrade.com/oauth2/token".

Definition token_body (api : string) : json :=
  JObj [("access_token", JStr "AT1"); ("token_type", JStr "Bearer");
        ("api_server", JStr api);
        ("refresh_token", JStr "RT2"); ("expires_in", JNum 1800)].

Definition accounts_body : json :=
  JObj [("userId", JNum 42);
        ("accounts",
         JArr [JObj [("type", JStr "TFSA"); ("number", JStr "111")]])].

(** a server that honours the token [good] and the access token [AT1] *)
Definition server (api good : string) (n : nat) (r : request)
  : option response :=
  if String.eqb (url r) login then
    if bool_decide (params r = params (exchange_request login good))
    then Some (Response 200 (url r) "" (Some (token_body api)))
    else Some (Response 400 (url r +:+ "?grant_type=refresh_token") "Bad Request" None)
  else
    if bool_decide (headers r = [("Authorization", "Bearer AT1")])
    then Some (Response 200 (url r) "" (Some accounts_body))
    else Some (Response 401 (url r) "Unauthorized" None).

Definition api01 : string := "https://api01.iq.questrade.com/".

(** noon of 2024-03-15, to the microsecond *)
Definition noon : datetime := date 2024 3 15 + td 0 43200.

(** the same address without its final slash *)
Definition no_slash : string := "https://api01.iq.questrade.com".

(** a first start: no cached record, a token in [refreshToken] *)
Definition fresh_with (api : string) (protected : gset string)
           (now : datetime) : world :=
  World {[ "refreshToken" := File ("BOOTSTRAP123" +:+ newline) None ]}
        protected now (server api "BOOTSTRAP123") [] [].

Definition fresh := fresh_with api01.

Definition new_trader : trader := Trader "refreshToken" "live" (Some 15) ∅.

(** a new object in such a world, before any request *)
Definition starting (api : string) (protected : gset string) : st :=
  St new_trader (fresh_with api protected noon).

(** the answers of the authorization server *)
Definition r_good (api : string) : response :=
  Response 200 login "" (Some (token_body api)).
Definition r_bad : response :=
  Response 400 (login +:+ "?grant_type=refresh_token") "Bad Request" None.

(** the answer of the API server to a valid access token *)
Definition r_accounts : response :=
  Response 200 (no_slash +:+ "/v1/accounts") "" (Some accounts_body).

(** what an earlier session left in [accessToken.json] *)
Definition cached_body (access api expiry : string) : list (string * json) :=
  [("access_token", JStr access); ("token_type", JStr "Bearer");
   ("api_server", JStr api);
   ("refresh_token", JStr "RT1"); ("expires_in", JNum 1800);
   ("expiry_date", JStr expiry)].

Definition restarted (access expiry : string) (now : datetime) : world :=
  World (<["accessToken.json" :=
             File (dumps (JObj (cached_body access api01 expiry)))
                  (Some (JObj (cached_body access api01 expiry)))]>
           {[ "refreshToken" := File ("BOOTSTRAP123" +:+ newline) None ]})
        ∅ now (server api01 "BOOTSTRAP123") [] [].

(** A first session that starts at [now] and exchanges the token of
    [refreshToken], and a second one a minute later, when the server honours
    the refresh token [RT2] issued to the first. *)
Definition first_session (now : datetime) : result unit * st :=
  get_new_refresh_token dumps "BOOTSTRAP123" false
                        (St new_trader (fresh ∅ now)).

Definition a_minute_later (now : datetime) : world :=
  World (files (outside (snd (first_session now)))) ∅ (now + td 0 60)
        (server api01 "RT2") [] [].

Definition second_session (now : datetime) : result unit * st :=
  __init__ dumps "refreshToken" "live" (Some 15) true (a_minute_later now).

(** the [expiry_date] that a session left in [accessToken.json] *)
Definition persisted_expiry (w : world) : option json :=
  f ← files w !! "accessToken.json";
  rd ← parsed f;
  match rd with JObj o => assoc "expiry_date" o | _ => None end.

(** the restarted object when it probes the server with the cached token *)
Definition probing : st :=
  St (Trader "refreshToken" "live" (Some 15)
             (loaded (cached_body "AT0" api01 "2024-03-15 12:30:00")
                     (JStr "AT0") (JStr "Bearer") api01 (JStr "RT1") (JNum 1800)))
     (restarted "AT0" "2024-03-15 12:30:00" noon).

End Sample.

(** ** The decorator next to the last date *)

Module Ranges.
Import Time Chunker.

(** what the generator does from 30 days on, for any end of the range: [n]
    strides, then the last sub-range unless the bound computed in advance is
    past [datetime.max] *)
Definition chunks (start end_ : datetime) (n : nat)
  : run (datetime * datetime) :=
  let cursor := start + Z.of_nat n * thirdy_days in
  if cursor + thirdy_days <=? DT_MAX
  then Run (strides start n ++ [(cursor, end_)]) StopIteration
  else Run (strides start n) OverflowError.

End Ranges.

(** ** The queries of [Trader] *)

Module Queries.
Import Time PyStr Calendar Helpers Chunker Py Kwess.
#[local] Open Scope py_scope.

(** *** [datetime.strptime(s, '%Y-%m-%dT%X')]

    The expression is the one of ['%Y-%m-%d %X'] with the letter [T] where
    that one has [\s+]; it is compiled with [re.IGNORECASE], so that [t] is
    accepted as well. *)
Definition lit_nocase (c : ascii) (s : string) : option string :=
  match s with
  | String a r => if Ascii.eqb (lower_ascii a) (lower_ascii c) then Some r else None
  | _ => None
  end.

Definition strptime_T_fields (s : string) : option fields :=
  '(y, s) ← re_Y s; s ← lit "-" s;
  '(m, s) ← re_m s; s ← lit "-" s;
  '(d, s) ← re_d s; s ← lit_nocase "T" s;
  '(h, s) ← re_H s; s ← lit ":" s;
  '(mi, s) ← re_M s; s ← lit ":" s;
  '(sec, s) ← re_S s;
  match s with
  | EmptyString => Some (Fields y m d h mi sec 0)
  | _ => None
  end.

Definition strptime_T (s : string) : option datetime :=
  f ← strptime_T_fields s; of_fields f.

(** The names that the class [datetime.datetime] defines.  The module binds
    this class to [dt] ([from datetime import datetime as dt]), so [dt.name]
    for any other [name] raises [AttributeError]. *)
Definition datetime_class_names : list string :=
  ["min"; "max"; "resolution"; "year"; "month"; "day"; "hour"; "minute";
   "second"; "microsecond"; "tzinfo"; "fold"; "today"; "now"; "utcnow";
   "fromtimestamp"; "utcfromtimestamp"; "fromordinal"; "fromisoformat";
   "fromisocalendar"; "combine"; "strptime"; "strftime"; "date"; "time";
   "timetz"; "replace"; "astimezone"; "utcoffset"; "dst"; "tzname";
   "timetuple"; "utctimetuple"; "toordinal"; "timestamp"; "weekday";
   "isoweekday"; "isocalendar"; "isoformat"; "ctime"].

(** [dt.name], for its effect *)
Definition dt_attribute (name : string) : M unit :=
  if bool_decide (name ∈ datetime_class_names) then ret tt
  else raise (AttributeError name).

(** [x.lower()] for a value read from JSON: only [str] has the method *)
Definition lower_of (x : json) : M string :=
  match x with
  | JStr s => ret (lower s)
  | _ => raise (AttributeError "lower")
  end.

(** [for account in v]: the items that the loop goes through *)
Definition items (v : pyval) : M (list json) :=
  match v with
  | PJson (JArr l) => ret l
  | PJson (JObj o) => ret (map (fun kv => JStr (fst kv)) o)
  | PJson (JStr s) =>
      ret (map (fun c => JStr (String c "")) (list_ascii_of_string s))
  | _ => raise TypeError
  end.

(** [x == None] *)
Definition is_None (x : json) : bool :=
  match x with JNull => true | _ => false end.

(** each value must be a [str] for [join] *)
Fixpoint strs (l : list pyval) : M (list string) :=
  match l with
  | [] => ret []
  | v :: l' => x <- as_str v ;; xs <- strs l' ;; ret (x :: xs)
  end.

Definition word (s : string) : pyval := PJson (JStr s).

(** ["x" in s] for a character [x] *)
Fixpoint contains (x : ascii) (s : string) : bool :=
  match s with
  | EmptyString => false
  | String c s' => Ascii.eqb c x || contains x s'
  end.

(** an identifier passed as a number or as a string *)
Inductive ident :=
| IdInt (n : Z)
| IdStr (s : string).

(** [str(ids)] *)
Definition str_ident (ids : ident) : string :=
  match ids with IdInt n => str_int n | IdStr s => s end.

Section Methods.
(** what [time.strftime("%z")] returns on this machine, such as ["-0500"] *)
Variable local_offset : string.
(** [pprint.pformat] of a value read from JSON and of a [datetime], and
    [repr] of a dictionary of strings *)
Variable pformat : json -> string.
Variable pformat_datetime : datetime -> string.
Variable repr_dict : list (string * string) -> string.

(** [values_to_dobj(self, y, m, d, h=0, mi=0, s=0)]: the constructor is
    looked up as [dt.datetime] *)
Definition values_to_dobj (y m d h mi s : Z) : M datetime :=
  dt_attribute "datetime" ;;
  of_option (mk_datetime y m d h mi s 0) ValueError.

(** [self.object_to_qdstr(dto, gmt)]; a directive outside the fragment of
    [strftime] is reported as [ValueError] *)
Definition object_to_qdstr_ (dto : datetime) (gmt : bool) : M string :=
  of_option (object_to_qdstr local_offset dto gmt) ValueError.

Definition values_to_qdstr (y m d h mi s : Z) (gmt : bool) : M string :=
  dto <- values_to_dobj y m d h mi s ;;
  object_to_qdstr_ dto gmt.

Definition build_datetime_string (adatetime : option datetime) (gmt : bool)
  : M string :=
  match adatetime with
  | None => d2 <- dt_now ;; object_to_qdstr_ d2 gmt
  | Some adatetime => object_to_qdstr_ adatetime gmt
  end.

(** the loop of [find_account_number]; [None] is [JNull] *)
Fixpoint scan (accounttype : string) (accounts : list json) : M json :=
  match accounts with
  | [] => ret JNull
  | account :: accounts' =>
      t <- getitem account "type" ;;
      t <- lower_of t ;;
      if String.eqb (lower accounttype) t then getitem account "number"
      else scan accounttype accounts'
  end.

Definition find_account_number (accounttype : string) : M json :=
  a <- getattr "accounts" ;;
  l <- items a ;;
  scan accounttype l.

(** ["/".join([self.api_server, ...])] and
    [" ".join([self.token_type, self.access_token])] *)
Definition address (parts : list pyval) : M string :=
  a <- getattr "api_server" ;;
  l <- strs (a :: parts) ;;
  ret (join "/" l).

Definition authorization : M string :=
  t <- getattr "token_type" ;;
  k <- getattr "access_token" ;;
  l <- strs [t; k] ;;
  ret (join " " l).

(** the two [print] under [if verbosity > ...] *)
Definition print_request (parts : list pyval) : M unit :=
  u <- address parts ;;
  print (Line u) ;;
  h <- authorization ;;
  print (Line h).

(** [requests.get(<address>, headers={'Authorization': ...}, params=...)] *)
Definition get (parts : list pyval) (parameters : list (string * string))
  : M response :=
  u <- address parts ;;
  h <- authorization ;;
  requests_get (Request u parameters [("Authorization", h)]).

(** The handler of [RequestException] in the queries.  The local [resp] holds
    a response only when the exception comes from [raise_for_status]; when
    [requests.get] raised, evaluating [resp.request.url] raises [unbound]. *)
Definition report {A} (failed method : string) (unbound : exn) (ex : exn)
  : M A :=
  match ex with
  | HTTPError resp =>
      st <- get_server_type ;;
      _report_and_exit
        [Line (request_url resp); Line (text resp); Line failed;
         Line (st +:+ " server returned " +:+ str_int (status_code resp)
               +:+ " on " +:+ method +:+ "().");
         ExnObj ex]
  | _ => raise unbound
  end.

(** [if verbosity > n: pprint(resp.json())] and [return resp.json()] *)
Definition result_of (shown : bool) (resp : response) : M json :=
  when shown (j <- resp_json resp ;; print (Line (pformat j))) ;;
  resp_json resp.

(** [accountnumber = self.find_account_number(accounttype)] and the exit
    when there is none *)
Definition account (accounttype : string) : M pyval :=
  accountnumber <- find_account_number accounttype ;;
  (if is_None accountnumber
   then _report_and_exit
          [Line ("Nonexistent " +:+ accounttype +:+ " account.")]
   else ret tt) ;;
  ret (PJson accountnumber).

(** The body shared by [get_account_activities], [get_account_orders] and
    [get_account_executions]: they differ by the last part of the address
    ([what]), by the texts of the report and by the [stateFilter] that
    [get_account_orders] adds to the parameters. *)
Definition ranged (what failed method : string)
           (more : list (string * string))
           (startdatetime : option datetime) (enddatetime : option datetime)
           (accounttype : string) (verbosity : nat) : M json :=
  accountnumber <- account accounttype ;;
  sdt <- build_datetime_string startdatetime false ;;
  edt <- build_datetime_string enddatetime false ;;
  let cmd_class := word "v1/accounts" in
  when (2 <? verbosity)%nat
       (print_request [cmd_class; accountnumber; word what]) ;;
  when (0 <? verbosity)%nat
       (print (Line (repr_dict [("startTime", sdt); ("endTime", edt)]))) ;;
  let parameters := [("startTime", sdt); ("endTime", edt)] ++ more in
  resp <- try_except
            (resp <- get [cmd_class; accountnumber; word what] parameters ;;
             raise_for_status resp ;;
             ret resp)
            is_RequestException
            (report failed method (UnboundLocalError "resp")) ;;
  result_of (1 <? verbosity)%nat resp.

(** the functions that [get_all] decorates *)
Definition get_account_activities_f :=
  ranged "activities" "Failed to query server for account activities."
         "get_account_activities" [].

Definition get_account_orders_f (statefilter : string) :=
  ranged "orders" "Failed to query server for account orders."
         "get_account_orders" [("stateFilter", state_filter statefilter)].

Definition get_account_executions_f :=
  ranged "executions" "Failed to query server for account executions."
         "get_account_executions" [].

(** [inner] calls [f] with both bounds *)
Definition decorated (f : option datetime -> option datetime -> M json)
           (now startdatetime : datetime) (enddatetime : option datetime)
  : run (M json) :=
  get_all (fun a b => f (Some a) (Some b)) now startdatetime enddatetime.

Definition get_account_activities (accounttype : string) (verbosity : nat)
           (now startdatetime : datetime) (enddatetime : option datetime) :=
  decorated (fun a b => get_account_activities_f a b accounttype verbosity)
            now startdatetime enddatetime.

Definition get_account_orders (accounttype statefilter : string)
           (verbosity : nat)
           (now startdatetime : datetime) (enddatetime : option datetime) :=
  decorated (fun a b => get_account_orders_f statefilter a b accounttype
                                             verbosity)
            now startdatetime enddatetime.

Definition get_account_executions (accounttype : string) (verbosity : nat)
           (now startdatetime : datetime) (enddatetime : option datetime) :=
  decorated (fun a b => get_account_executions_f a b accounttype verbosity)
            now startdatetime enddatetime.

(** The body shared by [get_account_balances] and [get_account_positions]
    (the first passes no [timeout], which the requests of this model do not
    record). *)
Definition snapshot (what failed method : string)
           (accounttype : string) (verbosity : nat) : M json :=
  accountnumber <- account accounttype ;;
  let cmd_class := word "v1/accounts" in
  when (1 <? verbosity)%nat
       (print_request [cmd_class; accountnumber; word what]) ;;
  resp <- try_except
            (resp <- get [cmd_class; accountnumber; word what] [] ;;
             raise_for_status resp ;;
             ret resp)
            is_RequestException
            (report failed method (UnboundLocalError "resp")) ;;
  result_of (0 <? verbosity)%nat resp.

Definition get_account_balances :=
  snapshot "balances" "Failed to query server for account balances."
           "get_account_balances".

Definition get_account_positions :=
  snapshot "positions" "Failed to query server for account positions."
           "get_account_positions".

(** [rd["time"][:-13]], then [strptime]: a list can be sliced as well, and
    is rejected by [strptime]; a dictionary cannot (before Python 3.12 the
    slice is rejected as a key with [TypeError], the case kept here) *)
Definition server_datetime (rd : json) : M datetime :=
  t <- getitem rd "time" ;;
  match t with
  | JStr s => of_option (strptime_T (slice_to s (-13))) ValueError
  | _ => raise TypeError
  end.

Definition get_server_time (verbosity : nat) : M (datetime * json) :=
  when (1 <? verbosity)%nat (print_request [word "v1/time"]) ;;
  resp <- try_except
            (resp <- get [word "v1/time"] [] ;;
             raise_for_status resp ;;
             ret resp)
            is_RequestException
            (report "Failed to query server for its time." "get_server_time"
                    (UnboundLocalError "resp")) ;;
  rd <- resp_json resp ;;
  when (0 <? verbosity)%nat
       (d <- server_datetime rd ;; print (Line (pformat_datetime d))) ;;
  d <- server_datetime rd ;;
  ret (d, rd).

(** The body shared by [get_market_quotes] and [get_symbols_by_ids]: [base]
    is the address of the collection.  [resp] is [None] until a request is
    answered, so the handler raises [AttributeError] when there is no
    response. *)
Definition by_ids (base : list pyval) (failed method : string)
           (ids : ident) (verbosity : nat) : M json :=
  let ids := str_ident ids in
  resp <- try_except
            (resp <- (if contains "," ids then
                        let parameters := [("ids", ids)] in
                        when (1 <? verbosity)%nat (print_request base) ;;
                        get base parameters
                      else if negb (String.eqb ids "") then
                        when (1 <? verbosity)%nat
                             (print_request (base ++ [word ids])) ;;
                        get (base ++ [word ids]) []
                      else
                        _report_and_exit
                          [Line ("Invalid parameter(s) for " +:+ method
                                 +:+ ".")]) ;;
             raise_for_status resp ;;
             ret resp)
            is_RequestException
            (report failed (method) (AttributeError "request")) ;;
  result_of (0 <? verbosity)%nat resp.

Definition get_market_quotes :=
  by_ids [word "v1/markets"; word "quotes"]
         "Failed to query server for market quotes." "get_market_quotes".

Definition get_symbols_by_ids :=
  by_ids [word "v1/symbols"]
         "Failed to query server for symbols by ids." "get_symbols_by_ids".

End Methods.

(** a generator run to its end by its caller ([for js in ...]): the calls of
    [f] take place in the order of the yields, and the iteration ends as the
    generator does *)
Fixpoint drain {A} (l : list (M A)) : M (list A) :=
  match l with
  | [] => ret []
  | m :: l' => x <- m ;; xs <- drain l' ;; ret (x :: xs)
  end.

Definition consume {A} (gen : datetime -> run (M A)) : M (list A) :=
  now <- dt_now ;;
  xs <- drain (yielded (gen now)) ;;
  match ending (gen now) with
  | Chunker.OverflowError => raise Py.OverflowError
  | _ => ret xs
  end.

(** the request of a query on an account *)
Definition query (api t k : string) (parts : list string)
           (parameters : list (string * string)) : request :=
  Request (join "/" (api :: parts)) parameters
          [("Authorization", join " " [t; k])].

(** the object holds what the queries read *)
Definition connected (s : st) (api t k : string) : Prop :=
  attrs (self s) !! "api_server" = Some (PJson (JStr api))
  /\ attrs (self s) !! "token_type" = Some (PJson (JStr t))
  /\ attrs (self s) !! "access_token" = Some (PJson (JStr k)).

(** an account of some type, as the API describes it *)
Definition typed (accounttype : string) (account : json) : Prop :=
  exists o t, account = JObj o /\ assoc "type" o = Some (JStr t)
              /\ lower t = lower accounttype.

Definition typed_otherwise (accounttype : string) (account : json) : Prop :=
  exists o t, account = JObj o /\ assoc "type" o = Some (JStr t)
              /\ lower t <> lower accounttype.

(** the object holds an account of this type, the first of which has the
    number [number] *)
Definition has_account (s : st) (accounttype number : string) : Prop :=
  exists (pre post : list json) (o : list (string * json)) (t : string),
    attrs (self s) !! "accounts" = Some (PJson (JArr (pre ++ JObj o :: post)))
    /\ Forall (typed_otherwise accounttype) pre
    /\ assoc "type" o = Some (JStr t)
    /\ lower t = lower accounttype
    /\ assoc "number" o = Some (JStr number).

(** it holds accounts, none of this type *)
Definition has_no_account (s : st) (accounttype : string) : Prop :=
  exists l : list json,
    attrs (self s) !! "accounts" = Some (PJson (JArr l))
    /\ Forall (typed_otherwise accounttype) l.

(** the Questrade text of an instant, in local time *)
Definition qdstr (local_offset : string) (d : datetime) : string :=
  year_text (year (broken_down d)) +:+ "-" +:+ pad2 (month (broken_down d))
  +:+ "-" +:+ pad2 (day (broken_down d)) +:+ "T"
  +:+ fmt_time (broken_down d)
  +:+ slice_to local_offset 3 +:+ ":" +:+ slice_from local_offset (-2).

(** the request of a query on the sub-range [r] *)
Definition ranged_request (local_offset api t k number what : string)
           (more : list (string * string)) (r : datetime * datetime)
  : request :=
  query api t k ["v1/accounts"; number; what]
        ([("startTime", qdstr local_offset (fst r));
          ("endTime", qdstr local_offset (snd r))] ++ more).

(** the server answers the requests [reqs], the first being the [n]-th it
    receives, with the documents [js] *)
Fixpoint answers (net : nat -> request -> option response) (n : nat)
         (reqs : list request) (js : list json) : Prop :=
  match reqs, js with
  | [], [] => True
  | q :: reqs', j :: js' =>
      (exists r, net n q = Some r /\ ~ 400 <= status_code r < 600
                 /\ body r = Some j)
      /\ answers net (S n) reqs' js'
  | _, _ => False
  end.

(** how the iteration of [consume] ends *)
Definition finish {A} (c : completion) (xs : list A) : result (list A) :=
  match c with
  | Chunker.OverflowError => Raise Py.OverflowError
  | _ => Ok xs
  end.

(** the request of a query by identifiers: a list of them goes in the
    parameters, a single one in the address *)
Definition routed (api t k : string) (base : list string) (ids : string)
  : request :=
  if contains "," ids then query api t k base [("ids", ids)]
  else query api t k (base ++ [ids]) [].

(** [m] changes nothing but the record of the requests sent and of the lines
    printed, which it extends: the object, the files and the clock are left
    as they were *)
Definition observes {A} (m : M A) : Prop :=
  forall s, exists reqs out,
    snd (m s) = St (self s) (after (outside s) reqs out).

End Queries.

(** ** A sample account holder *)

Module QuerySample.
Import Time PyStr Calendar Py Kwess Sample Queries.

Definition accounts : json :=
  JArr [JObj [("type", JStr "Margin"); ("number", JStr "111")];
        JObj [("type", JStr "TFSA"); ("number", JStr "222")];
        JObj [("type", JStr "tfsa"); ("number", JStr "333")]].

(** an object that the constructor has connected *)
Definition holder : trader :=
  Trader "refreshToken" "live" (Some 15)
         (<["accounts" := PJson accounts]>
            (<["access_token" := word "AT1"]>
               (<["token_type" := word "Bearer"]>
                  (<["api_server" := word no_slash]> ∅)))).

(** the parameters of a request, sent back as a document *)
Definition echo (r : request) : json :=
  JObj (map (fun kv => (fst kv, JStr (snd kv))) (params r)).

Definition time_text : string := "2024-03-15T12:00:00.123000-04:00".

(** a server that tells its time and otherwise answers with [echo] *)
Definition api (n : nat) (r : request) : option response :=
  if String.eqb (url r) (no_slash +:+ "/v1/time")
  then Some (Response 200 (url r) "" (Some (JObj [("time", JStr time_text)])))
  else Some (Response 200 (url r) "" (Some (echo r))).

Definition online : st := St holder (World ∅ ∅ noon api [] []).

Definition offline : st := St holder (World ∅ ∅ noon (fun _ _ => None) [] []).

Definition refused : st :=
  St holder
     (World ∅ ∅ noon
            (fun _ r => Some (Response 404 (url r) "Not Found" None)) [] []).

Definition show (j : json) : string := "{}".
Definition show_datetime (d : datetime) : string := "datetime.datetime()".
Definition show_dict (d : list (string * string)) : string := "{}".

End QuerySample.

(** * Properties *)

(** ** Arithmetic of durations *)

Module TimeFacts.
Import Time.

Lemma US_PER_DAY_eq : US_PER_DAY = 86400000000.
Proof. reflexivity. Qed.

Lemma US_PER_DAY_pos : 0 < US_PER_DAY.
Proof. reflexivity. Qed.

Lemma td_days_spec (d : timedelta) (k : Z) :
  k <= td_days d <-> k * US_PER_DAY <= d.
Proof.
  unfold td_days. rewrite US_PER_DAY_eq. split; intros H.
  - Z.div_mod_to_equations. lia.
  - apply Z.div_le_lower_bound; lia.
Qed.

Lemma td_days_lt (d : timedelta) (k : Z) :
  td_days d < k <-> d < k * US_PER_DAY.
Proof. pose proof (td_days_spec d k). lia. Qed.

Lemma td_days_shift (d : timedelta) (k : Z) :
  td_days (d - k * US_PER_DAY) = td_days d - k.
Proof.
  unfold td_days. rewrite US_PER_DAY_eq.
  replace (d - k * 86400000000) with (d + (- k) * 86400000000) by lia.
  rewrite Z.div_add by lia. lia.
Qed.

Lemma dt_add_Some (t : datetime) (d : timedelta) :
  0 <= t + d <= DT_MAX -> dt_add t d = Some (t + d).
Proof.
  intros [H1 H2]. unfold dt_add.
  destruct (Z.leb_spec 0 (t + d)); [|lia].
  destruct (Z.leb_spec (t + d) DT_MAX); [|lia]. reflexivity.
Qed.

Lemma dt_add_inv (t : datetime) (d : timedelta) (r : datetime) :
  dt_add t d = Some r -> r = t + d /\ dt_valid r.
Proof.
  unfold dt_add, dt_valid.
  destruct (Z.leb_spec 0 (t + d)); destruct (Z.leb_spec (t + d) DT_MAX);
    simpl; intros [= <-]; lia.
Qed.

End TimeFacts.

(** ** Slices *)

Module PyStrFacts.
Import PyStr.

Lemma length_append (a b : string) :
  String.length (a +:+ b) = (String.length a + String.length b)%nat.
Proof.
  induction a as [|c a IH]; [reflexivity|].
  change (String c a +:+ b) with (String c (a +:+ b)).
  cbn [String.length]. rewrite IH. reflexivity.
Qed.

Lemma substring_prefix (a b : string) :
  String.substring 0 (String.length a) (a +:+ b) = a.
Proof.
  induction a as [|c a IH].
  - destruct b; reflexivity.
  - change (String c a +:+ b) with (String c (a +:+ b)).
    cbn [String.length String.substring]. rewrite IH. reflexivity.
Qed.

(** [(a + b)[:-k]] is [a] when [b] has [k >= 1] characters *)
Lemma slice_to_append (a b : string) (k : Z) :
  0 < k -> Z.of_nat (String.length b) = k -> slice_to (a +:+ b) (- k) = a.
Proof.
  intros Hk Hb. unfold slice_to, clip. rewrite length_append.
  destruct (Z.ltb_spec (- k) 0); [|lia].
  replace (Z.to_nat _) with (String.length a) by lia.
  apply substring_prefix.
Qed.

Lemma slice_to_last (s : string) (c : ascii) :
  slice_to (s +:+ String c "") (-1) = s.
Proof. apply (slice_to_append s (String c "") 1); [lia|reflexivity]. Qed.

End PyStrFacts.

(** ** The chunking decorator *)

Module ChunkerFacts.
Import Time Chunker TimeFacts.

Lemma thirdy_days_eq : thirdy_days = 29 * US_PER_DAY.
Proof. reflexivity. Qed.

Lemma strides_length start n : length (strides start n) = n.
Proof. revert start. induction n; intros; simpl; auto. Qed.

(** every stride is 29 days long *)
Lemma strides_exact start n :
  Forall (fun r => snd r - fst r = thirdy_days) (strides start n).
Proof.
  revert start. induction n as [|n IH]; intros start; simpl.
  - constructor.
  - constructor; [simpl; lia | apply IH].
Qed.

(** the [i]-th stride is [start + 29 i, start + 29 (i+1)) *)
Lemma strides_lookup start n (i : nat) :
  (i < n)%nat ->
  strides start n !! i
  = Some (start + Z.of_nat i * thirdy_days,
          start + (Z.of_nat i + 1) * thirdy_days).
Proof.
  revert start i. induction n as [|n IH]; intros start i Hi; [lia|].
  destruct i as [|i]; simpl.
  - f_equal. f_equal; lia.
  - rewrite IH by lia. f_equal. f_equal; lia.
Qed.

(** the function [f] only labels the sub-ranges *)
Lemma while_loop_map {A} (f : datetime -> datetime -> A) e fuel s i d :
  while_loop f e fuel s i d
  = Run (map (fun r => f (fst r) (snd r))
             (yielded (while_loop pair e fuel s i d)))
        (ending (while_loop pair e fuel s i d)).
Proof.
  revert s i d. induction fuel as [|fuel IH]; intros s i d; simpl.
  - destruct (29 <? td_days d); [reflexivity|].
    destruct (1 <=? td_days d); reflexivity.
  - destruct (29 <? td_days d).
    + destruct (dt_add i thirdy_days) as [i'|]; [|reflexivity].
      rewrite IH. reflexivity.
    + destruct (1 <=? td_days d); reflexivity.
Qed.

Lemma get_all_map {A} (f : datetime -> datetime -> A) now s e :
  get_all f now s e
  = Run (map (fun r => f (fst r) (snd r)) (yielded (ranges now s e)))
        (ending (ranges now s e)).
Proof.
  unfold ranges, get_all, inner, inner_with_end.
  destruct (td_days _ <=? 29); [reflexivity|].
  destruct (dt_add s thirdy_days) as [i|]; [|reflexivity].
  destruct (dt_add i thirdy_days) as [i'|]; [|reflexivity].
  rewrite while_loop_map. reflexivity.
Qed.

(** The loop, started with at least a day left, enough fuel and enough
    room before [datetime.max], yields whole strides and then the rest. *)
Lemma while_loop_strides (e : datetime) (fuel : nat) (s : datetime) :
  0 <= s ->
  e + 28 * US_PER_DAY <= DT_MAX ->
  1 * US_PER_DAY <= e - s ->
  (Z.to_nat (td_days (e - s)%Z) <= fuel)%nat ->
  exists n : nat,
    while_loop pair e fuel s (s + thirdy_days) (dt_sub e s)
    = Run (strides s n ++ [(s + Z.of_nat n * thirdy_days, e)]) StopIteration
    /\ 1 * US_PER_DAY <= e - (s + Z.of_nat n * thirdy_days) < 30 * US_PER_DAY.
Proof.
  pose proof US_PER_DAY_pos as Hpos.
  revert s. induction fuel as [|fuel IH]; intros s Hs He Hday Hfuel.
  - assert (td_days (e - s) < 1) as H0 by lia.
    apply td_days_lt in H0. lia.
  - unfold dt_sub. cbn [while_loop].
    destruct (Z.ltb_spec 29 (td_days (e - s))) as [Hgt|Hle].
    + assert (30 * US_PER_DAY <= e - s) as H30 by (apply td_days_spec; lia).
      rewrite thirdy_days_eq in *.
      rewrite dt_add_Some by lia.
      destruct (IH (s + 29 * US_PER_DAY)) as (n & Hrun & Htail); try lia.
      { replace (e - (s + 29 * US_PER_DAY)) with (e - s - 29 * US_PER_DAY) by lia.
        rewrite td_days_shift. lia. }
      exists (S n). rewrite Hrun.
      unfold yield_first. cbn [yielded ending strides].
      rewrite thirdy_days_eq, US_PER_DAY_eq in *.
      split; [|lia]. rewrite <- app_comm_cons. do 5 f_equal. lia.
    + assert (1 <= td_days (e - s)) as H1 by (apply td_days_spec; lia).
      destruct (Z.leb_spec 1 (td_days (e - s))); [|lia].
      exists 0%nat. simpl. split; [do 3 f_equal; lia|].
      assert (td_days (e - s) < 30) as H30 by lia.
      apply td_days_lt in H30. lia.
Qed.

(** Whatever the inputs, the loop never yields a range of 30 days or more,
    and the bound on its iterations is never what ends it. *)
Lemma while_loop_bound (e : datetime) (fuel : nat) (s : datetime) :
  Forall (fun r => snd r - fst r < 30 * US_PER_DAY)
         (yielded (while_loop pair e fuel s (s + thirdy_days) (dt_sub e s))).
Proof.
  revert s. induction fuel as [|fuel IH]; intros s; unfold dt_sub; cbn [while_loop].
  - destruct (Z.ltb_spec 29 (td_days (e - s))); [constructor|].
    destruct (Z.leb_spec 1 (td_days (e - s))); simpl; [|constructor].
    repeat constructor. simpl. apply td_days_lt. lia.
  - destruct (Z.ltb_spec 29 (td_days (e - s))).
    + destruct (dt_add _ _) as [i|] eqn:Hadd.
      * apply dt_add_inv in Hadd as [-> _]. simpl. constructor.
        { simpl. rewrite thirdy_days_eq, US_PER_DAY_eq. lia. }
        apply IH.
      * repeat constructor. simpl. rewrite thirdy_days_eq, US_PER_DAY_eq. lia.
    + destruct (Z.leb_spec 1 (td_days (e - s))); simpl; [|constructor].
      repeat constructor. simpl. apply td_days_lt. lia.
Qed.

Lemma while_loop_fuel (e : datetime) (fuel : nat) (s : datetime) :
  (Z.to_nat (td_days (e - s)%Z) <= fuel)%nat ->
  ending (while_loop pair e fuel s (s + thirdy_days) (dt_sub e s)) <> OutOfFuel.
Proof.
  revert s. induction fuel as [|fuel IH]; intros s Hf; unfold dt_sub; cbn [while_loop].
  - destruct (Z.ltb_spec 29 (td_days (e - s))); [lia|].
    destruct (1 <=? td_days (e - s)); simpl; congruence.
  - destruct (Z.ltb_spec 29 (td_days (e - s))).
    + destruct (dt_add _ _) as [i|] eqn:Hadd; [|simpl; congruence].
      apply dt_add_inv in Hadd as [-> _]. simpl. apply IH.
      rewrite thirdy_days_eq.
      replace (e - (s + 29 * US_PER_DAY)) with (e - s - 29 * US_PER_DAY) by lia.
      rewrite td_days_shift. lia.
    + destruct (1 <=? td_days (e - s)); simpl; congruence.
Qed.

Lemma inner_with_end_single {A} (f : datetime -> datetime -> A) e s :
  dt_sub e s < td 30 0 ->
  inner_with_end f e s = Run [f s e] StopIteration.
Proof.
  intros H. unfold inner_with_end.
  destruct (Z.leb_spec (td_days (dt_sub e s)) 29) as [_|Hgt]; [reflexivity|].
  assert (30 <= td_days (dt_sub e s)) as H30 by lia.
  apply td_days_spec in H30. unfold td in H. lia.
Qed.

Lemma inner_with_end_strides e s :
  0 <= s ->
  e + td 28 0 <= DT_MAX ->
  td 30 0 <= dt_sub e s ->
  exists n : nat,
    (1 <= n)%nat
    /\ inner_with_end pair e s
       = Run (strides s n ++ [(s + Z.of_nat n * thirdy_days, e)]) StopIteration
    /\ td 1 0 <= dt_sub e (s + Z.of_nat n * thirdy_days) < td 30 0.
Proof.
  unfold td, dt_sub. rewrite !Z.mul_0_l, !Z.add_0_r.
  pose proof US_PER_DAY_pos as Hpos. intros Hs He H30.
  unfold inner_with_end, dt_sub.
  destruct (Z.leb_spec (td_days (e - s)) 29) as [Hle|_].
  { assert (td_days (e - s) < 30) as Hlt by lia.
    apply td_days_lt in Hlt. lia. }
  assert (thirdy_days = 29 * US_PER_DAY) as E29 by reflexivity.
  rewrite !dt_add_Some by lia.
  destruct (while_loop_strides e (Z.to_nat (td_days (e - (s + thirdy_days))))
              (s + thirdy_days)) as (n & Hrun & Htail); try lia.
  exists (S n). unfold dt_sub in Hrun. rewrite Hrun.
  unfold yield_first. cbn [yielded ending strides].
  rewrite E29, US_PER_DAY_eq in *.
  split; [lia|]. split; [|lia].
  rewrite <- app_comm_cons. do 5 f_equal. lia.
Qed.

(** C2: when [end - start] is at most 29 days ([end] being the current
    instant when omitted), the decorated generator yields exactly one
    result, the query on the unmodified bounds, and then stops. *)
Theorem get_all_single_range {A} (f : datetime -> datetime -> A)
        (now start : datetime) (end_ : option datetime) :
  dt_sub (default now end_) start <= td 29 0 ->
  get_all f now start end_
  = Run [f start (default now end_)] StopIteration.
Proof.
  intros H. unfold get_all, inner.
  replace (match end_ with Some e => e | None => now end)
    with (default now end_) by (destruct end_; reflexivity).
  apply inner_with_end_single. unfold td in *. rewrite US_PER_DAY_eq in *. lia.
Qed.

Lemma get_all_single_range_witness :
  dt_sub (date 2024 1 30) (date 2024 1 1) <= td 29 0
  /\ get_all pair 0 (date 2024 1 1) (Some (date 2024 1 30))
     = Run [(date 2024 1 1, date 2024 1 30)] StopIteration.
Proof.
  split; [vm_compute; discriminate|].
  apply (get_all_single_range pair 0 (date 2024 1 1) (Some (date 2024 1 30))).
  vm_compute; discriminate.
Defined.

Lemma partition_29_single (s e : datetime) :
  partition_29 s e [(s, e)] -> dt_sub e s <= thirdy_days.
Proof.
  intros [n [Hlast Hout]]. destruct n as [|n].
  - unfold dt_sub in *. simpl in Hlast. lia.
  - cbn [strides app] in Hout. injection Hout as -> _. unfold dt_sub. lia.
Qed.

(** C1 as stated fails on a span of twenty-nine and a half days: the whole
    span is queried in one piece, which is no partial stride. *)
Lemma partition_29_fails :
  td 29 0 < dt_sub (date 2024 1 30 + td 0 43200) (date 2024 1 1)
  /\ yielded (ranges 0 (date 2024 1 1) (Some (date 2024 1 30 + td 0 43200)))
     = [(date 2024 1 1, date 2024 1 30 + td 0 43200)]
  /\ ~ partition_29 (date 2024 1 1) (date 2024 1 30 + td 0 43200)
        (yielded (ranges 0 (date 2024 1 1)
                         (Some (date 2024 1 30 + td 0 43200)))).
Proof.
  assert (yielded (ranges 0 (date 2024 1 1) (Some (date 2024 1 30 + td 0 43200)))
          = [(date 2024 1 1, date 2024 1 30 + td 0 43200)]) as E
      by (vm_compute; reflexivity).
  split; [vm_compute; reflexivity|]. split; [exact E|].
  rewrite E. intros H. apply partition_29_single in H.
  revert H. vm_compute. intros H. apply H. reflexivity.
Qed.

(** C1 (amended): the decorator compares whole days ([dlt.days]).  A span
    over 29 days and under 30 is still queried in one piece; from 30 days
    on, the yielded sub-ranges are [n >= 1] strides of exactly 29 days from
    [start], each beginning where the previous one ended, followed by a last
    sub-range [cursor, end) that is always yielded, being at least 1 day and
    under 30 days long, so that the sub-ranges partition [start, end).
    2024-01-01 to 2024-03-15 gives the three chunks of the specification. *)
Theorem get_all_partition :
  (forall (now start : datetime) (end_ : option datetime),
      let e := default now end_ in
      0 <= start ->
      e + td 28 0 <= DT_MAX ->
      td 29 0 < dt_sub e start ->
      (dt_sub e start < td 30 0 ->
       ranges now start end_ = Run [(start, e)] StopIteration)
      /\ (td 30 0 <= dt_sub e start ->
          exists n : nat,
            let cursor := start + Z.of_nat n * thirdy_days in
            (1 <= n)%nat
            /\ ranges now start end_
               = Run (strides start n ++ [(cursor, e)]) StopIteration
            /\ td 1 0 <= dt_sub e cursor < td 30 0))
  /\ ranges 0 (date 2024 1 1) (Some (date 2024 3 15))
     = Run [(date 2024 1 1, date 2024 1 30);
            (date 2024 1 30, date 2024 2 28);
            (date 2024 2 28, date 2024 3 15)] StopIteration.
Proof.
  split; [|vm_compute; reflexivity].
  intros now start end_ e Hs He _.
  assert (ranges now start end_ = inner_with_end pair e start) as ->
      by (unfold ranges, get_all, inner, e; destruct end_; reflexivity).
  split; intros H.
  - apply inner_with_end_single, H.
  - apply inner_with_end_strides; assumption.
Qed.

Lemma get_all_partition_witness :
  0 <= date 2024 1 1
  /\ date 2024 3 15 + td 28 0 <= DT_MAX
  /\ td 29 0 < dt_sub (date 2024 3 15) (date 2024 1 1)
  /\ td 30 0 <= dt_sub (date 2024 3 15) (date 2024 1 1)
  /\ exists n : nat,
      (1 <= n)%nat
      /\ ranges 0 (date 2024 1 1) (Some (date 2024 3 15))
         = Run (strides (date 2024 1 1) n
                ++ [(date 2024 1 1 + Z.of_nat n * thirdy_days, date 2024 3 15)])
               StopIteration
      /\ td 1 0
         <= dt_sub (date 2024 3 15) (date 2024 1 1 + Z.of_nat n * thirdy_days)
         < td 30 0.
Proof.
  assert (0 <= date 2024 1 1) as H1 by (vm_compute; discriminate).
  assert (date 2024 3 15 + td 28 0 <= DT_MAX) as H2 by (vm_compute; discriminate).
  assert (td 29 0 < dt_sub (date 2024 3 15) (date 2024 1 1)) as H3
      by (vm_compute; reflexivity).
  assert (td 30 0 <= dt_sub (date 2024 3 15) (date 2024 1 1)) as H4
      by (vm_compute; discriminate).
  repeat (split; [assumption|]).
  exact (proj2 (proj1 get_all_partition 0 (date 2024 1 1)
                      (Some (date 2024 3 15)) H1 H2 H3) H4).
Defined.

Lemma ranges_within_single (limit : timedelta) (s e : datetime) :
  ranges_within limit [(s, e)] -> dt_sub e s <= limit.
Proof. intros H. inversion H; subst. assumption. Qed.

(** C3 as stated fails: twenty-nine days and one hour are queried in one
    piece. *)
Lemma ranges_within_29_fails :
  date 2024 1 1 <= date 2024 1 30 + td 0 3600
  /\ yielded (ranges 0 (date 2024 1 1) (Some (date 2024 1 30 + td 0 3600)))
     = [(date 2024 1 1, date 2024 1 30 + td 0 3600)]
  /\ ~ ranges_within (td 29 0)
        (yielded (ranges 0 (date 2024 1 1)
                         (Some (date 2024 1 30 + td 0 3600)))).
Proof.
  assert (yielded (ranges 0 (date 2024 1 1) (Some (date 2024 1 30 + td 0 3600)))
          = [(date 2024 1 1, date 2024 1 30 + td 0 3600)]) as E
      by (vm_compute; reflexivity).
  split; [vm_compute; discriminate|]. split; [exact E|].
  rewrite E. intros H. apply ranges_within_single in H.
  revert H. vm_compute. intros H. apply H. reflexivity.
Qed.

(** C3 (amended): for [start <= end], every query issued by the decorator
    covers a sub-range of less than 30 days, the limit of the API: for every
    yielded call Q(a, b), [(b - a).days <= 29].  This holds however the
    iteration ends. *)
Theorem get_all_ranges_under_30_days
        (now start : datetime) (end_ : option datetime) :
  start <= default now end_ ->
  Forall (fun r => dt_sub (snd r) (fst r) < td 30 0
                   /\ td_days (dt_sub (snd r) (fst r)) <= 29)
         (yielded (ranges now start end_)).
Proof.
  intros _.
  assert (forall l : list (datetime * datetime),
             Forall (fun r => snd r - fst r < 30 * US_PER_DAY) l ->
             Forall (fun r => dt_sub (snd r) (fst r) < td 30 0
                              /\ td_days (dt_sub (snd r) (fst r)) <= 29) l) as Hweak.
  { intros l Hl. eapply Forall_impl; [exact Hl|].
    intros r Hr. cbv beta in Hr. unfold dt_sub, td, datetime in *.
    split; [lia|]. apply Z.lt_succ_r. apply td_days_lt. lia. }
  apply Hweak. unfold ranges, get_all, inner, inner_with_end.
  set (e := match end_ with Some e => e | None => now end).
  destruct (Z.leb_spec (td_days (dt_sub e start)) 29) as [Hle|Hgt].
  - repeat constructor. simpl. apply td_days_lt. unfold dt_sub in Hle. lia.
  - destruct (dt_add start thirdy_days) as [i|] eqn:Hi; [|constructor].
    apply dt_add_inv in Hi as [-> _].
    assert (start + thirdy_days - start < 30 * US_PER_DAY) as Hfirst
        by (rewrite thirdy_days_eq, US_PER_DAY_eq; lia).
    destruct (dt_add (start + thirdy_days) thirdy_days) as [i|] eqn:Hi.
    + apply dt_add_inv in Hi as [-> _]. simpl.
      constructor; [exact Hfirst|]. apply while_loop_bound.
    + repeat constructor. exact Hfirst.
Qed.

Lemma get_all_ranges_under_30_days_witness :
  date 2024 1 1 <= date 2024 3 15
  /\ Forall (fun r => dt_sub (snd r) (fst r) < td 30 0
                      /\ td_days (dt_sub (snd r) (fst r)) <= 29)
            (yielded (ranges 0 (date 2024 1 1) (Some (date 2024 3 15)))).
Proof.
  assert (date 2024 1 1 <= date 2024 3 15) as H by (vm_compute; discriminate).
  split; [exact H|].
  exact (get_all_ranges_under_30_days 0 (date 2024 1 1) (Some (date 2024 3 15)) H).
Defined.

(** The bound on the loop is never what ends the iteration: the generator
    either stops or raises [OverflowError] next to [datetime.max]. *)
Lemma get_all_terminates (now start : datetime) (end_ : option datetime) :
  ending (ranges now start end_) <> OutOfFuel.
Proof.
  unfold ranges, get_all, inner, inner_with_end.
  set (e := match end_ with Some e => e | None => now end).
  destruct (td_days (dt_sub e start) <=? 29); [simpl; congruence|].
  destruct (dt_add start thirdy_days) as [i|] eqn:Hi; [|simpl; congruence].
  apply dt_add_inv in Hi as [-> _].
  destruct (dt_add (start + thirdy_days) thirdy_days) as [i|] eqn:Hi;
    [|simpl; congruence].
  apply dt_add_inv in Hi as [-> _]. simpl.
  apply while_loop_fuel. unfold dt_sub. lia.
Qed.

End ChunkerFacts.

(** ** Printing and parsing dates *)

Module CalendarFacts.
Import Time PyStr Calendar PyStrFacts TimeFacts.

Lemma digit_cases (n : Z) :
  exists k : nat, (k < 10)%nat /\ n mod 10 = Z.of_nat k
                  /\ digit n = ascii_of_nat (48 + k).
Proof.
  exists (Z.to_nat (n mod 10)).
  pose proof (Z.mod_pos_bound n 10 ltac:(lia)).
  split; [lia|]. split; [lia|]. reflexivity.
Qed.

Lemma digit_val_digit (n : Z) : digit_val (digit n) = Some (n mod 10).
Proof.
  destruct (digit_cases n) as (k & Hk & -> & ->).
  do 10 (destruct k as [|k]; [reflexivity|]). lia.
Qed.

Lemma is_space_digit (n : Z) : is_space (digit n) = false.
Proof.
  destruct (digit_cases n) as (k & Hk & _ & ->).
  do 10 (destruct k as [|k]; [reflexivity|]). lia.
Qed.

Lemma alt2_digits (p : Z -> Z -> bool) (a b : Z) (r : string) :
  alt2 p (String (digit a) (String (digit b) r))
  = if p (a mod 10) (b mod 10) then Some (10 * (a mod 10) + b mod 10, r)
    else None.
Proof. unfold alt2. rewrite !digit_val_digit. reflexivity. Qed.

Lemma alt1_digit (p : Z -> bool) (a : Z) (r : string) :
  alt1 p (String (digit a) r)
  = if p (a mod 10) then Some (a mod 10, r) else None.
Proof. unfold alt1. rewrite digit_val_digit. reflexivity. Qed.

Lemma re_Y_pad4 (y : Z) (r : string) :
  0 <= y < 10000 ->
  re_Y (String (digit (y / 1000)) (String (digit (y / 100))
          (String (digit (y / 10)) (String (digit y) r))))
  = Some (y, r).
Proof.
  intros Hy. unfold re_Y. rewrite !alt2_digits. f_equal. f_equal.
  Z.div_mod_to_equations. lia.
Qed.

Lemma re_m_pad2 (m : Z) (r : string) :
  1 <= m <= 12 ->
  re_m (String (digit (m / 10)) (String (digit m) r)) = Some (m, r).
Proof.
  intros H. unfold re_m, orelse. rewrite !alt2_digits, !alt1_digit.
  assert (m = 1 \/ m = 2 \/ m = 3 \/ m = 4 \/ m = 5 \/ m = 6 \/ m = 7 \/ m = 8
          \/ m = 9 \/ m = 10 \/ m = 11 \/ m = 12) as Hm by lia.
  repeat destruct Hm as [->|Hm]; try subst m; reflexivity.
Qed.

Ltac solve_re :=
  unfold orelse; rewrite ?alt2_digits, ?alt1_digit;
  repeat match goal with
         | |- context [Z.eqb ?a ?b] => destruct (Z.eqb_spec a b)
         | |- context [Z.leb ?a ?b] => destruct (Z.leb_spec a b)
         end;
  cbn [andb orb];
  first [ f_equal; f_equal; Z.div_mod_to_equations; lia
        | exfalso; Z.div_mod_to_equations; lia ].

Lemma re_d_pad2 (d : Z) (r : string) :
  1 <= d <= 31 ->
  re_d (String (digit (d / 10)) (String (digit d) r)) = Some (d, r).
Proof. intros H. unfold re_d. solve_re. Qed.

Lemma re_H_pad2 (h : Z) (r : string) :
  0 <= h < 24 ->
  re_H (String (digit (h / 10)) (String (digit h) r)) = Some (h, r).
Proof. intros H. unfold re_H. solve_re. Qed.

Lemma re_M_pad2 (m : Z) (r : string) :
  0 <= m < 60 ->
  re_M (String (digit (m / 10)) (String (digit m) r)) = Some (m, r).
Proof. intros H. unfold re_M. solve_re. Qed.

Lemma re_S_pad2 (s : Z) (r : string) :
  0 <= s < 60 ->
  re_S (String (digit (s / 10)) (String (digit s) r)) = Some (s, r).
Proof. intros H. unfold re_S. solve_re. Qed.

(** the date and the white space are read, whatever the time is *)
Lemma strptime_fields_date (f : fields) (r : string) :
  fields_ok f ->
  strptime_fields (fmt_date f +:+ " " +:+ r)
  = ('(h, s) ← re_H (lstrip r); s ← lit ":" s;
     '(mi, s) ← re_M s; s ← lit ":" s;
     '(sec, s) ← re_S s;
     match s with
     | EmptyString => Some (Fields (year f) (month f) (day f) h mi sec 0)
     | _ => None
     end).
Proof.
  intros (Hy & Hm & Hd & _). unfold strptime_fields.
  cbv [fmt_date pad4 pad2 String.append].
  rewrite re_Y_pad4 by lia. cbn [mbind option_bind lit Ascii.eqb Bool.eqb].
  rewrite re_m_pad2 by lia. cbn [mbind option_bind lit Ascii.eqb Bool.eqb].
  rewrite re_d_pad2 by lia. cbn [mbind option_bind spaces is_space]. 
  reflexivity.
Qed.

Lemma lstrip_digit (n : Z) (r : string) :
  lstrip (String (digit n) r) = String (digit n) r.
Proof. cbn [lstrip]. rewrite is_space_digit. reflexivity. Qed.

(** the text with the seconds is read back *)
Lemma strptime_fields_seconds (f : fields) :
  fields_ok f ->
  strptime_fields (fmt_date f +:+ " " +:+ fmt_time f)
  = Some (Fields (year f) (month f) (day f) (hour f) (minute f) (second f) 0).
Proof.
  intros Hf. rewrite strptime_fields_date by assumption.
  destruct Hf as (_ & _ & _ & Hh & Hmi & Hs & _).
  cbv [fmt_time pad2 String.append]. rewrite lstrip_digit.
  rewrite re_H_pad2 by lia. cbn [mbind option_bind lit Ascii.eqb Bool.eqb].
  rewrite re_M_pad2 by lia. cbn [mbind option_bind lit Ascii.eqb Bool.eqb].
  rewrite re_S_pad2 by lia. reflexivity.
Qed.

(** the text cut after the first digit of the hour is rejected *)
Lemma strptime_fields_cut (f : fields) :
  fields_ok f ->
  strptime_fields (fmt_date f +:+ " " +:+ String (digit (hour f / 10)) "")
  = None.
Proof.
  intros Hf. rewrite strptime_fields_date by assumption.
  rewrite lstrip_digit. unfold re_H, orelse, alt2. rewrite alt1_digit.
  reflexivity.
Qed.

(** [str(d)[:-7]], with and without microseconds *)
Lemma slice_str_fields (f : fields) :
  slice_to (str_fields f) (-7)
  = if microsecond f =? 0
    then fmt_date f +:+ " " +:+ String (digit (hour f / 10)) ""
    else fmt_date f +:+ " " +:+ fmt_time f.
Proof.
  unfold str_fields. destruct (microsecond f =? 0).
  - replace (fmt_date f +:+ " " +:+ fmt_time f +:+ "")
      with ((fmt_date f +:+ " " +:+ String (digit (hour f / 10)) "")
            +:+ String (digit (hour f)) (":" +:+ pad2 (minute f) +:+ ":"
                                         +:+ pad2 (second f)))
      by reflexivity.
    apply (slice_to_append _ _ 7); [lia|reflexivity].
  - replace (fmt_date f +:+ " " +:+ fmt_time f +:+ "." +:+ pad6 (microsecond f))
      with ((fmt_date f +:+ " " +:+ fmt_time f)
            +:+ "." +:+ pad6 (microsecond f))
      by reflexivity.
    apply (slice_to_append _ _ 7); [lia|reflexivity].
Qed.

Lemma expiry_text_round_trip (f : fields) :
  fields_ok f ->
  strptime_fields (slice_to (str_fields f) (-7))
  = if microsecond f =? 0 then None
    else Some (Fields (year f) (month f) (day f)
                      (hour f) (minute f) (second f) 0).
Proof.
  intros Hf. rewrite slice_str_fields. destruct (microsecond f =? 0).
  - apply strptime_fields_cut, Hf.
  - apply strptime_fields_seconds, Hf.
Qed.

(** *** The calendar *)

(** the length of a month depends on the year through [is_leap] only *)
Lemma days_in_month_leap (y y' m : Z) :
  is_leap y = is_leap y' -> days_in_month y m = days_in_month y' m.
Proof. intros H. unfold days_in_month. rewrite H. reflexivity. Qed.

Lemma days_before_month_leap (y y' m : Z) :
  is_leap y = is_leap y' -> days_before_month y m = days_before_month y' m.
Proof.
  intros H. unfold days_before_month.
  induction (Z.to_nat (m - 1)) as [|k IH]; [reflexivity|].
  cbn [days_before_month_upto]. rewrite IH.
  rewrite (days_in_month_leap y y') by assumption. reflexivity.
Qed.

Lemma is_leap_model (leap : bool) : is_leap (model_year leap) = leap.
Proof. destruct leap; reflexivity. Qed.

Lemma month_day_checked (leap : bool) :
  forallb (month_day_ok leap) (seq 0 (if leap then 366 else 365)) = true.
Proof. destruct leap; vm_compute; reflexivity. Qed.

Lemma month_day_spec (y n : Z) :
  0 <= n < (if is_leap y then 366 else 365) ->
  exists m d,
    month_day (is_leap y) n = (m, d)
    /\ 1 <= m <= 12 /\ 1 <= d <= days_in_month y m
    /\ days_before_month y m + d = n + 1.
Proof.
  intros Hn.
  pose proof (month_day_checked (is_leap y)) as H.
  rewrite forallb_forall in H.
  specialize (H (Z.to_nat n)).
  assert (In (Z.to_nat n) (seq 0 (if is_leap y then 366 else 365))) as Hin.
  { apply in_seq. destruct (is_leap y); lia. }
  apply H in Hin. unfold month_day_ok in Hin.
  rewrite Z2Nat.id in Hin by lia.
  destruct (month_day (is_leap y) n) as [m d].
  exists m, d. split; [reflexivity|].
  rewrite (days_in_month_leap y (model_year (is_leap y)))
    by (symmetry; apply is_leap_model).
  rewrite (days_before_month_leap y (model_year (is_leap y)))
    by (symmetry; apply is_leap_model).
  repeat match type of Hin with
         | _ && _ = true => apply andb_prop in Hin; destruct Hin as [Hin ?]
         end.
  lia.
Qed.

Lemma is_leap_true (y : Z) :
  is_leap y = true <-> y mod 4 = 0 /\ (y mod 100 <> 0 \/ y mod 400 = 0).
Proof.
  unfold is_leap.
  destruct (Z.eqb_spec (y mod 4) 0), (Z.eqb_spec (y mod 100) 0),
    (Z.eqb_spec (y mod 400) 0); cbn; intuition (try discriminate; try lia).
Qed.

Lemma days_before_month_12 (y : Z) :
  days_before_month y 12 = 334 + (if is_leap y then 1 else 0).
Proof.
  rewrite (days_before_month_leap y (model_year (is_leap y)))
    by (symmetry; apply is_leap_model).
  destruct (is_leap y); reflexivity.
Qed.

Lemma days_in_month_12 (y : Z) : days_in_month y 12 = 31.
Proof. reflexivity. Qed.

Lemma ord2ymd_spec (n : Z) :
  1 <= n <= MAXORDINAL ->
  exists y m d,
    ord2ymd n = (y, m, d)
    /\ 1 <= y <= 9999 /\ 1 <= m <= 12 /\ 1 <= d <= days_in_month y m
    /\ ymd2ord y m d = n.
Proof.
  intros Hn. unfold MAXORDINAL in Hn. unfold ord2ymd.
  set (n0 := n - 1).
  set (n400 := n0 / 146097). set (r400 := n0 mod 146097).
  set (n100 := r400 / 36524). set (r100 := r400 mod 36524).
  set (n4 := r100 / 1461). set (r4 := r100 mod 1461).
  set (n1 := r4 / 365). set (r1 := r4 mod 365).
  set (y := n400 * 400 + 1 + n100 * 100 + n4 * 4 + n1).
  assert (0 <= n0 <= 3652058 /\ n = n0 + 1) as [Hn0 En0] by (unfold n0; lia).
  assert (n0 = 146097 * n400 + r400 /\ 0 <= r400 < 146097) as [E400 B400]
      by (unfold n400, r400; split; [apply Z_div_mod_eq_full | apply Z.mod_pos_bound; lia]).
  assert (r400 = 36524 * n100 + r100 /\ 0 <= r100 < 36524) as [E100 B100]
      by (unfold n100, r100; split; [apply Z_div_mod_eq_full | apply Z.mod_pos_bound; lia]).
  assert (r100 = 1461 * n4 + r4 /\ 0 <= r4 < 1461) as [E4 B4]
      by (unfold n4, r4; split; [apply Z_div_mod_eq_full | apply Z.mod_pos_bound; lia]).
  assert (r4 = 365 * n1 + r1 /\ 0 <= r1 < 365) as [E1 B1]
      by (unfold n1, r1; split; [apply Z_div_mod_eq_full | apply Z.mod_pos_bound; lia]).
  assert (0 <= n400 <= 24 /\ 0 <= n100 <= 4 /\ 0 <= n4 <= 24 /\ 0 <= n1 <= 4)
    as (Hb400 & Hb100 & Hb4 & Hb1) by lia.
  clearbody n400 r400 n100 r100 n4 r4 n1 r1 n0.
  destruct ((n1 =? 4) || (n100 =? 4)) eqn:Edge.
  - (* the last day of a leap year *)
    exists (y - 1), 12, 31. split; [reflexivity|].
    assert (n1 = 4 \/ n100 = 4) as Hedge
        by (apply orb_prop in Edge as [?%Z.eqb_eq | ?%Z.eqb_eq]; auto).
    assert (is_leap (y - 1) = true) as Hleap.
    { apply is_leap_true. unfold y. Z.div_mod_to_equations. lia. }
    rewrite days_in_month_12. unfold ymd2ord.
    rewrite days_before_month_12, Hleap. unfold days_before_year.
    split; [unfold y; lia|]. split; [lia|]. split; [lia|].
    unfold y. Z.div_mod_to_equations. lia.
  - apply orb_false_elim in Edge as [N1%Z.eqb_neq N100%Z.eqb_neq].
    assert (is_leap y = (n1 =? 3) && (negb (n4 =? 24) || (n100 =? 3)))
      as Hleap.
    { destruct (Z.eqb_spec n1 3), (Z.eqb_spec n4 24), (Z.eqb_spec n100 3);
        cbn;
        first [ apply is_leap_true; unfold y; Z.div_mod_to_equations; lia
              | apply not_true_is_false; rewrite is_leap_true; unfold y;
                Z.div_mod_to_equations; lia ]. }
    rewrite <- Hleap.
    destruct (month_day_spec y r1) as (m & d & Hmd & Hm & Hd & Hsum).
    { destruct (is_leap y); lia. }
    rewrite Hmd. exists y, m, d. split; [reflexivity|].
    split; [unfold y; lia|]. split; [exact Hm|]. split; [exact Hd|].
    unfold ymd2ord.
    assert (days_before_year y = n0 - r1) as ->.
    { unfold days_before_year, y. Z.div_mod_to_equations. lia. }
    lia.
Qed.

Lemma days_in_month_le_31 (y m : Z) : days_in_month y m <= 31.
Proof.
  unfold days_in_month.
  destruct (m =? 2); [destruct (is_leap y); lia|].
  destruct ((m =? 4) || (m =? 6) || (m =? 9) || (m =? 11)); lia.
Qed.

(** the attributes of a valid instant are in range and give the instant
    back *)
Lemma broken_down_spec (t : datetime) :
  dt_valid t ->
  fields_ok (broken_down t) /\ of_fields (broken_down t) = Some t.
Proof.
  intros [H0 Hmax]. unfold DT_MAX, MAXORDINAL in Hmax.
  rewrite US_PER_DAY_eq in Hmax.
  unfold broken_down. rewrite US_PER_DAY_eq. unfold US_PER_SECOND.
  destruct (ord2ymd_spec (t / 86400000000 + 1)) as (y & m & d & -> & Hy & Hm & Hd & Hord).
  { unfold MAXORDINAL. Z.div_mod_to_equations. lia. }
  pose proof (days_in_month_le_31 y m) as H31.
  set (r := t mod 86400000000). set (secs := r / 1000000).
  assert (t = 86400000000 * (t / 86400000000) + r /\ 0 <= r < 86400000000)
    as [Et Br]
      by (unfold r; split; [apply Z_div_mod_eq_full | apply Z.mod_pos_bound; lia]).
  assert (0 <= secs < 86400) as Bs by (unfold secs; Z.div_mod_to_equations; lia).
  assert (0 <= secs / 3600 < 24 /\ 0 <= secs / 60 mod 60 < 60
          /\ 0 <= secs mod 60 < 60 /\ 0 <= r mod 1000000 < 1000000)
    as (Bh & Bmi & Bsec & Bus) by (Z.div_mod_to_equations; lia).
  split.
  - unfold fields_ok. cbn. lia.
  - unfold of_fields, mk_datetime. cbn [year month day hour minute second microsecond].
    unfold US_PER_SECOND. rewrite US_PER_DAY_eq.
    replace ((1 <=? y) && (y <=? 9999) && (1 <=? m) && (m <=? 12) && (1 <=? d)
             && (d <=? days_in_month y m) && (0 <=? secs / 3600)
             && (secs / 3600 <? 24) && (0 <=? secs / 60 mod 60)
             && (secs / 60 mod 60 <? 60) && (0 <=? secs mod 60)
             && (secs mod 60 <? 60) && (0 <=? r mod 1000000)
             && (r mod 1000000 <? 1000000)) with true.
    + f_equal. rewrite Hord. unfold secs in *. Z.div_mod_to_equations. lia.
    + symmetry. repeat (apply andb_true_intro; split);
        first [apply Z.leb_le; lia | apply Z.ltb_lt; lia].
Qed.

(** [str(x)[:-7]] is read back as [x] without its microseconds, unless [x]
    has none: then it is rejected *)
Lemma expiry_instant_round_trip (x : datetime) :
  dt_valid x ->
  strptime (slice_to (str_datetime x) (-7))
  = if x mod US_PER_SECOND =? 0 then None else Some (x - x mod US_PER_SECOND).
Proof.
  intros Hx. destruct (broken_down_spec x Hx) as [Hok Hback].
  unfold strptime, str_datetime. rewrite expiry_text_round_trip by exact Hok.
  assert (microsecond (broken_down x) = x mod US_PER_SECOND) as Hus.
  { unfold broken_down. destruct (ord2ymd _) as [[y m] d]. cbn.
    rewrite US_PER_DAY_eq. unfold US_PER_SECOND. Z.div_mod_to_equations. lia. }
  rewrite Hus. destruct (x mod US_PER_SECOND =? 0); [reflexivity|].
  cbn [mbind option_bind]. revert Hback Hus.
  unfold of_fields, mk_datetime.
  destruct (broken_down x) as [y m d h mi s us].
  cbn [year month day hour minute second microsecond].
  intros Hback Hus. subst us.
  destruct ((1 <=? y) && (y <=? 9999) && (1 <=? m) && (m <=? 12) && (1 <=? d)
            && (d <=? days_in_month y m) && (0 <=? h) && (h <? 24) && (0 <=? mi)
            && (mi <? 60) && (0 <=? s) && (s <? 60)) eqn:E;
    [|rewrite !andb_false_l in Hback; discriminate Hback].
  cbn [andb] in *.
  destruct ((0 <=? x mod US_PER_SECOND) && (x mod US_PER_SECOND <? US_PER_SECOND));
    [|discriminate Hback].
  injection Hback as Hback. cbn. f_equal. lia.
Qed.

(** The verdict after a reload: the instant read back is [x] without its
    microseconds, so comparing it with [now] gives what comparing [x] gives,
    unless [now] falls within the fraction that was cut. *)
Lemma reloaded_verdict (x now dto : datetime) :
  dt_valid x ->
  strptime (slice_to (str_datetime x) (-7)) = Some dto ->
  (now <=? dto) = (now <=? x)
  \/ (dto < now <= x /\ x - dto < US_PER_SECOND).
Proof.
  intros Hx. rewrite expiry_instant_round_trip by exact Hx.
  destruct (x mod US_PER_SECOND =? 0); [discriminate|].
  intros [= <-].
  pose proof (Z.mod_pos_bound x US_PER_SECOND ltac:(reflexivity)) as Hb.
  destruct (Z.leb_spec now (x - x mod US_PER_SECOND)),
    (Z.leb_spec now x); first [left; reflexivity | right; lia | lia].
Qed.

End CalendarFacts.

(** ** The string helpers *)

Module HelpersFacts.
Import Time PyStr Calendar Helpers.

Lemma lower_head (c : ascii) (s : string) :
  lower (String c s) = String (lower_ascii c) (lower s).
Proof. reflexivity. Qed.

Lemma startswith_one (s : string) (p : ascii) :
  startswith s (String p "")
  = match s with String c _ => Ascii.eqb p c | EmptyString => false end.
Proof.
  unfold startswith. destruct s as [|c s]; simpl; [reflexivity|].
  destruct (Ascii.eqb_spec p c) as [->|Hne].
  - destruct (ascii_dec c c); [|congruence]. destruct s; reflexivity.
  - destruct (ascii_dec p c); [congruence|]. reflexivity.
Qed.

(** lowering a character gives [p], a lower-case letter, for [p] and for
    its capital only *)
Lemma lower_ascii_is (c : ascii) :
  Ascii.eqb "o" (lower_ascii c) = Ascii.eqb c "o" || Ascii.eqb c "O"
  /\ Ascii.eqb "c" (lower_ascii c) = Ascii.eqb c "c" || Ascii.eqb c "C".
Proof. destruct c as [[] [] [] [] [] [] [] []]; split; reflexivity. Qed.

(** the filter is chosen by the first character alone *)
Lemma state_filter_cases (statefilter : string) :
  state_filter statefilter
  = match statefilter with
    | String c _ =>
        if Ascii.eqb c "o" || Ascii.eqb c "O" then "Open"
        else if Ascii.eqb c "c" || Ascii.eqb c "C" then "Closed"
        else "All"
    | EmptyString => "All"
    end.
Proof.
  unfold state_filter. rewrite !startswith_one.
  destruct statefilter as [|c s]; [reflexivity|].
  rewrite lower_head. destruct (lower_ascii_is c) as [-> ->]. reflexivity.
Qed.

Lemma strftime_literal (s : string) (f : fields) :
  no_percent s = true -> strftime s f = Some s.
Proof.
  induction s as [|c s IH]; [reflexivity|].
  cbn [no_percent]. intros [Hc Hs]%andb_prop. 
  apply negb_true_iff in Hc.
  assert (strftime (String c s) f = (r ← strftime s f; Some (String c r))) as ->.
  { cbn [strftime]. destruct c as [[] [] [] [] [] [] [] []]; try reflexivity.
    discriminate Hc. }
  rewrite IH by assumption. reflexivity.
Qed.

Lemma no_percent_app (a b : string) :
  no_percent a = true -> no_percent b = true -> no_percent (a +:+ b) = true.
Proof.
  induction a as [|c a IH]; simpl; [auto|].
  intros [Hc Ha]%andb_prop Hb. rewrite Hc. simpl. auto.
Qed.

Lemma no_percent_substring (s : string) (i n : nat) :
  no_percent s = true -> no_percent (String.substring i n s) = true.
Proof.
  revert i n. induction s as [|c s IH]; intros i n.
  - destruct i, n; reflexivity.
  - simpl. intros [Hc Hs]%andb_prop.
    destruct i; destruct n; simpl; try reflexivity; auto.
    rewrite Hc. simpl. auto.
Qed.

Lemma year_text_pad4 (y : Z) : 1000 <= y -> year_text y = pad4 y.
Proof.
  intros H. unfold year_text.
  destruct (Z.ltb_spec y 10); [lia|]. destruct (Z.ltb_spec y 100); [lia|].
  destruct (Z.ltb_spec y 1000); [lia|]. reflexivity.
Qed.

(** the format of [object_to_qdstr], for an offset without directive *)
Lemma strftime_qdstr (f : fields) (rest : string) :
  no_percent rest = true ->
  strftime ("%Y-%m-%dT%X" +:+ rest) f
  = Some (year_text (year f) +:+ "-" +:+ pad2 (month f) +:+ "-"
          +:+ pad2 (day f) +:+ "T" +:+ fmt_time f +:+ rest).
Proof.
  intros H. pose proof (strftime_literal rest f H) as Hrest.
  cbv [String.append]. cbn [strftime Ascii.eqb Bool.eqb]. rewrite Hrest.
  reflexivity.
Qed.

(** C10: with [gmt=True], [object_to_qdstr] prints the date and time
    attributes of [dto] as they are, followed by "+00:00": the result does not
    depend on the local offset and no conversion to UTC takes place.  With
    [gmt=False] the same attributes are followed by the local offset
    [utcoffset[:3] + ":" + utcoffset[-2:]].  The year is printed as
    [strftime] prints it: with its four digits from the year 1000 on, where
    the date reads "YYYY-MM-DD", and without padding before. *)
Theorem object_to_qdstr_fields (local_offset : string) (dto : datetime) :
  let f := broken_down dto in
  object_to_qdstr local_offset dto true
  = Some (year_text (year f) +:+ "-" +:+ pad2 (month f) +:+ "-"
          +:+ pad2 (day f) +:+ "T" +:+ fmt_time f +:+ "+00:00")
  /\ (no_percent local_offset = true ->
      object_to_qdstr local_offset dto false
      = Some (year_text (year f) +:+ "-" +:+ pad2 (month f) +:+ "-"
              +:+ pad2 (day f) +:+ "T" +:+ fmt_time f
              +:+ slice_to local_offset 3 +:+ ":"
              +:+ slice_from local_offset (-2)))
  /\ (1000 <= year f ->
      object_to_qdstr local_offset dto true
      = Some (fmt_date f +:+ "T" +:+ fmt_time f +:+ "+00:00")
      /\ (no_percent local_offset = true ->
          object_to_qdstr local_offset dto false
          = Some (fmt_date f +:+ "T" +:+ fmt_time f
                  +:+ slice_to local_offset 3 +:+ ":"
                  +:+ slice_from local_offset (-2)))).
Proof.
  intros f. unfold object_to_qdstr. fold f. generalize f. clear. intros f.
  assert (no_percent local_offset = true ->
          no_percent (slice_to local_offset 3 +:+ ":"
                      +:+ slice_from local_offset (-2)) = true) as Hoff.
  { intros H. unfold slice_to, slice_from.
    repeat apply no_percent_app; try reflexivity;
      apply no_percent_substring, H. }
  split; [apply (strftime_qdstr f "+00:00"); reflexivity|].
  split; [intros H; apply strftime_qdstr, Hoff, H|].
  intros Hy. split.
  - etransitivity; [apply (strftime_qdstr f "+00:00"); reflexivity|].
    rewrite year_text_pad4 by exact Hy. reflexivity.
  - intros H. etransitivity; [apply strftime_qdstr, Hoff, H|].
    rewrite year_text_pad4 by exact Hy. reflexivity.
Qed.

Lemma object_to_qdstr_fields_witness :
  no_percent "-0500" = true
  /\ 1000 <= year (broken_down (date 2024 3 15 + td 0 45296))
  /\ object_to_qdstr "-0500" (date 2024 3 15 + td 0 45296) false
     = Some "2024-03-15T12:34:56-05:00"
  /\ object_to_qdstr "-0500" (date 2024 3 15 + td 0 45296) true
     = Some "2024-03-15T12:34:56+00:00"
  /\ object_to_qdstr "-0500" (date 999 1 2 + td 0 11045) true
     = Some "999-01-02T03:04:05+00:00"
  /\ object_to_qdstr "-0500" (date 999 1 2 + td 0 11045) false
     = Some "999-01-02T03:04:05-05:00".
Proof.
  assert (no_percent "-0500" = true) as H1 by reflexivity.
  assert (1000 <= year (broken_down (date 2024 3 15 + td 0 45296))) as H2
      by (vm_compute; discriminate).
  split; [exact H1|]. split; [exact H2|].
  destruct (object_to_qdstr_fields "-0500" (date 2024 3 15 + td 0 45296))
    as (_ & _ & Hfour).
  destruct (Hfour H2) as [Hgmt Hlocal].
  destruct (object_to_qdstr_fields "-0500" (date 999 1 2 + td 0 11045))
    as (Hgmt' & Hlocal' & _).
  split; [rewrite (Hlocal H1); vm_compute; reflexivity|].
  split; [rewrite Hgmt; vm_compute; reflexivity|].
  split; [rewrite Hgmt'; vm_compute; reflexivity|].
  rewrite (Hlocal' H1). vm_compute. reflexivity.
Defined.

End HelpersFacts.

(** ** The credential life cycle *)

Module KwessFacts.
Import Time PyStr Calendar Helpers Py Kwess Sample PyStrFacts.
#[local] Open Scope py_scope.

Ltac py_unfold :=
  unfold try_except, bind, ret, raise, when, of_option, getattr, setattr,
    get_rt_file, get_server_type, print, dt_now, sys_exit, open_read,
    open_write, write_file, requests_get, resp_json, getitem, setitem,
    drop_last, as_str, td_seconds, floordiv_60, _report_and_exit.

Ltac py_state := unfold after, set_stdout, set_sent, set_files, set_attrs; cbn.

Lemma raise_for_status_error (r : response) (s : st) :
  400 <= status_code r < 600 ->
  raise_for_status r s = (Raise (HTTPError r), s).
Proof.
  intros [H1 H2]. unfold raise_for_status.
  destruct (Z.leb_spec 400 (status_code r)); [|lia].
  destruct (Z.ltb_spec (status_code r) 600); [|lia]. reflexivity.
Qed.

Lemma raise_for_status_ok (r : response) (s : st) :
  ~ 400 <= status_code r < 600 ->
  raise_for_status r s = (Ok tt, s).
Proof.
  intros H. unfold raise_for_status.
  destruct (Z.leb_spec 400 (status_code r)); [|reflexivity].
  destruct (Z.ltb_spec (status_code r) 600); [lia|reflexivity].
Qed.

Lemma exchange_http_error (token : string) (s : st) (u : string) (r : response) :
  assoc (server_type (self s)) server_url = Some u ->
  network (outside s) (length (sent (outside s))) (exchange_request u token)
  = Some r ->
  400 <= status_code r < 600 ->
  exchange token s
  = (Raise (Exception_ []),
     St (self s)
        (after (outside s) [exchange_request u token]
               [Line (request_url r);
                Line (returned_line (server_type (self s)) (status_code r));
                ExnObj (HTTPError r)])).
Proof.
  intros Hu Hnet Hst.
  unfold exchange, try_except, bind, get_server_type, requests_get, of_option.
  rewrite Hu. cbn [ret]. fold (exchange_request u token). rewrite Hnet.
  rewrite raise_for_status_error by assumption.
  cbn. unfold after, set_stdout, set_sent. cbn.
  rewrite <- !app_assoc. reflexivity.
Qed.

Lemma store_ok (o : list (string * json)) (a t rt ex : json) (api : string)
      (s : st) :
  has_record o a t (JStr api) rt ex ->
  store (JObj o) s
  = (Ok tt,
     set_attrs (stored a t (JStr (slice_to api (-1))) rt ex (attrs (self s))) s).
Proof.
  intros (Ha & Ht & Hapi & Hrt & Hex).
  unfold store, bind, getitem, of_option, setattr, drop_last.
  rewrite Ha. cbn. rewrite Ht. cbn. rewrite Hapi. cbn. rewrite Hrt. cbn.
  rewrite Hex. cbn. reflexivity.
Qed.

Lemma exchange_ok (token : string) (s : st) (u : string) (r : response) :
  assoc (server_type (self s)) server_url = Some u ->
  network (outside s) (length (sent (outside s))) (exchange_request u token)
  = Some r ->
  ~ 400 <= status_code r < 600 ->
  exchange token s
  = (Ok r, St (self s) (after (outside s) [exchange_request u token] [])).
Proof.
  intros Hu Hnet Hst.
  unfold exchange, try_except, bind, get_server_type, requests_get, of_option.
  rewrite Hu. cbn [ret]. fold (exchange_request u token). rewrite Hnet.
  rewrite raise_for_status_ok by assumption.
  cbn. unfold after, set_stdout, set_sent. cbn.
  rewrite app_nil_r. reflexivity.
Qed.

Lemma save_refresh_token_protected (s : st) :
  rt_file (self s) ∈ write_protected (outside s) ->
  save_refresh_token s
  = (Ok tt,
     St (self s)
        (after (outside s) []
               [Line ("Could not save new refresh token in file "
                      +:+ rt_file (self s) +:+ ":");
                ExnObj (OSError (rt_file (self s)))])).
Proof.
  intros H. unfold save_refresh_token. py_unfold.
  cbn. rewrite bool_decide_eq_true_2 by assumption. py_state.
  rewrite app_nil_r, <- app_assoc. reflexivity.
Qed.


(** the first write never raises and leaves the object and the protection of
    the files as they were *)
Lemma save_refresh_token_total (s : st) :
  exists s',
    save_refresh_token s = (Ok tt, s')
    /\ self s' = self s
    /\ write_protected (outside s') = write_protected (outside s)
    /\ clock (outside s') = clock (outside s).
Proof.
  unfold save_refresh_token, try_except, bind, get_rt_file, open_write, getattr,
    of_option, write_file, as_str.
  cbn. case_bool_decide; cbn; [eauto|].
  destruct (attrs (self s) !! "refresh_token") as [[[]|]|]; cbn; eauto.
Qed.

Lemma save_record_protected (dumps : json -> string) (rd : json) (s : st) :
  "accessToken.json" ∈ write_protected (outside s) ->
  save_record dumps rd s
  = (Raise (Exception_ []),
     St (self s)
        (after (outside s) []
               [Line "Could not save new access token in file accessToken.json:";
                ExnObj (OSError "accessToken.json")])).
Proof.
  intros H. unfold save_record. py_unfold.
  rewrite bool_decide_eq_true_2 by assumption. py_state.
  rewrite app_nil_r, <- app_assoc. reflexivity.
Qed.

Lemma save_record_written (dumps : json -> string)
      (o : list (string * json)) (s : st) (n : Z) (x : datetime) :
  "accessToken.json" ∉ write_protected (outside s) ->
  attrs (self s) !! "expires_in" = Some (PJson (JNum n)) ->
  dt_add (clock (outside s)) (td 0 n) = Some x ->
  let rd := JObj (assoc_set "expiry_date"
                            (JStr (slice_to (str_datetime x) (-7))) o) in
  save_record dumps (JObj o) s
  = (Ok tt,
     St (Trader (rt_file (self s)) (server_type (self s)) (timeout (self s))
                (<["expiry_date" := PDatetime x]> (attrs (self s))))
        (set_files (<["accessToken.json" := File (dumps rd) (Some rd)]>
                      (files (outside s)))
                   (outside s))).
Proof.
  intros H He Hx rd.
  unfold save_record, try_except, bind, open_write, dt_now, getattr, of_option,
    td_seconds, setattr, setitem, write_file.
  rewrite bool_decide_eq_false_2 by assumption. cbn. rewrite He. cbn.
  rewrite Hx. cbn. unfold set_files, set_attrs. cbn.
  rewrite insert_insert_eq. reflexivity.
Qed.

Lemma bind_ok {A B} (m : M A) (k : A -> M B) (s s' : st) (a : A) :
  m s = (Ok a, s') -> bind m k s = k a s'.
Proof. intros H. unfold bind. rewrite H. reflexivity. Qed.

Lemma bind_raise {A B} (m : M A) (k : A -> M B) (s s' : st) (e : exn) :
  m s = (Raise e, s') -> bind m k s = (Raise e, s').
Proof. intros H. unfold bind. rewrite H. reflexivity. Qed.


Lemma get_new_refresh_token_stored (dumps : json -> string) (token : string)
      (verbose : bool) (s : st) (u : string) (r : response)
      (o : list (string * json)) (a t rt : json) (api : string) (n : Z) :
  exchange_answered s token u r ->
  ~ 400 <= status_code r < 600 ->
  body r = Some (JObj o) ->
  has_record o a t (JStr api) rt (JNum n) ->
  get_new_refresh_token dumps token verbose s
  = bind save_refresh_token (fun _ => save_record dumps (JObj o))
         (St (Trader (rt_file (self s)) (server_type (self s)) (timeout (self s))
                     (stored a t (JStr (slice_to api (-1))) rt (JNum n)
                             (attrs (self s))))
             (after (outside s) [exchange_request u token]
                    (if verbose then [exchanged_line n] else []))).
Proof.
  intros [Hu Hnet] Hst Hbody Hrec. unfold get_new_refresh_token.
  erewrite bind_ok by (apply exchange_ok; eassumption).
  erewrite bind_ok by (unfold resp_json, of_option; rewrite Hbody; reflexivity).
  erewrite bind_ok by (apply store_ok; eassumption).
  destruct verbose.
  - erewrite bind_ok; [reflexivity|].
    py_unfold. unfold stored. cbn. rewrite lookup_insert_eq. py_state.
    rewrite <- app_assoc. reflexivity.
  - erewrite bind_ok; [reflexivity|]. reflexivity.
Qed.

(** C5 (amended): when the request of the exchange is answered with a status
    that [raise_for_status] rejects (4xx, 5xx), the operation prints the URL of
    the request, the status and the exception, and raises a bare
    [Exception()], which holds no argument; the object (hence the credential
    record) and the files are what they were before the call. *)
Theorem get_new_refresh_token_http_error (dumps : json -> string)
        (token : string) (verbose : bool) (s : st) (u : string) (r : response) :
  exchange_answered s token u r ->
  400 <= status_code r < 600 ->
  get_new_refresh_token dumps token verbose s
  = (Raise (Exception_ []),
     St (self s)
        (after (outside s) [exchange_request u token]
               [Line (request_url r);
                Line (returned_line (server_type (self s)) (status_code r));
                ExnObj (HTTPError r)])).
Proof.
  intros [Hu Hnet] Hst. unfold get_new_refresh_token.
  apply bind_raise. apply exchange_http_error; assumption.
Qed.

Lemma get_new_refresh_token_http_error_witness :
  exchange_answered (starting api01 ∅) "STALE" login r_bad
  /\ 400 <= status_code r_bad < 600
  /\ get_new_refresh_token dumps "STALE" false (starting api01 ∅)
     = (Raise (Exception_ []),
        St new_trader
           (after (fresh ∅ noon) [exchange_request login "STALE"]
                  [Line (login +:+ "?grant_type=refresh_token");
                   Line "live server returned 400 on get_new_refresh_token() attempt.";
                   ExnObj (HTTPError r_bad)])).
Proof.
  assert (exchange_answered (starting api01 ∅) "STALE" login r_bad) as H1
      by (split; reflexivity).
  assert (400 <= status_code r_bad < 600) as H2 by (simpl; lia).
  split; [exact H1|]. split; [exact H2|].
  exact (get_new_refresh_token_http_error
           dumps "STALE" false (starting api01 ∅) login r_bad H1 H2).
Defined.

(** C5 as stated fails: the exception raised holds neither the URL nor the
    status. *)
Lemma exception_carries_nothing :
  fst (get_new_refresh_token dumps "STALE" false (starting api01 ∅))
  = Raise (Exception_ [])
  /\ ~ carries (Exception_ []) (login +:+ "?grant_type=refresh_token") 400.
Proof.
  split; [vm_compute; reflexivity|]. intros [[] _].
Qed.

(** C6: after a successful exchange, whatever happens to the write of the
    refresh token to [rt_file] (that [try] never raises), the operation
    completes as soon as the record can be written to [accessToken.json], and
    the attributes then hold the new record; when [rt_file] cannot be opened
    the failure is only printed.  When [accessToken.json] cannot be opened
    for writing, the operation raises an exception. *)
Theorem get_new_refresh_token_persistence (dumps : json -> string)
        (token : string) (verbose : bool) (s : st) (u : string) (r : response)
        (o : list (string * json)) (a t rt : json) (api : string) (n : Z) :
  exchange_answered s token u r ->
  ~ 400 <= status_code r < 600 ->
  body r = Some (JObj o) ->
  has_record o a t (JStr api) rt (JNum n) ->
  let record :=
    stored a t (JStr (slice_to api (-1))) rt (JNum n) (attrs (self s)) in
  let out := get_new_refresh_token dumps token verbose s in
  ("accessToken.json" ∉ write_protected (outside s) ->
   forall x, dt_add (clock (outside s)) (td 0 n) = Some x ->
   fst out = Ok tt
   /\ attrs (self (snd out)) = <["expiry_date" := PDatetime x]> record
   /\ (rt_file (self s) ∈ write_protected (outside s) ->
       stdout (outside (snd out))
       = stdout (outside s)
         ++ (if verbose then [exchanged_line n] else [])
         ++ [Line ("Could not save new refresh token in file "
                   +:+ rt_file (self s) +:+ ":");
             ExnObj (OSError (rt_file (self s)))]))
  /\ ("accessToken.json" ∈ write_protected (outside s) ->
      fst out = Raise (Exception_ [])
      /\ attrs (self (snd out)) = record).
Proof.
  intros Hex Hst Hbody Hrec record out. unfold out.
  erewrite get_new_refresh_token_stored by eassumption. fold record.
  set (s1 := St _ _).
  destruct (save_refresh_token_total s1) as (s2 & Hrun & Hself & Hprot & Hclock).
  split.
  - intros Hjson x Hx.
    erewrite bind_ok by exact Hrun.
    erewrite save_record_written.
    + cbn. rewrite Hself. split; [reflexivity|]. split; [reflexivity|].
      intros Hrt.
      rewrite save_refresh_token_protected in Hrun by exact Hrt.
      injection Hrun as <-. cbn. rewrite <- app_assoc. reflexivity.
    + rewrite Hprot. exact Hjson.
    + rewrite Hself. cbn. unfold record, stored. apply lookup_insert_eq.
    + rewrite Hclock. exact Hx.
  - intros Hjson.
    erewrite bind_ok by exact Hrun.
    rewrite save_record_protected by (rewrite Hprot; exact Hjson).
    cbn. rewrite Hself. split; reflexivity.
Qed.

Lemma get_new_refresh_token_persistence_witness :
  exchange_answered (starting api01 {["refreshToken"]}) "BOOTSTRAP123" login
                    (r_good api01)
  /\ ~ 400 <= status_code (r_good api01) < 600
  /\ ("accessToken.json" ∉ ({["refreshToken"]} : gset string))
  /\ ("refreshToken" ∈ ({["refreshToken"]} : gset string))
  /\ dt_add noon (td 0 1800) = Some (noon + td 0 1800)
  /\ fst (get_new_refresh_token dumps "BOOTSTRAP123" false
                                (starting api01 {["refreshToken"]}))
     = Ok tt
  /\ attrs (self (snd (get_new_refresh_token
                         dumps "BOOTSTRAP123" false
                         (starting api01 {["refreshToken"]}))))
       !! "access_token"
     = Some (PJson (JStr "AT1"))
  /\ stdout (outside (snd (get_new_refresh_token
                             dumps "BOOTSTRAP123" false
                             (starting api01 {["refreshToken"]}))))
     = [Line "Could not save new refresh token in file refreshToken:";
        ExnObj (OSError "refreshToken")].
Proof.
  assert (exchange_answered (starting api01 {["refreshToken"]}) "BOOTSTRAP123"
                            login (r_good api01)) as H1
      by (split; reflexivity).
  assert (~ 400 <= status_code (r_good api01) < 600) as H2 by (simpl; lia).
  assert ("accessToken.json" ∉ ({["refreshToken"]} : gset string)) as H3
      by set_solver.
  assert ("refreshToken" ∈ ({["refreshToken"]} : gset string)) as H4
      by set_solver.
  assert (dt_add noon (td 0 1800) = Some (noon + td 0 1800)) as H5
      by (vm_compute; reflexivity).
  assert (has_record
            [("access_token", JStr "AT1"); ("token_type", JStr "Bearer");
             ("api_server", JStr api01);
             ("refresh_token", JStr "RT2"); ("expires_in", JNum 1800)]
            (JStr "AT1") (JStr "Bearer") (JStr api01) (JStr "RT2") (JNum 1800))
    as H6 by (repeat split; reflexivity).
  destruct (get_new_refresh_token_persistence
              dumps "BOOTSTRAP123" false (starting api01 {["refreshToken"]})
              login (r_good api01) _ _ _ _ _ _
              H1 H2 eq_refl H6) as [Hok _].
  destruct (Hok H3 _ H5) as (Hfst & Hattrs & Hout).
  do 5 (split; [assumption|]).
  split; [exact Hfst|]. split.
  - rewrite Hattrs. vm_compute. reflexivity.
  - exact (Hout H4).
Defined.

Lemma get_accounts_ok (s : st) (api t k : string) (r : response)
      (j : list (string * json)) (uid acc : json) :
  attrs (self s) !! "api_server" = Some (PJson (JStr api)) ->
  attrs (self s) !! "token_type" = Some (PJson (JStr t)) ->
  attrs (self s) !! "access_token" = Some (PJson (JStr k)) ->
  network (outside s) (length (sent (outside s))) (accounts_request api t k)
  = Some r ->
  ~ 400 <= status_code r < 600 ->
  body r = Some (JObj j) ->
  assoc "userId" j = Some uid ->
  assoc "accounts" j = Some acc ->
  _get_accounts s
  = (Ok tt,
     St (Trader (rt_file (self s)) (server_type (self s)) (timeout (self s))
                (<["accounts" := PJson acc]>
                   (<["userid" := PJson uid]> (attrs (self s)))))
        (after (outside s) [accounts_request api t k] [])).
Proof.
  intros Ha Ht Hk Hnet Hst Hb Hu Hacc. unfold _get_accounts.
  erewrite bind_ok.
  2:{ py_unfold. rewrite Ha. cbn -[join]. rewrite Ht. cbn -[join].
      rewrite Hk. cbn -[join]. fold (accounts_request api t k).
      rewrite Hnet. rewrite raise_for_status_ok by assumption. reflexivity. }
  py_unfold. rewrite Hb. cbn. rewrite Hu. cbn. rewrite Hacc. py_state.
  rewrite app_nil_r. reflexivity.
Qed.

(** the first [try] of the constructor, up to the comparison of the dates *)
Lemma load_cached_live (verbose : bool) (s : st) (o : list (string * json))
      (a t : json) (api : string) (rt ex : json) (dto : datetime) :
  cached (outside s) o a t api rt ex dto ->
  attrs (self s) = ∅ ->
  clock (outside s) <= dto ->
  load_cached verbose s
  = try_except
      (bind (when verbose (print (Line "Access token still valid.")))
            (fun _ => bind _get_accounts
                        (fun _ => when verbose (print (Line "Got account(s)")))))
      anything
      (fun _ =>
         bind get_rt_file
              (fun p => raise (Exception_ ["Failed to obtain account(s)."
                                           +:+ newline +:+ will_try p])))
      (St (Trader (rt_file (self s)) (server_type (self s)) (timeout (self s))
                  (loaded o a t api rt ex))
          (outside s)).
Proof.
  intros (f & e & Hf & Hp & Hrec & He & Hparse) Hempty Hlive.
  unfold load_cached.
  erewrite bind_ok by (unfold open_read, of_option; rewrite Hf; reflexivity).
  erewrite bind_ok by (unfold of_option; rewrite Hp; reflexivity).
  destruct Hrec as (Ha & Ht & Hapi & Hrt & Hex).
  do 11 (erewrite bind_ok;
         [| py_unfold;
            rewrite ?Ha, ?Ht, ?Hapi, ?Hrt, ?Hex, ?He; reflexivity]).
  erewrite bind_ok by (py_unfold; rewrite He; reflexivity).
  erewrite bind_ok by reflexivity.
  erewrite bind_ok.
  2:{ py_unfold. cbn. rewrite lookup_insert_eq. reflexivity. }
  erewrite bind_ok by reflexivity.
  erewrite bind_ok by (unfold of_option; rewrite Hparse; reflexivity).
  erewrite bind_ok by reflexivity.
  unfold set_attrs. cbn [clock outside self rt_file server_type timeout attrs].
  destruct (Z.leb_spec (clock (outside s)) dto); [|lia].
  unfold loaded, stored. rewrite He, Hempty. reflexivity.
Qed.

(** *** Which exceptions leave a method *)

Ltac py_unfold_in H :=
  cbv [try_except bind ret raise when of_option getattr setattr
       get_rt_file get_server_type print dt_now sys_exit open_read
       open_write write_file requests_get resp_json getitem setitem
       drop_last as_str td_seconds floordiv_60 _report_and_exit
       raise_for_status] in H.


Lemma raises_only_weaken {A} (P Q : exn -> Prop) (m : M A) :
  (forall e, P e -> Q e) -> raises_only P m -> raises_only Q m.
Proof. intros HPQ Hm s e s' H. eauto. Qed.

Lemma raises_only_ret {A} (P : exn -> Prop) (a : A) : raises_only P (ret a).
Proof. intros s e s' H. discriminate H. Qed.

Lemma raises_only_raise {A} (P : exn -> Prop) (e : exn) :
  P e -> raises_only P (@raise A e).
Proof. intros He s e' s' H. injection H as <- _. exact He. Qed.

Lemma raises_only_bind {A B} (P : exn -> Prop) (m : M A) (k : A -> M B) :
  raises_only P m -> (forall a, raises_only P (k a)) ->
  raises_only P (bind m k).
Proof.
  intros Hm Hk s e s' H. unfold bind in H.
  destruct (m s) as [[a|e0] s0] eqn:E.
  - eapply Hk, H.
  - injection H as <- _. eapply Hm, E.
Qed.

Lemma raises_only_try {A} (P Q : exn -> Prop) (m : M A) (catches : exn -> bool)
      (h : exn -> M A) :
  raises_only Q m ->
  (forall e, Q e -> catches e = true -> raises_only P (h e)) ->
  (forall e, Q e -> catches e = false -> P e) ->
  raises_only P (try_except m catches h).
Proof.
  intros Hm Hh Hp s e s' H. unfold try_except in H.
  destruct (m s) as [[a|e0] s0] eqn:E; [discriminate H|].
  destruct (catches e0) eqn:C.
  - eapply Hh; eauto.
  - injection H as <- _. eauto.
Qed.

Lemma raises_only_when (P : exn -> Prop) (b : bool) (m : M unit) :
  raises_only P m -> raises_only P (when b m).
Proof. destruct b; [auto|]. intros _. apply raises_only_ret. Qed.

Lemma raises_only_of_option {A} (P : exn -> Prop) (o : option A) (e : exn) :
  P e -> raises_only P (of_option o e).
Proof.
  intros He. destruct o; [apply raises_only_ret | apply raises_only_raise, He].
Qed.

(** the primitives raise no [SystemExit] *)
Ltac prim :=
  let s := fresh "s" in let e := fresh "e" in let s' := fresh "s'" in
  let H := fresh "H" in
  intros s e s' H; py_unfold_in H;
  repeat match type of H with
         | context [match ?x with _ => _ end] =>
             destruct x; cbv beta iota in H; try discriminate H
         end;
  cbv beta iota in H; try discriminate H;
  injection H as <- _; reflexivity.

Lemma prim_getattr n : raises_only is_exc (getattr n).
Proof. prim. Qed.
Lemma prim_setattr n v : raises_only is_exc (setattr n v).
Proof. prim. Qed.
Lemma prim_print x : raises_only is_exc (print x).
Proof. prim. Qed.
Lemma prim_get_rt_file : raises_only is_exc get_rt_file.
Proof. prim. Qed.
Lemma prim_get_server_type : raises_only is_exc get_server_type.
Proof. prim. Qed.
Lemma prim_dt_now : raises_only is_exc dt_now.
Proof. prim. Qed.
Lemma prim_open_read p : raises_only is_exc (open_read p).
Proof. prim. Qed.
Lemma prim_open_write p : raises_only is_exc (open_write p).
Proof. prim. Qed.
Lemma prim_write_file p f : raises_only is_exc (write_file p f).
Proof. prim. Qed.
Lemma prim_requests_get r : raises_only is_exc (requests_get r).
Proof. prim. Qed.
Lemma prim_raise_for_status r : raises_only is_exc (raise_for_status r).
Proof. prim. Qed.
Lemma prim_resp_json r : raises_only is_exc (resp_json r).
Proof. prim. Qed.
Lemma prim_getitem rd k : raises_only is_exc (getitem rd k).
Proof. prim. Qed.
Lemma prim_setitem rd k v : raises_only is_exc (setitem rd k v).
Proof. prim. Qed.
Lemma prim_drop_last x : raises_only is_exc (drop_last x).
Proof. prim. Qed.
Lemma prim_as_str v : raises_only is_exc (as_str v).
Proof. prim. Qed.
Lemma prim_td_seconds v : raises_only is_exc (td_seconds v).
Proof. prim. Qed.
Lemma prim_floordiv_60 v : raises_only is_exc (floordiv_60 v).
Proof. prim. Qed.

Create HintDb py_exc.
#[local] Hint Resolve prim_getattr prim_setattr prim_print prim_get_rt_file
  prim_get_server_type prim_dt_now prim_open_read prim_open_write
  prim_write_file prim_requests_get prim_raise_for_status prim_resp_json
  prim_getitem prim_setitem prim_drop_last prim_as_str prim_td_seconds
  prim_floordiv_60 : py_exc.

Ltac exc_step :=
  first [ apply raises_only_bind; [|intros ?]
        | apply raises_only_ret
        | apply raises_only_when
        | apply raises_only_of_option; reflexivity
        | apply raises_only_raise; reflexivity
        | solve [auto with py_exc] ].

Lemma exchange_exc token : raises_only is_exc (exchange token).
Proof.
  unfold exchange.
  apply raises_only_try with (Q := is_exc).
  - repeat exc_step.
  - intros e _ _. destruct e; repeat exc_step.
  - intros e He _. exact He.
Qed.

Lemma get_new_refresh_token_exc dumps token verbose :
  raises_only is_exc (get_new_refresh_token dumps token verbose).
Proof.
  unfold get_new_refresh_token, store, save_refresh_token, save_record.
  pose proof (exchange_exc token).
  repeat first [ exc_step | assumption
               | apply raises_only_try with (Q := is_exc);
                 [| intros ? _ _ | intros ? ? _; assumption ] ].
Qed.

Lemma get_accounts_exit : raises_only exc_or_exit _get_accounts.
Proof.
  unfold _get_accounts.
  apply raises_only_bind.
  - apply raises_only_try with (Q := is_exc).
    + repeat exc_step.
    + intros e _ _. destruct e; try (apply raises_only_raise; left; reflexivity).
      unfold _report_and_exit, sys_exit.
      repeat first [ apply raises_only_bind; [|intros ?]
                   | apply raises_only_raise; right; reflexivity
                   | apply raises_only_weaken with (P := is_exc);
                     [intros ? ?; left; assumption | solve [auto with py_exc]] ].
      cbn [print_each].
      repeat first [ apply raises_only_bind; [|intros ?]
                   | apply raises_only_ret
                   | apply raises_only_weaken with (P := is_exc);
                     [intros ? ?; left; assumption | solve [auto with py_exc]] ].
    + intros e He _. left. exact He.
  - intros resp. apply raises_only_weaken with (P := is_exc).
    { intros ? ?; left; assumption. }
    repeat exc_step.
Qed.

Lemma reauthenticate_exit dumps verbose :
  raises_only (fun e => e = SystemExit 1) (reauthenticate dumps verbose).
Proof.
  unfold reauthenticate.
  apply raises_only_try with (Q := exc_or_exit).
  - do 5 (apply raises_only_bind;
            [apply raises_only_weaken with (P := is_exc);
             [intros ? ?; left; assumption | auto with py_exc]
            |intros ?]).
    apply raises_only_bind; [|intros ?].
    { apply raises_only_weaken with (P := is_exc);
        [intros ? ?; left; assumption | apply get_new_refresh_token_exc]. }
    apply raises_only_bind; [exact get_accounts_exit|intros ?].
    apply raises_only_weaken with (P := is_exc);
      [intros ? ?; left; assumption |].
    apply raises_only_when. auto with py_exc.
  - intros e _ _. unfold ask_for_token, sys_exit.
    repeat first [ apply raises_only_bind; [|intros ?]
                 | apply raises_only_raise; reflexivity ];
      intros s0 e0 s0' H0; discriminate H0.
  - intros e [He| ->] Hc; [unfold is_exc in He; congruence | reflexivity].
Qed.

(** *** The constructor *)

Lemma try_except_raise {A} (m : M A) (c : exn -> bool) (h : exn -> M A)
      (s s' : st) (e : exn) :
  m s = (Raise e, s') -> c e = true -> try_except m c h s = h e s'.
Proof. intros H Hc. unfold try_except. rewrite H, Hc. reflexivity. Qed.

Lemma try_except_ok {A} (m : M A) (c : exn -> bool) (h : exn -> M A)
      (s s' : st) (a : A) :
  m s = (Ok a, s') -> try_except m c h s = (Ok a, s').
Proof. intros H. unfold try_except. rewrite H. reflexivity. Qed.

Lemma when_print (verbose : bool) (l : printed) (s : st) :
  when verbose (print l) s
  = (Ok tt, St (self s) (announce verbose l (outside s))).
Proof. destruct verbose; [reflexivity|]. destruct s. reflexivity. Qed.

(** C4: when the cached record is found, its [expiry_date] parses to an
    instant that is not before now, and the confirming [_get_accounts] raises
    whatever exception [e] (the [SystemExit] of [_report_and_exit] included),
    the constructor does not propagate [e]: it goes on with the handler of its
    first [try], which reads the token of [rt_file] and exchanges it, from the
    state the failed call left.  The construction then returns, or exits with
    status 1. *)
Theorem init_probe_failure_falls_through (dumps : json -> string)
        (rt server : string) (timeout : option Z) (verbose : bool) (w : world)
        (o : list (string * json)) (a t : json) (api : string) (rt' ex : json)
        (dto : datetime) (e : exn) (s2 : st) :
  cached w o a t api rt' ex dto ->
  clock w <= dto ->
  _get_accounts
    (St (Trader rt server timeout (loaded o a t api rt' ex))
        (announce verbose (Line "Access token still valid.") w))
  = (Raise e, s2) ->
  let out := __init__ dumps rt server timeout verbose w in
  out = reauthenticate dumps verbose s2
  /\ (fst out = Ok tt \/ fst out = Raise (SystemExit 1)).
Proof.
  intros Hc Hlive Hprobe out.
  assert (out = reauthenticate dumps verbose s2) as Hout.
  { unfold out, __init__.
    erewrite try_except_raise; [reflexivity| |reflexivity].
    erewrite load_cached_live; [|exact Hc|reflexivity|exact Hlive].
    cbn [self outside rt_file server_type Py.timeout attrs].
    erewrite try_except_raise; [| |reflexivity].
    - reflexivity.
    - erewrite bind_ok by apply when_print.
      apply bind_raise. exact Hprobe. }
  split; [exact Hout|]. rewrite Hout.
  destruct (reauthenticate dumps verbose s2) as [[[]|e'] s3] eqn:E; [left; reflexivity|].
  right. apply reauthenticate_exit in E. subst e'. reflexivity.
Qed.

Lemma init_probe_failure_falls_through_witness :
  cached (restarted "AT0" "2024-03-15 12:30:00" noon)
         (cached_body "AT0" api01 "2024-03-15 12:30:00")
         (JStr "AT0") (JStr "Bearer") api01 (JStr "RT1") (JNum 1800)
         (noon + td 0 1800)
  /\ noon <= noon + td 0 1800
  /\ fst (_get_accounts probing) = Raise (SystemExit 1)
  /\ __init__ dumps "refreshToken" "live" (Some 15) false
              (restarted "AT0" "2024-03-15 12:30:00" noon)
     = reauthenticate dumps false (snd (_get_accounts probing))
  /\ fst (__init__ dumps "refreshToken" "live" (Some 15) false
                   (restarted "AT0" "2024-03-15 12:30:00" noon))
     = Ok tt
  /\ sent (outside (snd (__init__ dumps "refreshToken" "live" (Some 15) false
                                  (restarted "AT0" "2024-03-15 12:30:00" noon))))
     = [accounts_request no_slash "Bearer" "AT0";
        exchange_request login "BOOTSTRAP123";
        accounts_request no_slash "Bearer" "AT1"].
Proof.
  assert (cached (restarted "AT0" "2024-03-15 12:30:00" noon)
                 (cached_body "AT0" api01 "2024-03-15 12:30:00")
                 (JStr "AT0") (JStr "Bearer") api01 (JStr "RT1") (JNum 1800)
                 (noon + td 0 1800)) as H1.
  { eexists _, _. split; [reflexivity|]. split; [reflexivity|].
    split; [repeat split; reflexivity|]. split; [reflexivity|].
    vm_compute. reflexivity. }
  assert (noon <= noon + td 0 1800) as H2 by (vm_compute; discriminate).
  assert (_get_accounts probing
          = (Raise (SystemExit 1), snd (_get_accounts probing))) as H3
      by (vm_compute; reflexivity).
  split; [exact H1|]. split; [exact H2|].
  split; [vm_compute; reflexivity|].
  split.
  - exact (proj1 (init_probe_failure_falls_through
                    dumps "refreshToken" "live" (Some 15) false
                    (restarted "AT0" "2024-03-15 12:30:00" noon)
                    _ _ _ _ _ _ _ _ _ H1 H2 H3)).
  - split; vm_compute; reflexivity.
Defined.

Lemma try_except_ext {A} (m m' : M A) (c : exn -> bool) (h : exn -> M A)
      (s s' : st) :
  m s = m' s' -> try_except m c h s = try_except m' c h s'.
Proof. intros H. unfold try_except. rewrite H. reflexivity. Qed.

(** the handler reads the token of [rt_file], without the white space around
    it, and exchanges it *)
Lemma reauthenticate_reads_token (dumps : json -> string) (verbose : bool)
      (s : st) (f : file) :
  files (outside s) !! rt_file (self s) = Some f ->
  reauthenticate dumps verbose s
  = try_except
      (bind (get_new_refresh_token dumps (strip (content f)) false)
            (fun _ => bind _get_accounts
                        (fun _ => when verbose (print (Line "Got account(s)")))))
      is_Exception ask_for_token
      (set_attrs (<["refresh_token" := PJson (JStr (strip (content f)))]>
                    (attrs (self s))) s).
Proof.
  intros Hf. unfold reauthenticate. apply try_except_ext.
  erewrite bind_ok by reflexivity.
  erewrite bind_ok by (unfold open_read, of_option; rewrite Hf; reflexivity).
  erewrite bind_ok by reflexivity.
  erewrite bind_ok.
  2:{ unfold getattr, of_option, set_attrs. cbn.
      rewrite lookup_insert_eq. reflexivity. }
  erewrite bind_ok by reflexivity.
  reflexivity.
Qed.

(** without that file the process exits with status 1 *)
Lemma reauthenticate_without_token (dumps : json -> string) (verbose : bool)
      (s : st) :
  files (outside s) !! rt_file (self s) = None ->
  fst (reauthenticate dumps verbose s) = Raise (SystemExit 1).
Proof.
  intros Hf. unfold reauthenticate.
  erewrite try_except_raise.
  2:{ erewrite bind_ok by reflexivity.
      apply bind_raise. unfold open_read, of_option. rewrite Hf. reflexivity. }
  2: reflexivity.
  reflexivity.
Qed.

(** a cached record whose [expiry_date] cannot be parsed is not used *)
Lemma init_unreadable_expiry (dumps : json -> string) (rt server : string)
      (timeout : option Z) (verbose : bool) (w : world) (f : file)
      (o : list (string * json)) (a t rt' ex : json) (api e : string) :
  files w !! "accessToken.json" = Some f ->
  parsed f = Some (JObj o) ->
  has_record o a t (JStr api) rt' ex ->
  assoc "expiry_date" o = Some (JStr e) ->
  strptime e = None ->
  __init__ dumps rt server timeout verbose w
  = reauthenticate dumps verbose
      (St (Trader rt server timeout (loaded o a t api rt' ex)) w).
Proof.
  intros Hf Hp (Ha & Ht & Hapi & Hrt & Hex) He Hparse.
  unfold __init__.
  erewrite try_except_raise; [reflexivity| |reflexivity].
  unfold load_cached.
  erewrite bind_ok by (unfold open_read, of_option; cbn; rewrite Hf; reflexivity).
  erewrite bind_ok by (unfold of_option; rewrite Hp; reflexivity).
  do 11 (erewrite bind_ok;
         [| py_unfold;
            rewrite ?Ha, ?Ht, ?Hapi, ?Hrt, ?Hex, ?He; reflexivity]).
  erewrite bind_ok by (py_unfold; rewrite He; reflexivity).
  erewrite bind_ok by reflexivity.
  erewrite bind_ok.
  2:{ py_unfold. cbn. rewrite lookup_insert_eq. reflexivity. }
  erewrite bind_ok by reflexivity.
  apply bind_raise. unfold of_option. rewrite Hparse.
  unfold raise, loaded, stored, set_attrs. cbn. rewrite He. reflexivity.
Qed.

(** So is every record whose [expiry_date] was written for an instant [x]
    on a whole second: whatever the time of the restart, the token is
    exchanged again. *)
Lemma init_whole_second_expiry (dumps : json -> string) (rt server : string)
      (timeout : option Z) (verbose : bool) (w : world) (f : file)
      (o : list (string * json)) (a t rt' ex : json) (api : string)
      (x : datetime) :
  dt_valid x ->
  x mod US_PER_SECOND = 0 ->
  files w !! "accessToken.json" = Some f ->
  parsed f = Some (JObj o) ->
  has_record o a t (JStr api) rt' ex ->
  assoc "expiry_date" o = Some (JStr (slice_to (str_datetime x) (-7))) ->
  __init__ dumps rt server timeout verbose w
  = reauthenticate dumps verbose
      (St (Trader rt server timeout (loaded o a t api rt' ex)) w).
Proof.
  intros Hx Hsec Hf Hp Hrec He.
  eapply init_unreadable_expiry; try eassumption.
  rewrite CalendarFacts.expiry_instant_round_trip by exact Hx.
  rewrite Hsec. reflexivity.
Qed.

(** *** The address of the API server *)

(** the second write assigns no attribute but [expiry_date] *)
Lemma save_record_attrs (dumps : json -> string) (rd : json) (s : st)
      (k : string) :
  k <> "expiry_date" ->
  attrs (self (snd (save_record dumps rd s))) !! k = attrs (self s) !! k.
Proof.
  intros Hk. unfold save_record. py_unfold.
  case_bool_decide; [reflexivity|]. cbn.
  destruct (attrs (self s) !! "expires_in") as [[[]|]|]; try reflexivity.
  all: cbn; destruct (dt_add _ _); [|reflexivity]; cbn.
  all: destruct rd; cbn; apply lookup_insert_ne; congruence.
Qed.

(** C8 (amended): the [api_server] that is stored is the string received
    without its last character, whatever that character is ([[:-1]]): so it is
    after [get_new_refresh_token] for the string sent by the authorization
    server, whatever becomes of the two writes, and after a construction that
    reuses the cached record for the string read from [accessToken.json].
    For a string that ends with a slash, that is the string without this
    slash. *)
Theorem api_server_loses_last_character (dumps : json -> string) :
  (forall (token : string) (verbose : bool) (s : st) (u : string)
          (r : response) (o : list (string * json)) (a t rt : json)
          (api : string) (n : Z),
      exchange_answered s token u r ->
      ~ 400 <= status_code r < 600 ->
      body r = Some (JObj o) ->
      has_record o a t (JStr api) rt (JNum n) ->
      attrs (self (snd (get_new_refresh_token dumps token verbose s)))
        !! "api_server"
      = Some (PJson (JStr (slice_to api (-1)))))
  /\ (forall (rt server : string) (timeout : option Z) (verbose : bool)
             (w : world) (o : list (string * json)) (k t api : string)
             (rt' ex : json) (dto : datetime) (r : response)
             (j : list (string * json)) (uid acc : json),
         cached w o (JStr k) (JStr t) api rt' ex dto ->
         clock w <= dto ->
         network w (length (sent w)) (accounts_request (slice_to api (-1)) t k)
         = Some r ->
         ~ 400 <= status_code r < 600 ->
         body r = Some (JObj j) ->
         assoc "userId" j = Some uid ->
         assoc "accounts" j = Some acc ->
         let out := __init__ dumps rt server timeout verbose w in
         fst out = Ok tt
         /\ attrs (self (snd out)) !! "api_server"
            = Some (PJson (JStr (slice_to api (-1)))))
  /\ (forall (base : string) (c : ascii),
         slice_to (base +:+ String c "") (-1) = base).
Proof.
  split; [|split].
  - intros token verbose s u r o a t rt api n Hex Hst Hbody Hrec.
    erewrite get_new_refresh_token_stored by eassumption.
    set (s1 := St _ _).
    destruct (save_refresh_token_total s1) as (s2 & Hrun & Hself & _).
    erewrite bind_ok by exact Hrun.
    rewrite save_record_attrs by discriminate. rewrite Hself.
    subst s1. cbn. unfold stored.
    rewrite !lookup_insert_ne by discriminate. apply lookup_insert_eq.
  - intros rt server timeout verbose w o k t api rt' ex dto r j uid acc
           Hc Hlive Hnet Hst Hbody Huid Hacc out.
    unfold out, __init__.
    erewrite try_except_ok.
    2:{ erewrite load_cached_live; [|exact Hc|reflexivity|exact Hlive].
        cbn [self outside rt_file server_type Py.timeout attrs].
        erewrite try_except_ok; [reflexivity|].
        erewrite bind_ok by apply when_print.
        erewrite bind_ok.
        2:{ apply get_accounts_ok
              with (api := slice_to api (-1)) (t := t) (k := k)
                   (r := r) (j := j) (uid := uid) (acc := acc);
              try assumption; try reflexivity.
            destruct verbose; exact Hnet. }
        rewrite when_print. reflexivity. }
    split; [reflexivity|]. cbn. unfold loaded, stored.
    rewrite !lookup_insert_ne by discriminate. apply lookup_insert_eq.
  - intros base c. apply slice_to_last.
Qed.

Lemma api_server_loses_last_character_witness :
  exchange_answered (starting api01 ∅) "BOOTSTRAP123" login (r_good api01)
  /\ ~ 400 <= status_code (r_good api01) < 600
  /\ attrs (self (snd (get_new_refresh_token dumps "BOOTSTRAP123" false
                                              (starting api01 ∅))))
       !! "api_server"
     = Some (PJson (JStr no_slash))
  /\ cached (restarted "AT1" "2024-03-15 12:30:00" noon)
            (cached_body "AT1" api01 "2024-03-15 12:30:00")
            (JStr "AT1") (JStr "Bearer") api01 (JStr "RT1") (JNum 1800)
            (noon + td 0 1800)
  /\ noon <= noon + td 0 1800
  /\ attrs (self (snd (__init__ dumps "refreshToken" "live" (Some 15) false
                                (restarted "AT1" "2024-03-15 12:30:00" noon))))
       !! "api_server"
     = Some (PJson (JStr no_slash)).
Proof.
  assert (exchange_answered (starting api01 ∅) "BOOTSTRAP123" login
                            (r_good api01)) as H1 by (split; reflexivity).
  assert (~ 400 <= status_code (r_good api01) < 600) as H2 by (simpl; lia).
  assert (has_record
            [("access_token", JStr "AT1"); ("token_type", JStr "Bearer");
             ("api_server", JStr api01);
             ("refresh_token", JStr "RT2"); ("expires_in", JNum 1800)]
            (JStr "AT1") (JStr "Bearer") (JStr api01) (JStr "RT2") (JNum 1800))
    as H3 by (repeat split; reflexivity).
  assert (cached (restarted "AT1" "2024-03-15 12:30:00" noon)
                 (cached_body "AT1" api01 "2024-03-15 12:30:00")
                 (JStr "AT1") (JStr "Bearer") api01 (JStr "RT1") (JNum 1800)
                 (noon + td 0 1800)) as H4.
  { eexists _, _. split; [reflexivity|]. split; [reflexivity|].
    split; [repeat split; reflexivity|]. split; [reflexivity|].
    vm_compute. reflexivity. }
  assert (noon <= noon + td 0 1800) as H5 by (vm_compute; discriminate).
  destruct (api_server_loses_last_character dumps) as (Hserver & Hfile & _).
  split; [exact H1|]. split; [exact H2|]. split.
  - exact (Hserver "BOOTSTRAP123" false (starting api01 ∅) login (r_good api01)
                   _ _ _ _ _ _ H1 H2 eq_refl H3).
  - split; [exact H4|]. split; [exact H5|].
    refine (proj2 (Hfile "refreshToken" "live" (Some 15) false
                         (restarted "AT1" "2024-03-15 12:30:00" noon)
                         _ "AT1" "Bearer" api01 _ _ _ r_accounts
                         _ (JNum 42) _ H4 H5 _ _ eq_refl eq_refl eq_refl)).
    + reflexivity.
    + simpl. lia.
Defined.

(** C8 as stated fails: an address sent without a final slash is not stored
    unchanged, it loses its last letter. *)
Lemma api_server_without_slash_is_cut :
  without_trailing_slash no_slash = no_slash
  /\ attrs (self (snd (get_new_refresh_token dumps "BOOTSTRAP123" false
                                              (starting no_slash ∅))))
       !! "api_server"
     = Some (PJson (JStr "https://api01.iq.questrade.co"))
  /\ Some (PJson (JStr "https://api01.iq.questrade.co"))
     <> Some (PJson (JStr (without_trailing_slash no_slash))).
Proof.
  split; [reflexivity|]. split; [vm_compute; reflexivity|].
  vm_compute. discriminate.
Qed.

(** *** The expiry date across sessions *)

(** C7 fails when the expiry falls on a whole second.  A session that
    starts at noon sharp gets a token that expires at 12:30:00; [str] of that
    instant has no fraction, so cutting 7 characters leaves "2024-03-15 1" in
    [accessToken.json], which [strptime] rejects.  A minute later the token
    is still valid, yet the constructor does not probe the server with it: it
    exchanges the refresh token again. *)
Theorem expiry_date_unreadable_on_the_second :
  fst (first_session noon) = Ok tt
  /\ attrs (self (snd (first_session noon))) !! "expiry_date"
     = Some (PDatetime (noon + td 0 1800))
  /\ str_datetime (noon + td 0 1800) = "2024-03-15 12:30:00"
  /\ persisted_expiry (outside (snd (first_session noon)))
     = Some (JStr "2024-03-15 1")
  /\ strptime "2024-03-15 1" = None
  /\ noon + td 0 60 <= noon + td 0 1800
  /\ fst (second_session noon) = Ok tt
  /\ sent (outside (snd (second_session noon)))
     = [exchange_request login "RT2";
        accounts_request no_slash "Bearer" "AT1"]
  /\ stdout (outside (snd (second_session noon))) = [Line "Got account(s)"].
Proof.
  repeat split; vm_compute; first [reflexivity | discriminate].
Qed.

(** One microsecond later the record is read back and the cached token is
    reused. *)
Lemma expiry_date_read_back_otherwise :
  persisted_expiry (outside (snd (first_session (noon + 1))))
  = Some (JStr "2024-03-15 12:30:00")
  /\ strptime "2024-03-15 12:30:00" = Some (noon + td 0 1800)
  /\ fst (second_session (noon + 1)) = Ok tt
  /\ sent (outside (snd (second_session (noon + 1))))
     = [accounts_request no_slash "Bearer" "AT1"]
  /\ stdout (outside (snd (second_session (noon + 1))))
     = [Line "Access token still valid."; Line "Got account(s)"].
Proof.
  repeat split; vm_compute; reflexivity.
Qed.

End KwessFacts.

(** ** More on the sessions *)

Module SessionFacts.
Import Time PyStr Calendar Helpers Py Kwess Sample.
Import PyStrFacts TimeFacts KwessFacts.
#[local] Open Scope py_scope.

(** X1: whatever the files, the clock and the answers of the servers, the
    constructor either returns or ends the process with [sys.exit(1)]: no
    other exception leaves [Trader(...)]. *)
Theorem init_returns_or_exits (dumps : json -> string) (rt server : string)
        (timeout : option Z) (verbose : bool) (w : world) :
  fst (__init__ dumps rt server timeout verbose w) = Ok tt
  \/ fst (__init__ dumps rt server timeout verbose w) = Raise (SystemExit 1).
Proof.
  unfold __init__, try_except.
  destruct (load_cached verbose _) as [[[]|e] s1]; [left; reflexivity|].
  cbn [anything].
  destruct (reauthenticate dumps verbose s1) as [[[]|e'] s2] eqn:E;
    [left; reflexivity|].
  right. apply reauthenticate_exit in E. subst e'. reflexivity.
Qed.

(** X2: when [requests.get] itself raises (no response), the handler of
    [get_new_refresh_token] evaluates [resp.request.url] with [resp] unbound:
    the call raises [UnboundLocalError], having printed nothing and changed
    neither the object nor the files. *)
Theorem get_new_refresh_token_no_response (dumps : json -> string)
        (token : string) (verbose : bool) (s : st) (u : string) :
  assoc (server_type (self s)) server_url = Some u ->
  network (outside s) (length (sent (outside s))) (exchange_request u token)
  = None ->
  get_new_refresh_token dumps token verbose s
  = (Raise (UnboundLocalError "resp"),
     St (self s) (after (outside s) [exchange_request u token] [])).
Proof.
  intros Hu Hnet. unfold get_new_refresh_token. apply bind_raise.
  unfold exchange. py_unfold. rewrite Hu. cbn [ret].
  fold (exchange_request u token). rewrite Hnet. py_state.
  rewrite app_nil_r. reflexivity.
Qed.

Lemma get_new_refresh_token_no_response_witness :
  assoc "live" server_url = Some login
  /\ network (World ∅ ∅ noon (fun _ _ => None) [] []) 0
             (exchange_request login "T") = None
  /\ get_new_refresh_token dumps "T" false
       (St new_trader (World ∅ ∅ noon (fun _ _ => None) [] []))
     = (Raise (UnboundLocalError "resp"),
        St new_trader
           (after (World ∅ ∅ noon (fun _ _ => None) [] [])
                  [exchange_request login "T"] [])).
Proof.
  split; [reflexivity|]. split; [reflexivity|].
  exact (get_new_refresh_token_no_response
           dumps "T" false
           (St new_trader (World ∅ ∅ noon (fun _ _ => None) [] []))
           login eq_refl eq_refl).
Defined.

(** X3: for a connected object, [_get_accounts] answered with a status
    4xx or 5xx prints the URL, the text of the response, the line
    "<server_type> server returned <status> on get_new_refresh_token()
    attempt." and the exception, and exits with status 1; when there is no
    response at all it raises [UnboundLocalError] and prints nothing.  In both
    cases the attributes are unchanged. *)
Theorem get_accounts_failures (s : st) (api t k : string) :
  attrs (self s) !! "api_server" = Some (PJson (JStr api)) ->
  attrs (self s) !! "token_type" = Some (PJson (JStr t)) ->
  attrs (self s) !! "access_token" = Some (PJson (JStr k)) ->
  (forall r,
      network (outside s) (length (sent (outside s))) (accounts_request api t k)
      = Some r ->
      400 <= status_code r < 600 ->
      _get_accounts s
      = (Raise (SystemExit 1),
         St (self s)
            (after (outside s) [accounts_request api t k]
                   [Line (request_url r); Line (text r);
                    Line (returned_line (server_type (self s)) (status_code r));
                    ExnObj (HTTPError r)])))
  /\ (network (outside s) (length (sent (outside s)))
              (accounts_request api t k) = None ->
      _get_accounts s
      = (Raise (UnboundLocalError "resp"),
         St (self s) (after (outside s) [accounts_request api t k] []))).
Proof.
  intros Ha Ht Hk. split.
  - intros r Hnet Hst. unfold _get_accounts. apply bind_raise.
    py_unfold. rewrite Ha. cbn -[join]. rewrite Ht. cbn -[join].
    rewrite Hk. cbn -[join]. fold (accounts_request api t k).
    rewrite Hnet. rewrite raise_for_status_error by assumption.
    py_state. rewrite <- !app_assoc. reflexivity.
  - intros Hnet. unfold _get_accounts. apply bind_raise.
    py_unfold. rewrite Ha. cbn -[join]. rewrite Ht. cbn -[join].
    rewrite Hk. cbn -[join]. fold (accounts_request api t k).
    rewrite Hnet. py_state. rewrite app_nil_r. reflexivity.
Qed.

Lemma get_accounts_failures_witness :
  attrs (self probing) !! "api_server" = Some (PJson (JStr no_slash))
  /\ attrs (self probing) !! "token_type" = Some (PJson (JStr "Bearer"))
  /\ attrs (self probing) !! "access_token" = Some (PJson (JStr "AT0"))
  /\ network (outside probing) 0 (accounts_request no_slash "Bearer" "AT0")
     = Some (Response 401 (no_slash +:+ "/v1/accounts") "Unauthorized" None)
  /\ 400 <= 401 < 600
  /\ fst (_get_accounts probing) = Raise (SystemExit 1).
Proof.
  assert (attrs (self probing) !! "api_server" = Some (PJson (JStr no_slash)))
    as H1 by (vm_compute; reflexivity).
  assert (attrs (self probing) !! "token_type" = Some (PJson (JStr "Bearer")))
    as H2 by (vm_compute; reflexivity).
  assert (attrs (self probing) !! "access_token" = Some (PJson (JStr "AT0")))
    as H3 by (vm_compute; reflexivity).
  assert (network (outside probing) 0 (accounts_request no_slash "Bearer" "AT0")
          = Some (Response 401 (no_slash +:+ "/v1/accounts") "Unauthorized" None))
    as H4 by reflexivity.
  assert (400 <= 401 < 600) as H5 by lia.
  do 5 (split; [assumption|]).
  rewrite (proj1 (get_accounts_failures probing no_slash "Bearer" "AT0"
                                        H1 H2 H3) _ H4 H5).
  reflexivity.
Defined.

(** X4: the attributes are assigned one by one from the answer of the
    authorization server.  When that answer holds [access_token],
    [token_type] and [api_server] but no [refresh_token], the call raises
    [KeyError('refresh_token')] after the first three attributes have been
    replaced; nothing is written to the files and nothing is printed. *)
Theorem store_is_not_atomic (dumps : json -> string) (token : string)
        (verbose : bool) (s : st) (u : string) (r : response)
        (o : list (string * json)) (a t : json) (api : string) :
  exchange_answered s token u r ->
  ~ 400 <= status_code r < 600 ->
  body r = Some (JObj o) ->
  assoc "access_token" o = Some a ->
  assoc "token_type" o = Some t ->
  assoc "api_server" o = Some (JStr api) ->
  assoc "refresh_token" o = None ->
  get_new_refresh_token dumps token verbose s
  = (Raise (KeyError "refresh_token"),
     St (Trader (rt_file (self s)) (server_type (self s)) (timeout (self s))
                (<["api_server" := PJson (JStr (slice_to api (-1)))]>
                   (<["token_type" := PJson t]>
                      (<["access_token" := PJson a]> (attrs (self s))))))
        (after (outside s) [exchange_request u token] [])).
Proof.
  intros [Hu Hnet] Hst Hbody Ha Ht Hapi Hrt. unfold get_new_refresh_token.
  erewrite bind_ok by (apply exchange_ok; eassumption).
  erewrite bind_ok by (unfold resp_json, of_option; rewrite Hbody; reflexivity).
  apply bind_raise. unfold store. py_unfold.
  rewrite Ha. cbn. rewrite Ht. cbn. rewrite Hapi. cbn. rewrite Hrt.
  reflexivity.
Qed.

Lemma store_is_not_atomic_witness :
  exchange_answered
    (St new_trader
        (World ∅ ∅ noon
               (fun _ _ => Some (Response 200 login ""
                                  (Some (JObj [("access_token", JStr "AT9");
                                               ("token_type", JStr "Bearer");
                                               ("api_server", JStr api01)]))))
               [] []))
    "T" login
    (Response 200 login ""
              (Some (JObj [("access_token", JStr "AT9");
                           ("token_type", JStr "Bearer");
                           ("api_server", JStr api01)])))
  /\ ~ 400 <= 200 < 600
  /\ fst (get_new_refresh_token dumps "T" false
            (St new_trader
                (World ∅ ∅ noon
                   (fun _ _ => Some (Response 200 login ""
                                      (Some (JObj [("access_token", JStr "AT9");
                                                   ("token_type", JStr "Bearer");
                                                   ("api_server", JStr api01)]))))
                   [] [])))
     = Raise (KeyError "refresh_token")
  /\ attrs (self (snd (get_new_refresh_token dumps "T" false
            (St new_trader
                (World ∅ ∅ noon
                   (fun _ _ => Some (Response 200 login ""
                                      (Some (JObj [("access_token", JStr "AT9");
                                                   ("token_type", JStr "Bearer");
                                                   ("api_server", JStr api01)]))))
                   [] [])))))
       !! "access_token"
     = Some (PJson (JStr "AT9")).
Proof.
  set (r := Response 200 login ""
              (Some (JObj [("access_token", JStr "AT9");
                           ("token_type", JStr "Bearer");
                           ("api_server", JStr api01)]))).
  set (s := St new_trader (World ∅ ∅ noon (fun _ _ => Some r) [] [])).
  assert (exchange_answered s "T" login r) as H1 by (split; reflexivity).
  assert (~ 400 <= 200 < 600) as H2 by lia.
  split; [exact H1|]. split; [exact H2|].
  rewrite (store_is_not_atomic dumps "T" false s login r _ _ _ _
             H1 H2 eq_refl eq_refl eq_refl eq_refl eq_refl).
  split; [reflexivity|]. vm_compute. reflexivity.
Defined.

(** X5: with a [server_type] other than "live" and "test",
    [get_new_refresh_token] raises [KeyError(server_type)] before any request
    is sent; the state is unchanged. *)
Theorem get_new_refresh_token_unknown_server (dumps : json -> string)
        (token : string) (verbose : bool) (s : st) :
  server_type (self s) <> "live" ->
  server_type (self s) <> "test" ->
  get_new_refresh_token dumps token verbose s
  = (Raise (KeyError (server_type (self s))), s).
Proof.
  intros H1 H2. unfold get_new_refresh_token. apply bind_raise.
  unfold exchange. py_unfold. unfold server_url. cbn [assoc].
  destruct (String.eqb_spec "live" (server_type (self s))); [congruence|].
  destruct (String.eqb_spec "test" (server_type (self s))); [congruence|].
  reflexivity.
Qed.

Lemma get_new_refresh_token_unknown_server_witness :
  "practice" <> "live" /\ "practice" <> "test"
  /\ get_new_refresh_token dumps "T" false
       (St (Trader "refreshToken" "practice" (Some 15) ∅) (fresh ∅ noon))
     = (Raise (KeyError "practice"),
        St (Trader "refreshToken" "practice" (Some 15) ∅) (fresh ∅ noon)).
Proof.
  assert ("practice" <> "live") as H1 by discriminate.
  assert ("practice" <> "test") as H2 by discriminate.
  split; [exact H1|]. split; [exact H2|].
  exact (get_new_refresh_token_unknown_server
           dumps "T" false
           (St (Trader "refreshToken" "practice" (Some 15) ∅) (fresh ∅ noon))
           H1 H2).
Defined.

(** the first [try] of the constructor when the cached token has expired *)
Lemma load_cached_expired (verbose : bool) (s : st) (o : list (string * json))
      (a t : json) (api : string) (rt ex : json) (dto : datetime) :
  cached (outside s) o a t api rt ex dto ->
  attrs (self s) = ∅ ->
  dto < clock (outside s) ->
  load_cached verbose s
  = (Raise (Exception_ ["Access token expired." +:+ newline
                        +:+ will_try (rt_file (self s))]),
     St (Trader (rt_file (self s)) (server_type (self s)) (timeout (self s))
                (loaded o a t api rt ex))
        (outside s)).
Proof.
  intros (f & e & Hf & Hp & Hrec & He & Hparse) Hempty Hlive.
  unfold load_cached.
  erewrite bind_ok by (unfold open_read, of_option; rewrite Hf; reflexivity).
  erewrite bind_ok by (unfold of_option; rewrite Hp; reflexivity).
  destruct Hrec as (Ha & Ht & Hapi & Hrt & Hex).
  do 11 (erewrite bind_ok;
         [| py_unfold;
            rewrite ?Ha, ?Ht, ?Hapi, ?Hrt, ?Hex, ?He; reflexivity]).
  erewrite bind_ok by (py_unfold; rewrite He; reflexivity).
  erewrite bind_ok by reflexivity.
  erewrite bind_ok.
  2:{ py_unfold. cbn. rewrite lookup_insert_eq. reflexivity. }
  erewrite bind_ok by reflexivity.
  erewrite bind_ok by (unfold of_option; rewrite Hparse; reflexivity).
  erewrite bind_ok by reflexivity.
  unfold set_attrs. cbn [clock outside self rt_file server_type Py.timeout attrs].
  destruct (Z.leb_spec (clock (outside s)) dto); [lia|].
  unfold loaded, stored. rewrite He, Hempty. reflexivity.
Qed.

(** X6: when the cached record is complete and its [expiry_date] is before
    now, the constructor sends no request with the cached access token and
    prints nothing: it goes on with the handler of its first [try] (the
    exchange of the token of [rt_file]), from a state where only the
    attributes read from the record have been set. *)
Theorem init_expired_record_not_probed (dumps : json -> string)
        (rt server : string) (timeout : option Z) (verbose : bool) (w : world)
        (o : list (string * json)) (a t : json) (api : string) (rt' ex : json)
        (dto : datetime) :
  cached w o a t api rt' ex dto ->
  dto < clock w ->
  __init__ dumps rt server timeout verbose w
  = reauthenticate dumps verbose
      (St (Trader rt server timeout (loaded o a t api rt' ex)) w).
Proof.
  intros Hc Hexp. unfold __init__.
  erewrite try_except_raise; [| |reflexivity].
  2:{ apply (load_cached_expired _ _ o a t api rt' ex dto);
        [exact Hc|reflexivity|exact Hexp]. }
  reflexivity.
Qed.

Lemma init_expired_record_not_probed_witness :
  cached (restarted "AT0" "2024-03-15 11:59:59" noon)
         (cached_body "AT0" api01 "2024-03-15 11:59:59")
         (JStr "AT0") (JStr "Bearer") api01 (JStr "RT1") (JNum 1800)
         (noon - td 0 1)
  /\ noon - td 0 1 < noon
  /\ __init__ dumps "refreshToken" "live" (Some 15) true
              (restarted "AT0" "2024-03-15 11:59:59" noon)
     = reauthenticate dumps true
         (St (Trader "refreshToken" "live" (Some 15)
                     (loaded (cached_body "AT0" api01 "2024-03-15 11:59:59")
                             (JStr "AT0") (JStr "Bearer") api01 (JStr "RT1")
                             (JNum 1800)))
             (restarted "AT0" "2024-03-15 11:59:59" noon)).
Proof.
  assert (cached (restarted "AT0" "2024-03-15 11:59:59" noon)
                 (cached_body "AT0" api01 "2024-03-15 11:59:59")
                 (JStr "AT0") (JStr "Bearer") api01 (JStr "RT1") (JNum 1800)
                 (noon - td 0 1)) as H1.
  { eexists _, _. split; [reflexivity|]. split; [reflexivity|].
    split; [repeat split; reflexivity|]. split; [reflexivity|].
    vm_compute. reflexivity. }
  assert (noon - td 0 1 < noon) as H2 by (vm_compute; reflexivity).
  split; [exact H1|]. split; [exact H2|].
  exact (init_expired_record_not_probed
           dumps "refreshToken" "live" (Some 15) true
           (restarted "AT0" "2024-03-15 11:59:59" noon)
           _ _ _ _ _ _ _ H1 H2).
Defined.

(** X7: with neither [accessToken.json] nor [rt_file], the constructor
    sends no request: it prints the [OSError] of [rt_file] and the invitation
    to generate a new token, and exits with status 1. *)
Theorem init_without_files_exits (dumps : json -> string)
        (rt server : string) (timeout : option Z) (verbose : bool) (w : world) :
  files w !! "accessToken.json" = None ->
  files w !! rt = None ->
  __init__ dumps rt server timeout verbose w
  = (Raise (SystemExit 1),
     St (Trader rt server timeout ∅)
        (after w []
               [ExnObj (OSError rt);
                Line ("Please log into your Questrade account (APP HUB), generate a new token for manual authorization, and save that token in local file "
                      +:+ rt +:+ ", then try again.")])).
Proof.
  intros Hj Hrt. unfold __init__.
  erewrite try_except_raise; [| |reflexivity].
  2:{ unfold load_cached. apply bind_raise.
      unfold open_read, of_option. cbn. rewrite Hj. reflexivity. }
  unfold reauthenticate.
  erewrite try_except_raise.
  2:{ erewrite bind_ok by reflexivity. apply bind_raise.
      unfold open_read, of_option. cbn. rewrite Hrt. reflexivity. }
  2: reflexivity.
  unfold ask_for_token. py_unfold. py_state.
  rewrite app_nil_r, <- app_assoc. reflexivity.
Qed.

Lemma init_without_files_exits_witness :
  files (World ∅ ∅ noon (fun _ _ => None) [] []) !! "accessToken.json" = None
  /\ files (World ∅ ∅ noon (fun _ _ => None) [] []) !! "refreshToken" = None
  /\ fst (__init__ dumps "refreshToken" "live" (Some 15) false
                   (World ∅ ∅ noon (fun _ _ => None) [] []))
     = Raise (SystemExit 1).
Proof.
  assert (files (World ∅ ∅ noon (fun _ _ => None) [] []) !! "accessToken.json"
          = None) as H1 by reflexivity.
  assert (files (World ∅ ∅ noon (fun _ _ => None) [] []) !! "refreshToken"
          = None) as H2 by reflexivity.
  split; [exact H1|]. split; [exact H2|].
  rewrite (init_without_files_exits
             dumps "refreshToken" "live" (Some 15) false
             (World ∅ ∅ noon (fun _ _ => None) [] []) H1 H2).
  reflexivity.
Defined.

(** X8: when the cached record has not expired and the API server accepts
    its access token, the constructor returns after exactly one request (the
    query of the accounts with the cached token): [rt_file] is not read, no
    token is exchanged, no file is written, and the attributes are those of
    the record with [userid] and [accounts]. *)
Theorem init_reuses_live_record (dumps : json -> string)
        (rt server : string) (timeout : option Z) (verbose : bool) (w : world)
        (o : list (string * json)) (k t api : string) (rt' ex : json)
        (dto : datetime) (r : response) (j : list (string * json))
        (uid acc : json) :
  cached w o (JStr k) (JStr t) api rt' ex dto ->
  clock w <= dto ->
  network w (length (sent w)) (accounts_request (slice_to api (-1)) t k)
  = Some r ->
  ~ 400 <= status_code r < 600 ->
  body r = Some (JObj j) ->
  assoc "userId" j = Some uid ->
  assoc "accounts" j = Some acc ->
  __init__ dumps rt server timeout verbose w
  = (Ok tt,
     St (Trader rt server timeout
                (<["accounts" := PJson acc]>
                   (<["userid" := PJson uid]>
                      (loaded o (JStr k) (JStr t) api rt' ex))))
        (after w [accounts_request (slice_to api (-1)) t k]
               (if verbose
                then [Line "Access token still valid."; Line "Got account(s)"]
                else []))).
Proof.
  intros Hc Hlive Hnet Hst Hbody Huid Hacc. unfold __init__.
  erewrite try_except_ok; [reflexivity|].
  erewrite load_cached_live; [|exact Hc|reflexivity|exact Hlive].
  cbn [self outside rt_file server_type Py.timeout attrs].
  erewrite try_except_ok; [reflexivity|].
  erewrite bind_ok by apply when_print.
  erewrite bind_ok.
  2:{ apply get_accounts_ok
        with (api := slice_to api (-1)) (t := t) (k := k)
             (r := r) (j := j) (uid := uid) (acc := acc);
        try assumption; try reflexivity.
      destruct verbose; exact Hnet. }
  rewrite when_print. destruct verbose; py_state.
  - rewrite <- !app_assoc. reflexivity.
  - rewrite app_nil_r. destruct w; reflexivity.
Qed.

Lemma init_reuses_live_record_witness :
  cached (restarted "AT1" "2024-03-15 12:30:00" noon)
         (cached_body "AT1" api01 "2024-03-15 12:30:00")
         (JStr "AT1") (JStr "Bearer") api01 (JStr "RT1") (JNum 1800)
         (noon + td 0 1800)
  /\ noon <= noon + td 0 1800
  /\ ~ 400 <= status_code r_accounts < 600
  /\ sent (outside (snd (__init__ dumps "refreshToken" "live" (Some 15) true
                                  (restarted "AT1" "2024-03-15 12:30:00" noon))))
     = [accounts_request no_slash "Bearer" "AT1"].
Proof.
  assert (cached (restarted "AT1" "2024-03-15 12:30:00" noon)
                 (cached_body "AT1" api01 "2024-03-15 12:30:00")
                 (JStr "AT1") (JStr "Bearer") api01 (JStr "RT1") (JNum 1800)
                 (noon + td 0 1800)) as H1.
  { eexists _, _. split; [reflexivity|]. split; [reflexivity|].
    split; [repeat split; reflexivity|]. split; [reflexivity|].
    vm_compute. reflexivity. }
  assert (noon <= noon + td 0 1800) as H2 by (vm_compute; discriminate).
  assert (~ 400 <= status_code r_accounts < 600) as H3 by (simpl; lia).
  split; [exact H1|]. split; [exact H2|]. split; [exact H3|].
  rewrite (init_reuses_live_record
             dumps "refreshToken" "live" (Some 15) true
             (restarted "AT1" "2024-03-15 12:30:00" noon)
             _ "AT1" "Bearer" api01 _ _ _ r_accounts _ (JNum 42) _
             H1 H2 eq_refl H3 eq_refl eq_refl eq_refl).
  reflexivity.
Defined.

(** *** What a successful exchange leaves on disk *)

Lemma assoc_set_eq {A} (k : string) (v : A) (l : list (string * A)) :
  assoc k (assoc_set k v l) = Some v.
Proof.
  induction l as [|[k' v'] l IH]; cbn.
  - rewrite String.eqb_refl. reflexivity.
  - destruct (String.eqb_spec k' k) as [->|Hne]; cbn.
    + rewrite String.eqb_refl. reflexivity.
    + destruct (String.eqb_spec k' k); [congruence|exact IH].
Qed.

Lemma assoc_set_ne {A} (k k' : string) (v : A) (l : list (string * A)) :
  k <> k' -> assoc k (assoc_set k' v l) = assoc k l.
Proof.
  intros Hne. induction l as [|[k0 v0] l IH]; cbn.
  - destruct (String.eqb_spec k' k); [congruence|reflexivity].
  - destruct (String.eqb_spec k0 k') as [->|Hne']; cbn.
    + destruct (String.eqb_spec k' k); [congruence|reflexivity].
    + destruct (String.eqb_spec k0 k); [reflexivity|exact IH].
Qed.


(** the record that a successful exchange leaves in [accessToken.json] *)
Lemma record_on_disk (dumps : json -> string)
      (token : string) (verbose : bool) (s : st) (u : string) (r : response)
      (o : list (string * json)) (a t rt : json) (api : string) (n : Z)
      (x : datetime) :
  exchange_answered s token u r ->
  ~ 400 <= status_code r < 600 ->
  body r = Some (JObj o) ->
  has_record o a t (JStr api) rt (JNum n) ->
  "accessToken.json" ∉ write_protected (outside s) ->
  dt_add (clock (outside s)) (td 0 n) = Some x ->
  files (outside (snd (get_new_refresh_token dumps token verbose s)))
    !! "accessToken.json"
  = Some (File (dumps (JObj (assoc_set "expiry_date"
                                       (JStr (slice_to (str_datetime x) (-7)))
                                       o)))
               (Some (JObj (assoc_set "expiry_date"
                                      (JStr (slice_to (str_datetime x) (-7)))
                                      o)))).
Proof.
  intros Hex Hst Hbody Hrec Hjson Hx.
  erewrite get_new_refresh_token_stored by eassumption.
  set (s1 := St _ _).
  destruct (save_refresh_token_total s1) as (s2 & Hrun & Hself & Hprot & Hclock).
  erewrite bind_ok by exact Hrun.
  erewrite save_record_written.
  2:{ rewrite Hprot. exact Hjson. }
  2:{ rewrite Hself. cbn. unfold stored. apply lookup_insert_eq. }
  2:{ rewrite Hclock. exact Hx. }
  cbn. apply lookup_insert_eq.
Qed.

Lemma has_record_assoc_set (o : list (string * json)) (a t api rt ex v : json) :
  has_record o a t api rt ex ->
  has_record (assoc_set "expiry_date" v o) a t api rt ex.
Proof.
  intros (Ha & Ht & Hapi & Hrt & Hexp). unfold has_record.
  rewrite !assoc_set_ne by discriminate. auto.
Qed.

(** X9: what a successful [get_new_refresh_token] writes is what the
    constructor reads.  When the expiry [x = now + expires_in] does not fall
    on a whole second, the file [accessToken.json] it leaves holds a complete
    record whose [expiry_date] parses to [x] without its microseconds. *)
Theorem persisted_record_is_reloadable (dumps : json -> string)
        (token : string) (verbose : bool) (s : st) (u : string) (r : response)
        (o : list (string * json)) (a t rt : json) (api : string) (n : Z)
        (x : datetime) :
  exchange_answered s token u r ->
  ~ 400 <= status_code r < 600 ->
  body r = Some (JObj o) ->
  has_record o a t (JStr api) rt (JNum n) ->
  "accessToken.json" ∉ write_protected (outside s) ->
  dt_add (clock (outside s)) (td 0 n) = Some x ->
  x mod US_PER_SECOND <> 0 ->
  cached (outside (snd (get_new_refresh_token dumps token verbose s)))
         (assoc_set "expiry_date" (JStr (slice_to (str_datetime x) (-7))) o)
         a t api rt (JNum n) (x - x mod US_PER_SECOND).
Proof.
  intros Hex Hst Hbody Hrec Hjson Hx Hus.
  eexists _, _. split; [eapply record_on_disk; eassumption|].
  split; [reflexivity|].
  split; [apply has_record_assoc_set, Hrec|].
  split; [apply assoc_set_eq|].
  apply dt_add_inv in Hx as [_ Hvalid].
  rewrite CalendarFacts.expiry_instant_round_trip by exact Hvalid.
  destruct (Z.eqb_spec (x mod US_PER_SECOND) 0); [contradiction|reflexivity].
Qed.

Lemma persisted_record_is_reloadable_witness :
  exchange_answered (St new_trader (fresh ∅ (noon + 1))) "BOOTSTRAP123" login
                    (r_good api01)
  /\ ~ 400 <= status_code (r_good api01) < 600
  /\ ("accessToken.json" ∉ (∅ : gset string))
  /\ dt_add (noon + 1) (td 0 1800) = Some (noon + 1 + td 0 1800)
  /\ (noon + 1 + td 0 1800) mod US_PER_SECOND <> 0
  /\ cached (outside (snd (first_session (noon + 1))))
            (assoc_set "expiry_date" (JStr "2024-03-15 12:30:00")
                       [("access_token", JStr "AT1"); ("token_type", JStr "Bearer");
                        ("api_server", JStr api01);
                        ("refresh_token", JStr "RT2"); ("expires_in", JNum 1800)])
            (JStr "AT1") (JStr "Bearer") api01 (JStr "RT2") (JNum 1800)
            (noon + td 0 1800).
Proof.
  assert (exchange_answered (St new_trader (fresh ∅ (noon + 1))) "BOOTSTRAP123"
                            login (r_good api01)) as H1
      by (split; reflexivity).
  assert (~ 400 <= status_code (r_good api01) < 600) as H2 by (simpl; lia).
  assert ("accessToken.json" ∉ (∅ : gset string)) as H3 by set_solver.
  assert (dt_add (noon + 1) (td 0 1800) = Some (noon + 1 + td 0 1800)) as H4
      by (vm_compute; reflexivity).
  assert ((noon + 1 + td 0 1800) mod US_PER_SECOND <> 0) as H5
      by (vm_compute; discriminate).
  assert (has_record
            [("access_token", JStr "AT1"); ("token_type", JStr "Bearer");
             ("api_server", JStr api01);
             ("refresh_token", JStr "RT2"); ("expires_in", JNum 1800)]
            (JStr "AT1") (JStr "Bearer") (JStr api01) (JStr "RT2") (JNum 1800))
    as H6 by (repeat split; reflexivity).
  do 5 (split; [assumption|]).
  pose proof (persisted_record_is_reloadable
                dumps "BOOTSTRAP123" false (St new_trader (fresh ∅ (noon + 1)))
                login (r_good api01) _ _ _ _ _ _ _
                H1 H2 eq_refl H6 H3 H4 H5) as H.
  replace (slice_to (str_datetime (noon + 1 + td 0 1800)) (-7))
    with "2024-03-15 12:30:00" in H by (vm_compute; reflexivity).
  replace (noon + 1 + td 0 1800 - (noon + 1 + td 0 1800) mod US_PER_SECOND)
    with (noon + td 0 1800) in H by (vm_compute; reflexivity).
  exact H.
Defined.



(** X11: when the expiry [now + expires_in] of a successful exchange falls
    on a whole second, the record left in [accessToken.json] is never reused:
    any later construction that finds this file, whatever the time and the
    other files, goes on with the exchange of the token of [rt_file]. *)
Theorem whole_second_expiry_is_never_reused (dumps : json -> string)
        (token : string) (verbose : bool) (s : st) (u : string) (r : response)
        (o : list (string * json)) (a t rt : json) (api : string) (n : Z)
        (x : datetime) :
  exchange_answered s token u r ->
  ~ 400 <= status_code r < 600 ->
  body r = Some (JObj o) ->
  has_record o a t (JStr api) rt (JNum n) ->
  "accessToken.json" ∉ write_protected (outside s) ->
  dt_add (clock (outside s)) (td 0 n) = Some x ->
  x mod US_PER_SECOND = 0 ->
  forall (rt_file' server : string) (timeout : option Z) (verbose' : bool)
         (w : world),
    files w !! "accessToken.json"
    = files (outside (snd (get_new_refresh_token dumps token verbose s)))
        !! "accessToken.json" ->
    __init__ dumps rt_file' server timeout verbose' w
    = reauthenticate dumps verbose'
        (St (Trader rt_file' server timeout
                    (loaded (assoc_set "expiry_date"
                                       (JStr (slice_to (str_datetime x) (-7)))
                                       o)
                            a t api rt (JNum n)))
            w).
Proof.
  intros Hex Hst Hbody Hrec Hjson Hx Hus rt_file' server timeout verbose' w Hw.
  erewrite record_on_disk in Hw by eassumption.
  eapply init_whole_second_expiry.
  - apply dt_add_inv in Hx as [_ Hvalid]. exact Hvalid.
  - exact Hus.
  - exact Hw.
  - reflexivity.
  - apply has_record_assoc_set, Hrec.
  - apply assoc_set_eq.
Qed.

Lemma whole_second_expiry_is_never_reused_witness :
  exchange_answered (St new_trader (fresh ∅ noon)) "BOOTSTRAP123" login
                    (r_good api01)
  /\ ~ 400 <= status_code (r_good api01) < 600
  /\ ("accessToken.json" ∉ (∅ : gset string))
  /\ dt_add noon (td 0 1800) = Some (noon + td 0 1800)
  /\ (noon + td 0 1800) mod US_PER_SECOND = 0
  /\ noon + td 0 60 <= noon + td 0 1800
  /\ second_session noon
     = reauthenticate dumps true
         (St (Trader "refreshToken" "live" (Some 15)
                     (loaded (assoc_set "expiry_date"
                                (JStr (slice_to (str_datetime (noon + td 0 1800))
                                                (-7)))
                                [("access_token", JStr "AT1");
                                 ("token_type", JStr "Bearer");
                                 ("api_server", JStr api01);
                                 ("refresh_token", JStr "RT2");
                                 ("expires_in", JNum 1800)])
                             (JStr "AT1") (JStr "Bearer") api01 (JStr "RT2")
                             (JNum 1800)))
             (a_minute_later noon)).
Proof.
  assert (exchange_answered (St new_trader (fresh ∅ noon)) "BOOTSTRAP123"
                            login (r_good api01)) as H1
      by (split; reflexivity).
  assert (~ 400 <= status_code (r_good api01) < 600) as H2 by (simpl; lia).
  assert ("accessToken.json" ∉ (∅ : gset string)) as H3 by set_solver.
  assert (dt_add noon (td 0 1800) = Some (noon + td 0 1800)) as H4
      by (vm_compute; reflexivity).
  assert ((noon + td 0 1800) mod US_PER_SECOND = 0) as H5
      by (vm_compute; reflexivity).
  assert (noon + td 0 60 <= noon + td 0 1800) as H6
      by (vm_compute; discriminate).
  assert (has_record
            [("access_token", JStr "AT1"); ("token_type", JStr "Bearer");
             ("api_server", JStr api01);
             ("refresh_token", JStr "RT2"); ("expires_in", JNum 1800)]
            (JStr "AT1") (JStr "Bearer") (JStr api01) (JStr "RT2") (JNum 1800))
    as H7 by (repeat split; reflexivity).
  do 6 (split; [assumption|]).
  exact (whole_second_expiry_is_never_reused
           dumps "BOOTSTRAP123" false (St new_trader (fresh ∅ noon))
           login (r_good api01) _ _ _ _ _ _ _
           H1 H2 eq_refl H7 H3 H4 H5
           "refreshToken" "live" (Some 15) true (a_minute_later noon) eq_refl).
Defined.

End SessionFacts.

(** ** More on the decorator *)

Module RangesFacts.
Import Time Chunker Ranges TimeFacts ChunkerFacts.

Lemma dt_add_None (t : datetime) (d : timedelta) :
  DT_MAX < t + d -> dt_add t d = None.
Proof.
  intros H. unfold dt_add.
  destruct (Z.leb_spec (t + d) DT_MAX); [lia|].
  rewrite andb_false_r. reflexivity.
Qed.

Lemma while_loop_chunks (e : datetime) (fuel : nat) (s : datetime) :
  0 <= s ->
  e <= DT_MAX ->
  s + thirdy_days <= DT_MAX ->
  1 * US_PER_DAY <= e - s ->
  (Z.to_nat (td_days (e - s)%Z) <= fuel)%nat ->
  exists n : nat,
    while_loop pair e fuel s (s + thirdy_days) (dt_sub e s) = chunks s e n
    /\ 1 * US_PER_DAY <= e - (s + Z.of_nat n * thirdy_days) < 30 * US_PER_DAY.
Proof.
  pose proof US_PER_DAY_pos as Hpos.
  revert s. induction fuel as [|fuel IH]; intros s Hs He Hidt Hday Hfuel.
  - assert (td_days (e - s) < 1) as H0 by lia.
    apply td_days_lt in H0. lia.
  - unfold dt_sub. cbn [while_loop].
    destruct (Z.ltb_spec 29 (td_days (e - s))) as [Hgt|Hle].
    + assert (30 * US_PER_DAY <= e - s) as H30 by (apply td_days_spec; lia).
      rewrite thirdy_days_eq in *.
      destruct (Z.le_gt_cases (s + 29 * US_PER_DAY + 29 * US_PER_DAY) DT_MAX)
        as [Hok|Hover].
      * rewrite dt_add_Some by lia.
        destruct (IH (s + 29 * US_PER_DAY)) as (n & Hrun & Htail); try lia.
        { replace (e - (s + 29 * US_PER_DAY)) with (e - s - 29 * US_PER_DAY)
            by lia.
          rewrite td_days_shift. lia. }
        exists (S n). rewrite Hrun.
        unfold chunks, yield_first. rewrite thirdy_days_eq.
        replace (s + 29 * US_PER_DAY + Z.of_nat n * (29 * US_PER_DAY))
          with (s + Z.of_nat (S n) * (29 * US_PER_DAY)) in * by lia.
        split; [|lia].
        destruct (_ <=? DT_MAX); cbn [yielded ending strides app];
          rewrite ?thirdy_days_eq; reflexivity.
      * rewrite dt_add_None by lia.
        exists 1%nat. unfold chunks. rewrite thirdy_days_eq.
        replace (s + Z.of_nat 1 * (29 * US_PER_DAY)) with (s + 29 * US_PER_DAY)
          by lia.
        destruct (Z.leb_spec (s + 29 * US_PER_DAY + 29 * US_PER_DAY) DT_MAX);
          [lia|].
        cbn [strides]. rewrite thirdy_days_eq. split; [reflexivity|lia].
    + assert (1 <= td_days (e - s)) as H1 by (apply td_days_spec; lia).
      destruct (Z.leb_spec 1 (td_days (e - s))); [|lia].
      exists 0%nat. unfold chunks. cbn [strides app Z.of_nat].
      rewrite Z.mul_0_l, Z.add_0_r.
      destruct (Z.leb_spec (s + thirdy_days) DT_MAX); [|lia].
      split; [reflexivity|].
      assert (td_days (e - s) < 30) as H30 by lia.
      apply td_days_lt in H30. lia.
Qed.

(** X12: for any valid range of 30 days or more, the decorator yields
    [n >= 1] strides of 29 days and then, according to whether the bound
    [cursor + 29 days] that it computes in advance still is a date, either the
    last sub-range [cursor, end) or nothing: next to [datetime.max] the
    iteration ends with [OverflowError] and the last sub-range is never
    queried. *)
Theorem get_all_near_the_last_date
        (now start : datetime) (end_ : option datetime) :
  let e := default now end_ in
  0 <= start ->
  e <= DT_MAX ->
  td 30 0 <= dt_sub e start ->
  exists n : nat,
    let cursor := start + Z.of_nat n * thirdy_days in
    (1 <= n)%nat
    /\ td 1 0 <= dt_sub e cursor < td 30 0
    /\ ranges now start end_
       = if cursor + thirdy_days <=? DT_MAX
         then Run (strides start n ++ [(cursor, e)]) StopIteration
         else Run (strides start n) OverflowError.
Proof.
  intros e Hs He H30.
  assert (ranges now start end_ = inner_with_end pair e start) as ->
      by (unfold ranges, get_all, inner, e; destruct end_; reflexivity).
  revert H30. unfold td, dt_sub. rewrite !Z.mul_0_l, !Z.add_0_r.
  pose proof US_PER_DAY_pos as Hpos. intros H30.
  unfold inner_with_end, dt_sub.
  destruct (Z.leb_spec (td_days (e - start)) 29) as [Hle|_].
  { assert (td_days (e - start) < 30) as Hlt by lia.
    apply td_days_lt in Hlt. lia. }
  assert (thirdy_days = 29 * US_PER_DAY) as E29 by reflexivity.
  rewrite (dt_add_Some start) by lia.
  destruct (Z.le_gt_cases (start + thirdy_days + thirdy_days) DT_MAX)
    as [Hok|Hover].
  - rewrite dt_add_Some by lia.
    destruct (while_loop_chunks
                e (Z.to_nat (td_days (e - (start + thirdy_days))))
                (start + thirdy_days)) as (n & Hrun & Htail); try lia.
    exists (S n). unfold dt_sub in Hrun. rewrite Hrun.
    unfold chunks, yield_first. cbv zeta.
    replace (start + thirdy_days + Z.of_nat n * thirdy_days)
      with (start + Z.of_nat (S n) * thirdy_days) in * by lia.
    split; [lia|]. split; [lia|].
    destruct (_ <=? DT_MAX); reflexivity.
  - rewrite dt_add_None by lia.
    exists 1%nat. cbv zeta.
    replace (start + Z.of_nat 1 * thirdy_days) with (start + thirdy_days) by lia.
    destruct (Z.leb_spec (start + thirdy_days + thirdy_days) DT_MAX); [lia|].
    split; [lia|]. split; [lia|]. reflexivity.
Qed.

Lemma get_all_near_the_last_date_witness :
  0 <= DT_MAX - td 40 0
  /\ DT_MAX <= DT_MAX
  /\ td 30 0 <= dt_sub DT_MAX (DT_MAX - td 40 0)
  /\ exists n : nat,
      (1 <= n)%nat
      /\ td 1 0 <= dt_sub DT_MAX (DT_MAX - td 40 0 + Z.of_nat n * thirdy_days)
         < td 30 0
      /\ ranges 0 (DT_MAX - td 40 0) (Some DT_MAX)
         = if DT_MAX - td 40 0 + Z.of_nat n * thirdy_days + thirdy_days
              <=? DT_MAX
           then Run (strides (DT_MAX - td 40 0) n
                     ++ [(DT_MAX - td 40 0 + Z.of_nat n * thirdy_days, DT_MAX)])
                    StopIteration
           else Run (strides (DT_MAX - td 40 0) n) OverflowError.
Proof.
  assert (0 <= DT_MAX - td 40 0) as H1 by (vm_compute; discriminate).
  assert (DT_MAX <= DT_MAX) as H2 by lia.
  assert (td 30 0 <= dt_sub DT_MAX (DT_MAX - td 40 0)) as H3
      by (vm_compute; discriminate).
  split; [exact H1|]. split; [exact H2|]. split; [exact H3|].
  exact (get_all_near_the_last_date 0 (DT_MAX - td 40 0) (Some DT_MAX)
                                    H1 H2 H3).
Defined.

(** forty days before the last date, the last eleven days are not queried *)
Lemma last_days_are_lost :
  ranges 0 (DT_MAX - td 40 0) (Some DT_MAX)
  = Run [(DT_MAX - td 40 0, DT_MAX - td 11 0)] OverflowError.
Proof. vm_compute. reflexivity. Qed.

(** X13: the number of queries made for a range of [days] whole days
    ([dlt.days]) is 1 up to 29 days and [(days - 1) // 29 + 1] from 30 days
    on. *)
Theorem get_all_number_of_queries
        (now start : datetime) (end_ : option datetime) :
  let e := default now end_ in
  let days := td_days (dt_sub e start) in
  0 <= start ->
  e + td 28 0 <= DT_MAX ->
  length (yielded (ranges now start end_))
  = if days <=? 29 then 1%nat else (Z.to_nat ((days - 1) / 29) + 1)%nat.
Proof.
  intros e days Hs He. pose proof US_PER_DAY_pos as Hpos.
  assert (ranges now start end_ = inner_with_end pair e start) as ->
      by (unfold ranges, get_all, inner, e; destruct end_; reflexivity).
  subst days. destruct (Z.leb_spec (td_days (dt_sub e start)) 29) as [Hle|Hgt].
  - rewrite inner_with_end_single; [reflexivity|].
    unfold td. rewrite Z.mul_0_l, Z.add_0_r.
    apply td_days_lt. lia.
  - assert (td 30 0 <= dt_sub e start) as H30.
    { unfold td. rewrite Z.mul_0_l, Z.add_0_r. apply td_days_spec. lia. }
    destruct (inner_with_end_strides e start Hs He H30) as (n & Hn & -> & Htail).
    cbn [yielded]. rewrite length_app, strides_length. cbn [length].
    f_equal. revert Htail. unfold td, dt_sub. rewrite !Z.mul_0_l, !Z.add_0_r.
    rewrite thirdy_days_eq. intros [Hlo Hhi].
    assert (td_days (e - start - (29 * Z.of_nat n) * US_PER_DAY)
            = td_days (e - start) - 29 * Z.of_nat n) as Hshift
        by apply td_days_shift.
    assert (1 <= td_days (e - start - (29 * Z.of_nat n) * US_PER_DAY)) as H1
        by (apply td_days_spec; lia).
    assert (td_days (e - start - (29 * Z.of_nat n) * US_PER_DAY) < 30) as H2
        by (apply td_days_lt; lia).
    unfold dt_sub.
    assert ((td_days (e - start) - 1) / 29 = Z.of_nat n) as ->
        by (Z.div_mod_to_equations; lia).
    lia.
Qed.

Lemma get_all_number_of_queries_witness :
  0 <= date 2024 1 1
  /\ date 2024 3 15 + td 28 0 <= DT_MAX
  /\ td_days (dt_sub (date 2024 3 15) (date 2024 1 1)) = 74
  /\ length (yielded (ranges 0 (date 2024 1 1) (Some (date 2024 3 15)))) = 3%nat.
Proof.
  assert (0 <= date 2024 1 1) as H1 by (vm_compute; discriminate).
  assert (date 2024 3 15 + td 28 0 <= DT_MAX) as H2 by (vm_compute; discriminate).
  split; [exact H1|]. split; [exact H2|]. split; [vm_compute; reflexivity|].
  rewrite (get_all_number_of_queries 0 (date 2024 1 1) (Some (date 2024 3 15))
                                     H1 H2).
  vm_compute. reflexivity.
Defined.

End RangesFacts.

(** ** The queries *)

Module QueriesFacts.
Import Time PyStr Calendar Helpers Chunker Py Kwess Sample Queries QuerySample.
Import TimeFacts PyStrFacts ChunkerFacts CalendarFacts HelpersFacts KwessFacts.
#[local] Open Scope py_scope.

Ltac q_unfold :=
  unfold address, authorization, print_request, get, result_of, account,
    find_account_number, items, word;
  py_unfold.

(** *** [find_account_number] *)

Lemma scan_otherwise (accounttype : string) (pre rest : list json) (s : st) :
  Forall (typed_otherwise accounttype) pre ->
  scan accounttype (pre ++ rest) s = scan accounttype rest s.
Proof.
  induction 1 as [|a pre (o & t & -> & Ht & Hne) _ IH]; [reflexivity|].
  cbn [app scan]. unfold bind at 1. unfold getitem, of_option. rewrite Ht.
  cbn [ret]. unfold bind at 1. cbn [lower_of ret].
  destruct (String.eqb_spec (lower accounttype) (lower t)); [congruence|].
  exact IH.
Qed.

Lemma scan_none (accounttype : string) (l : list json) (s : st) :
  Forall (typed_otherwise accounttype) l ->
  scan accounttype l s = (Ok JNull, s).
Proof.
  intros H. rewrite <- (app_nil_r l). rewrite scan_otherwise by exact H.
  reflexivity.
Qed.

Lemma scan_found (accounttype : string) (pre post : list json)
      (o : list (string * json)) (t : string) (s : st) :
  Forall (typed_otherwise accounttype) pre ->
  assoc "type" o = Some (JStr t) ->
  lower t = lower accounttype ->
  scan accounttype (pre ++ JObj o :: post) s = getitem (JObj o) "number" s.
Proof.
  intros Hpre Ht He. rewrite scan_otherwise by exact Hpre.
  cbn [scan]. unfold bind at 1. unfold getitem at 1, of_option. rewrite Ht.
  cbn [ret]. unfold bind at 1. cbn [lower_of ret].
  rewrite He, String.eqb_refl. reflexivity.
Qed.


(** X14: [find_account_number] returns the [number] of the first account
    whose [type] is [accounttype] up to the case of the letters, and [None]
    when the accounts are of other types; the state is unchanged. *)
Theorem find_account_number_first_match (accounttype : string) (s : st)
        (l : list json) :
  attrs (self s) !! "accounts" = Some (PJson (JArr l)) ->
  (forall (pre post : list json) (o : list (string * json)) (t : string)
          (number : json),
      l = pre ++ JObj o :: post ->
      Forall (typed_otherwise accounttype) pre ->
      assoc "type" o = Some (JStr t) ->
      lower t = lower accounttype ->
      assoc "number" o = Some number ->
      find_account_number accounttype s = (Ok number, s))
  /\ (Forall (typed_otherwise accounttype) l ->
      find_account_number accounttype s = (Ok JNull, s)).
Proof.
  intros Ha. split.
  - intros pre post o t number -> Hpre Ht He Hn.
    unfold find_account_number.
    erewrite bind_ok by (unfold getattr, of_option; rewrite Ha; reflexivity).
    erewrite bind_ok by reflexivity.
    rewrite (scan_found accounttype pre post o t) by assumption.
    unfold getitem, of_option. rewrite Hn. reflexivity.
  - intros Hl. unfold find_account_number.
    erewrite bind_ok by (unfold getattr, of_option; rewrite Ha; reflexivity).
    erewrite bind_ok by reflexivity.
    apply scan_none, Hl.
Qed.

(** *** One request *)

Lemma strs_words (ps : list string) (s : st) :
  strs (map word ps) s = (Ok ps, s).
Proof.
  induction ps as [|p ps IH]; [reflexivity|].
  cbn [map strs]. erewrite bind_ok by reflexivity.
  erewrite bind_ok by exact IH. reflexivity.
Qed.

Lemma address_ok (s : st) (api t k : string) (ps : list string) :
  connected s api t k ->
  address (map word ps) s = (Ok (join "/" (api :: ps)), s).
Proof.
  intros (Ha & _). unfold address.
  erewrite bind_ok by (unfold getattr, of_option; rewrite Ha; reflexivity).
  erewrite bind_ok by apply (strs_words (api :: ps)).
  reflexivity.
Qed.

Lemma authorization_ok (s : st) (api t k : string) :
  connected s api t k ->
  authorization s = (Ok (join " " [t; k]), s).
Proof.
  intros (_ & Ht & Hk). unfold authorization.
  erewrite bind_ok by (unfold getattr, of_option; rewrite Ht; reflexivity).
  erewrite bind_ok by (unfold getattr, of_option; rewrite Hk; reflexivity).
  erewrite bind_ok by apply (strs_words [t; k]).
  reflexivity.
Qed.

Lemma get_sends (s : st) (api t k : string) (ps : list string)
      (parameters : list (string * string)) :
  connected s api t k ->
  get (map word ps) parameters s
  = requests_get (query api t k ps parameters) s.
Proof.
  intros Hc. unfold get.
  erewrite bind_ok by (eapply address_ok; exact Hc).
  erewrite bind_ok by (eapply authorization_ok; exact Hc).
  reflexivity.
Qed.

Lemma connected_after (s : st) (api t k : string) (w : world) :
  connected s api t k -> connected (St (self s) w) api t k.
Proof. intros H. exact H. Qed.

(** the [try] of a query, when the server answers with a status that
    [raise_for_status] accepts *)
Lemma fetch_ok (s : st) (api t k : string) (ps : list string)
      (parameters : list (string * string)) (h : exn -> M response)
      (r : response) :
  connected s api t k ->
  network (outside s) (length (sent (outside s))) (query api t k ps parameters)
  = Some r ->
  ~ 400 <= status_code r < 600 ->
  try_except (resp <- get (map word ps) parameters ;;
              raise_for_status resp ;; ret resp)
             is_RequestException h s
  = (Ok r, St (self s) (after (outside s) [query api t k ps parameters] [])).
Proof.
  intros Hc Hnet Hst. apply try_except_ok.
  erewrite bind_ok.
  2:{ rewrite (get_sends s api t k) by exact Hc.
      unfold requests_get. rewrite Hnet. reflexivity. }
  rewrite (bind_ok _ _ _ _ tt (raise_for_status_ok r _ Hst)).
  py_state. rewrite app_nil_r. reflexivity.
Qed.

(** the same when the status is an error: the report, and the exit *)
Lemma fetch_http_error (s : st) (api t k : string) (ps : list string)
      (parameters : list (string * string)) (failed method : string)
      (unbound : exn) (r : response) :
  connected s api t k ->
  network (outside s) (length (sent (outside s))) (query api t k ps parameters)
  = Some r ->
  400 <= status_code r < 600 ->
  try_except (resp <- get (map word ps) parameters ;;
              raise_for_status resp ;; ret resp)
             is_RequestException (report failed method unbound) s
  = (Raise (SystemExit 1),
     St (self s)
        (after (outside s) [query api t k ps parameters]
               [Line (request_url r); Line (text r); Line failed;
                Line (server_type (self s) +:+ " server returned "
                      +:+ str_int (status_code r) +:+ " on " +:+ method
                      +:+ "().");
                ExnObj (HTTPError r)])).
Proof.
  intros Hc Hnet Hst. erewrite try_except_raise.
  2:{ erewrite bind_ok.
      2:{ rewrite (get_sends s api t k) by exact Hc.
          unfold requests_get. rewrite Hnet. reflexivity. }
      apply bind_raise. apply raise_for_status_error. exact Hst. }
  2: reflexivity.
  unfold report. py_unfold. py_state. rewrite <- !app_assoc. reflexivity.
Qed.

(** and when there is no response *)
Lemma fetch_no_response (s : st) (api t k : string) (ps : list string)
      (parameters : list (string * string)) (failed method : string)
      (unbound : exn) :
  connected s api t k ->
  network (outside s) (length (sent (outside s))) (query api t k ps parameters)
  = None ->
  try_except (resp <- get (map word ps) parameters ;;
              raise_for_status resp ;; ret resp)
             is_RequestException (report failed method unbound) s
  = (Raise unbound,
     St (self s) (after (outside s) [query api t k ps parameters] [])).
Proof.
  intros Hc Hnet. erewrite try_except_raise.
  2:{ apply bind_raise. rewrite (get_sends s api t k) by exact Hc.
      unfold requests_get. rewrite Hnet. reflexivity. }
  2: reflexivity.
  unfold report, raise. py_state. rewrite app_nil_r. reflexivity.
Qed.


(** *** The account of a query *)

Lemma account_found (s : st) (accounttype number : string) :
  has_account s accounttype number ->
  account accounttype s = (Ok (word number), s).
Proof.
  intros (pre & post & o & t & Ha & Hpre & Ht & He & Hn). unfold account.
  erewrite bind_ok.
  2:{ unfold find_account_number.
      erewrite bind_ok by (unfold getattr, of_option; rewrite Ha; reflexivity).
      erewrite bind_ok by reflexivity.
      rewrite (scan_found accounttype pre post o t) by assumption.
      unfold getitem, of_option. rewrite Hn. reflexivity. }
  reflexivity.
Qed.

Lemma account_none (s : st) (accounttype : string) :
  has_no_account s accounttype ->
  account accounttype s
  = (Raise (SystemExit 1),
     St (self s)
        (after (outside s) []
               [Line ("Nonexistent " +:+ accounttype +:+ " account.")])).
Proof.
  intros (l & Ha & Hl). unfold account.
  erewrite bind_ok.
  2:{ unfold find_account_number.
      erewrite bind_ok by (unfold getattr, of_option; rewrite Ha; reflexivity).
      erewrite bind_ok by reflexivity.
      apply scan_none, Hl. }
  apply bind_raise. cbn [is_None]. py_unfold. py_state.
  rewrite app_nil_r. reflexivity.
Qed.

(** X15: when no account is of the type asked for, the queries on an
    account ([get_account_balances], [get_account_positions] and the
    functions decorated for activities, orders and executions) print
    "Nonexistent <accounttype> account." and exit with status 1 without
    sending any request, whatever the verbosity and the dates. *)
Theorem nonexistent_account_sends_nothing
        (local_offset : string) (pformat : json -> string)
        (repr_dict : list (string * string) -> string)
        (s : st) (accounttype statefilter : string) (verbosity : nat)
        (a b : option datetime) :
  has_no_account s accounttype ->
  let out : result json * st :=
    (Raise (SystemExit 1),
     St (self s)
        (after (outside s) []
               [Line ("Nonexistent " +:+ accounttype +:+ " account.")])) in
  get_account_balances pformat accounttype verbosity s = out
  /\ get_account_positions pformat accounttype verbosity s = out
  /\ get_account_activities_f local_offset pformat repr_dict a b accounttype
                              verbosity s = out
  /\ get_account_orders_f local_offset pformat repr_dict statefilter a b
                          accounttype verbosity s = out
  /\ get_account_executions_f local_offset pformat repr_dict a b accounttype
                              verbosity s = out.
Proof.
  intros H out. unfold out.
  split; [|split; [|split; [|split]]];
    apply bind_raise; apply account_none; exact H.
Qed.

(** *** The queries on a range of dates *)

Lemma object_to_qdstr_local (local_offset : string) (d : datetime) :
  no_percent local_offset = true ->
  object_to_qdstr local_offset d false = Some (qdstr local_offset d).
Proof.
  intros H. unfold object_to_qdstr, qdstr. apply strftime_qdstr.
  unfold slice_to, slice_from.
  repeat apply no_percent_app; try reflexivity;
    apply no_percent_substring, H.
Qed.

(** one call of a decorated function, without verbosity *)
Lemma ranged_ok (local_offset : string) (pformat : json -> string)
      (repr_dict : list (string * string) -> string)
      (what failed method : string) (more : list (string * string))
      (s : st) (api t k accounttype number : string) (a b : datetime)
      (r : response) (j : json) :
  connected s api t k ->
  has_account s accounttype number ->
  no_percent local_offset = true ->
  network (outside s) (length (sent (outside s)))
          (ranged_request local_offset api t k number what more (a, b))
  = Some r ->
  ~ 400 <= status_code r < 600 ->
  body r = Some j ->
  ranged local_offset pformat repr_dict what failed method more
         (Some a) (Some b) accounttype 0 s
  = (Ok j,
     St (self s)
        (after (outside s)
               [ranged_request local_offset api t k number what more (a, b)]
               [])).
Proof.
  intros Hc Hacc Hoff Hnet Hst Hbody. unfold ranged.
  erewrite bind_ok by (apply account_found; exact Hacc).
  erewrite bind_ok
    by (unfold build_datetime_string, object_to_qdstr_, of_option;
        rewrite object_to_qdstr_local by exact Hoff; reflexivity).
  erewrite bind_ok
    by (unfold build_datetime_string, object_to_qdstr_, of_option;
        rewrite object_to_qdstr_local by exact Hoff; reflexivity).
  cbn [Nat.ltb Nat.leb when]. erewrite bind_ok by reflexivity.
  erewrite bind_ok by reflexivity.
  erewrite bind_ok.
  2:{ apply (fetch_ok s api t k ["v1/accounts"; number; what]); eassumption. }
  unfold result_of. cbn [when]. erewrite bind_ok by reflexivity.
  unfold resp_json, of_option. rewrite Hbody. reflexivity.
Qed.

Lemma drain_ranged (local_offset : string) (pformat : json -> string)
      (repr_dict : list (string * string) -> string)
      (what failed method : string) (more : list (string * string))
      (api t k accounttype number : string)
      (rgs : list (datetime * datetime)) :
  no_percent local_offset = true ->
  forall (s : st) (js : list json),
    connected s api t k ->
    has_account s accounttype number ->
    answers (network (outside s)) (length (sent (outside s)))
            (map (ranged_request local_offset api t k number what more) rgs)
            js ->
    drain (map (fun r => ranged local_offset pformat repr_dict what failed
                                method more (Some (fst r)) (Some (snd r))
                                accounttype 0)
               rgs) s
    = (Ok js,
       St (self s)
          (after (outside s)
                 (map (ranged_request local_offset api t k number what more)
                      rgs)
                 [])).
Proof.
  intros Hoff. induction rgs as [|[a b] rgs IH]; intros s js Hc Hacc Hans.
  - destruct js; [|contradiction]. cbn. unfold after, set_stdout, set_sent.
    rewrite !app_nil_r. destruct s as [? []]. reflexivity.
  - destruct js as [|j js]; [contradiction|].
    cbn [map answers] in Hans. destruct Hans as [(r & Hnet & Hst & Hb) Hrest].
    cbn [map drain fst snd].
    erewrite bind_ok.
    2:{ eapply ranged_ok; eassumption. }
    erewrite bind_ok.
    2:{ apply IH; [exact Hc|exact Hacc|].
        cbn [outside network sent after set_stdout set_sent].
        rewrite length_app. cbn [length].
        replace (length (sent (outside s)) + 1)%nat
          with (S (length (sent (outside s)))) by lia.
        exact Hrest. }
    unfold ret. py_state. rewrite <- !app_assoc. reflexivity.
Qed.

Lemma consume_ranged (local_offset : string) (pformat : json -> string)
      (repr_dict : list (string * string) -> string)
      (what failed method : string) (more : list (string * string))
      (s : st) (api t k accounttype number : string)
      (start : datetime) (end_ : option datetime) (js : list json) :
  connected s api t k ->
  has_account s accounttype number ->
  no_percent local_offset = true ->
  answers (network (outside s)) (length (sent (outside s)))
          (map (ranged_request local_offset api t k number what more)
               (yielded (ranges (clock (outside s)) start end_)))
          js ->
  consume (fun now =>
             decorated (fun a b => ranged local_offset pformat repr_dict what
                                          failed method more a b accounttype 0)
                       now start end_) s
  = (finish (ending (ranges (clock (outside s)) start end_)) js,
     St (self s)
        (after (outside s)
               (map (ranged_request local_offset api t k number what more)
                    (yielded (ranges (clock (outside s)) start end_)))
               [])).
Proof.
  intros Hc Hacc Hoff Hans. unfold consume, decorated.
  erewrite bind_ok by reflexivity.
  rewrite get_all_map. cbn [yielded ending].
  erewrite bind_ok.
  2:{ apply (drain_ranged local_offset pformat repr_dict what failed method
                          more api t k accounttype number); eassumption. }
  destruct (ending _); reflexivity.
Qed.

(** X16: iterating over [get_account_activities], [get_account_orders] or
    [get_account_executions] (without verbosity) sends exactly one request
    per sub-range of the decorator, in order, to
    [<api_server>/v1/accounts/<number>/<what>] with the bounds of the
    sub-range as [startTime] and [endTime] (and the normalised [stateFilter]
    for the orders), and collects the answers in that order; the iteration
    then ends as the decorator does.  The bounds are sent as [strftime]
    prints them, hence with a year of fewer than four digits before the year
    1000. *)
Theorem decorated_queries_cover_the_ranges
        (local_offset : string) (pformat : json -> string)
        (repr_dict : list (string * string) -> string)
        (s : st) (api t k accounttype statefilter number : string)
        (start : datetime) (end_ : option datetime) :
  connected s api t k ->
  has_account s accounttype number ->
  no_percent local_offset = true ->
  let rgs := ranges (clock (outside s)) start end_ in
  let sends (what : string) (more : list (string * string)) :=
    map (ranged_request local_offset api t k number what more) (yielded rgs) in
  let served (what : string) (more : list (string * string))
             (js : list json) :=
    answers (network (outside s)) (length (sent (outside s)))
            (sends what more) js in
  let outcome (what : string) (more : list (string * string))
              (js : list json) :=
    (finish (ending rgs) js,
     St (self s) (after (outside s) (sends what more) [])) in
  (forall js, served "activities" [] js ->
     consume (fun now => get_account_activities
                           local_offset pformat repr_dict accounttype 0
                           now start end_) s
     = outcome "activities" [] js)
  /\ (forall js,
        served "orders" [("stateFilter", state_filter statefilter)] js ->
        consume (fun now => get_account_orders
                              local_offset pformat repr_dict accounttype
                              statefilter 0 now start end_) s
        = outcome "orders" [("stateFilter", state_filter statefilter)] js)
  /\ (forall js, served "executions" [] js ->
        consume (fun now => get_account_executions
                              local_offset pformat repr_dict accounttype 0
                              now start end_) s
        = outcome "executions" [] js).
Proof.
  intros Hc Hacc Hoff rgs sends served outcome.
  subst rgs sends served outcome. cbv beta.
  split; [|split]; intros js Hjs.
  - exact (consume_ranged local_offset pformat repr_dict "activities" _ _ []
                          s api t k accounttype number start end_ js
                          Hc Hacc Hoff Hjs).
  - exact (consume_ranged local_offset pformat repr_dict "orders" _ _
                          [("stateFilter", state_filter statefilter)]
                          s api t k accounttype number start end_ js
                          Hc Hacc Hoff Hjs).
  - exact (consume_ranged local_offset pformat repr_dict "executions" _ _ []
                          s api t k accounttype number start end_ js
                          Hc Hacc Hoff Hjs).
Qed.


(** *** The queries by identifiers *)

Lemma by_ids_ok (pformat : json -> string) (bs : list string)
      (failed method : string) (ids : ident) (s : st) (api t k : string)
      (r : response) (j : json) :
  connected s api t k ->
  str_ident ids <> "" ->
  network (outside s) (length (sent (outside s)))
          (routed api t k bs (str_ident ids)) = Some r ->
  ~ 400 <= status_code r < 600 ->
  body r = Some j ->
  by_ids pformat (map word bs) failed method ids 0 s
  = (Ok j,
     St (self s)
        (after (outside s) [routed api t k bs (str_ident ids)] [])).
Proof.
  intros Hc Hne Hnet Hst Hbody. unfold by_ids, routed in *.
  cbn [Nat.ltb Nat.leb when].
  destruct (contains "," (str_ident ids)).
  - erewrite bind_ok.
    2:{ apply try_except_ok. erewrite bind_ok.
        2:{ erewrite bind_ok by reflexivity.
            rewrite (get_sends s api t k) by exact Hc.
            unfold requests_get. rewrite Hnet. reflexivity. }
        rewrite (bind_ok _ _ _ _ tt (raise_for_status_ok r _ Hst)).
        reflexivity. }
    unfold result_of. cbn [when]. erewrite bind_ok by reflexivity.
    unfold resp_json, of_option. rewrite Hbody. py_state.
    rewrite app_nil_r. reflexivity.
  - destruct (String.eqb_spec (str_ident ids) ""); [contradiction|].
    cbn [negb].
    replace (map word bs ++ [word (str_ident ids)])
      with (map word (bs ++ [str_ident ids]))
      by (rewrite map_app; reflexivity).
    erewrite bind_ok.
    2:{ apply try_except_ok. erewrite bind_ok.
        2:{ erewrite bind_ok by reflexivity.
            rewrite (get_sends s api t k) by exact Hc.
            unfold requests_get. rewrite Hnet. reflexivity. }
        rewrite (bind_ok _ _ _ _ tt (raise_for_status_ok r _ Hst)).
        reflexivity. }
    unfold result_of. cbn [when]. erewrite bind_ok by reflexivity.
    unfold resp_json, of_option. rewrite Hbody. py_state.
    rewrite app_nil_r. reflexivity.
Qed.

(** X17: [get_market_quotes] and [get_symbols_by_ids] send one request: a
    string that holds a comma goes in the parameter [ids] of the request to
    the collection, any other non-empty identifier (a number included) is
    appended to the address, with no parameter. *)
Theorem identifiers_are_routed (pformat : json -> string) (ids : ident)
        (s : st) (api t k : string) :
  connected s api t k ->
  str_ident ids <> "" ->
  (forall r j,
      network (outside s) (length (sent (outside s)))
              (routed api t k ["v1/markets"; "quotes"] (str_ident ids))
      = Some r ->
      ~ 400 <= status_code r < 600 ->
      body r = Some j ->
      get_market_quotes pformat ids 0 s
      = (Ok j,
         St (self s)
            (after (outside s)
                   [routed api t k ["v1/markets"; "quotes"] (str_ident ids)]
                   [])))
  /\ (forall r j,
        network (outside s) (length (sent (outside s)))
                (routed api t k ["v1/symbols"] (str_ident ids))
        = Some r ->
        ~ 400 <= status_code r < 600 ->
        body r = Some j ->
        get_symbols_by_ids pformat ids 0 s
        = (Ok j,
           St (self s)
              (after (outside s)
                     [routed api t k ["v1/symbols"] (str_ident ids)] []))).
Proof.
  intros Hc Hne. split; intros r j Hnet Hst Hbody.
  - exact (by_ids_ok pformat ["v1/markets"; "quotes"] _ _ ids s api t k r j
                     Hc Hne Hnet Hst Hbody).
  - exact (by_ids_ok pformat ["v1/symbols"] _ _ ids s api t k r j
                     Hc Hne Hnet Hst Hbody).
Qed.

Lemma by_ids_branch (base : list pyval) (method : string) (ids : string)
      (s : st) (api t k : string) (bs : list string) :
  connected s api t k ->
  ids <> "" ->
  base = map word bs ->
  (if contains "," ids then
     (when false (print_request base) ;; get base [("ids", ids)])
   else if negb (String.eqb ids "") then
     (when false (print_request (base ++ [word ids])) ;;
      get (base ++ [word ids]) [])
   else
     _report_and_exit
       [Line ("Invalid parameter(s) for " +:+ method +:+ ".")]) s
  = requests_get (routed api t k bs ids) s.
Proof.
  intros Hc Hne ->. unfold routed. destruct (contains "," ids).
  - erewrite bind_ok by reflexivity. apply (get_sends s api t k), Hc.
  - destruct (String.eqb_spec ids ""); [contradiction|]. cbn [negb].
    erewrite bind_ok by reflexivity.
    replace (map word bs ++ [word ids]) with (map word (bs ++ [ids]))
      by (rewrite map_app; reflexivity).
    apply (get_sends s api t k), Hc.
Qed.

(** X18: [get_market_quotes] with an empty string exits with status 1
    after printing "Invalid parameter(s) for get_market_quotes.", without any
    request; when there is no response it raises [AttributeError] ([resp] is
    [None] there, unlike in the other queries); on a status 4xx or 5xx it
    prints its report and exits with status 1. *)
Theorem get_market_quotes_failures (pformat : json -> string) (ids : ident)
        (s : st) :
  (str_ident ids = "" ->
   forall verbosity,
     get_market_quotes pformat ids verbosity s
     = (Raise (SystemExit 1),
        St (self s)
           (after (outside s) []
                  [Line "Invalid parameter(s) for get_market_quotes."])))
  /\ (forall api t k,
        connected s api t k ->
        str_ident ids <> "" ->
        let q := routed api t k ["v1/markets"; "quotes"] (str_ident ids) in
        (network (outside s) (length (sent (outside s))) q = None ->
         get_market_quotes pformat ids 0 s
         = (Raise (AttributeError "request"),
            St (self s) (after (outside s) [q] [])))
        /\ (forall r,
              network (outside s) (length (sent (outside s))) q = Some r ->
              400 <= status_code r < 600 ->
              get_market_quotes pformat ids 0 s
              = (Raise (SystemExit 1),
                 St (self s)
                    (after (outside s) [q]
                           [Line (request_url r); Line (text r);
                            Line "Failed to query server for market quotes.";
                            Line (server_type (self s) +:+ " server returned "
                                  +:+ str_int (status_code r)
                                  +:+ " on get_market_quotes().");
                            ExnObj (HTTPError r)])))).
Proof.
  split.
  - intros He verbosity. unfold get_market_quotes, by_ids. rewrite He.
    apply bind_raise. cbn [contains String.eqb negb].
    py_unfold. py_state. rewrite app_nil_r. reflexivity.
  - intros api t k Hc Hne q. split.
    + intros Hnet. unfold get_market_quotes, by_ids. apply bind_raise.
      cbn [Nat.ltb Nat.leb].
      erewrite try_except_raise.
      2:{ apply bind_raise.
          rewrite (by_ids_branch _ _ _ s api t k ["v1/markets"; "quotes"])
            by (assumption || reflexivity).
          unfold requests_get. fold q. rewrite Hnet. reflexivity. }
      2: reflexivity.
      unfold report, raise. py_state. rewrite app_nil_r. reflexivity.
    + intros r Hnet Hst. unfold get_market_quotes, by_ids. apply bind_raise.
      cbn [Nat.ltb Nat.leb].
      erewrite try_except_raise.
      2:{ erewrite bind_ok.
          2:{ rewrite (by_ids_branch _ _ _ s api t k ["v1/markets"; "quotes"])
                by (assumption || reflexivity).
              unfold requests_get. fold q. rewrite Hnet. reflexivity. }
          apply bind_raise. apply raise_for_status_error. exact Hst. }
      2: reflexivity.
      unfold report. py_unfold. py_state. rewrite <- !app_assoc. reflexivity.
Qed.


(** *** The time of the server *)

Lemma strptime_T_fields_text (f : fields) :
  fields_ok f ->
  strptime_T_fields (fmt_date f +:+ "T" +:+ fmt_time f)
  = Some (Fields (year f) (month f) (day f) (hour f) (minute f) (second f) 0).
Proof.
  intros (Hy & Hm & Hd & Hh & Hmi & Hs & _). unfold strptime_T_fields.
  cbv [fmt_date fmt_time pad4 pad2 String.append].
  rewrite re_Y_pad4 by lia. cbn [mbind option_bind lit Ascii.eqb Bool.eqb].
  rewrite re_m_pad2 by lia. cbn [mbind option_bind lit Ascii.eqb Bool.eqb].
  rewrite re_d_pad2 by lia. cbn [mbind option_bind].
  change (lit_nocase "T" (String "T" ?r)) with (Some r).
  cbn [mbind option_bind].
  rewrite re_H_pad2 by lia. cbn [mbind option_bind lit Ascii.eqb Bool.eqb].
  rewrite re_M_pad2 by lia. cbn [mbind option_bind lit Ascii.eqb Bool.eqb].
  rewrite re_S_pad2 by lia. reflexivity.
Qed.

(** the attributes of an instant, without the microseconds, are those of the
    second it falls in *)
Lemma of_fields_whole_second (x : datetime) :
  dt_valid x ->
  of_fields (Fields (year (broken_down x)) (month (broken_down x))
                    (day (broken_down x)) (hour (broken_down x))
                    (minute (broken_down x)) (second (broken_down x)) 0)
  = Some (x - x mod US_PER_SECOND).
Proof.
  intros Hx. destruct (broken_down_spec x Hx) as [Hok Hback].
  assert (microsecond (broken_down x) = x mod US_PER_SECOND) as Hus.
  { unfold broken_down. destruct (ord2ymd _) as [[y m] d]. cbn.
    rewrite US_PER_DAY_eq. unfold US_PER_SECOND. Z.div_mod_to_equations. lia. }
  revert Hback Hus. unfold of_fields, mk_datetime.
  destruct (broken_down x) as [y m d h mi s us].
  cbn [year month day hour minute second microsecond].
  intros Hback Hus. subst us.
  destruct ((1 <=? y) && (y <=? 9999) && (1 <=? m) && (m <=? 12) && (1 <=? d)
            && (d <=? days_in_month y m) && (0 <=? h) && (h <? 24) && (0 <=? mi)
            && (mi <? 60) && (0 <=? s) && (s <? 60)) eqn:E;
    [|rewrite !andb_false_l in Hback; discriminate Hback].
  cbn [andb] in *.
  destruct ((0 <=? x mod US_PER_SECOND) && (x mod US_PER_SECOND <? US_PER_SECOND));
    [|discriminate Hback].
  injection Hback as Hback. cbn. f_equal. lia.
Qed.

Lemma server_datetime_text (o : list (string * json)) (x : datetime)
      (tail : string) (s : st) :
  assoc "time" o
  = Some (JStr ((fmt_date (broken_down x) +:+ "T" +:+ fmt_time (broken_down x))
                +:+ tail)) ->
  String.length tail = 13%nat ->
  dt_valid x ->
  server_datetime (JObj o) s = (Ok (x - x mod US_PER_SECOND), s).
Proof.
  intros Ht Htail Hx. unfold server_datetime.
  erewrite bind_ok by (unfold getitem, of_option; rewrite Ht; reflexivity).
  cbv beta iota.
  assert (slice_to ((fmt_date (broken_down x) +:+ "T"
                      +:+ fmt_time (broken_down x)) +:+ tail) (-13)
          = fmt_date (broken_down x) +:+ "T" +:+ fmt_time (broken_down x))
    as -> by (apply (slice_to_append _ tail 13); [lia|rewrite Htail; reflexivity]).
  unfold strptime_T.
  rewrite strptime_T_fields_text by (apply broken_down_spec, Hx).
  cbn [mbind option_bind]. rewrite of_fields_whole_second by exact Hx.
  reflexivity.
Qed.

(** X19: [get_server_time] returns the date and time that the text of the
    server shows, as a naive [datetime]: for a text made of the attributes of
    the instant [x] ("YYYY-MM-DDTHH:MM:SS") followed by any 13 characters
    (the fraction and the offset), the result is [x] without its
    microseconds; the offset is not applied. *)
Theorem get_server_time_is_the_text_read (pformat_datetime : datetime -> string)
        (s : st) (api t k : string) (r : response)
        (o : list (string * json)) (x : datetime) (tail : string) :
  connected s api t k ->
  network (outside s) (length (sent (outside s))) (query api t k ["v1/time"] [])
  = Some r ->
  ~ 400 <= status_code r < 600 ->
  body r = Some (JObj o) ->
  assoc "time" o
  = Some (JStr ((fmt_date (broken_down x) +:+ "T" +:+ fmt_time (broken_down x))
                +:+ tail)) ->
  String.length tail = 13%nat ->
  dt_valid x ->
  get_server_time pformat_datetime 0 s
  = (Ok (x - x mod US_PER_SECOND, JObj o),
     St (self s) (after (outside s) [query api t k ["v1/time"] []] [])).
Proof.
  intros Hc Hnet Hst Hbody Ht Htail Hx. unfold get_server_time.
  cbn [Nat.ltb Nat.leb when]. erewrite bind_ok by reflexivity.
  erewrite bind_ok.
  2:{ apply (fetch_ok s api t k ["v1/time"]); eassumption. }
  erewrite bind_ok by (unfold resp_json, of_option; rewrite Hbody; reflexivity).
  erewrite bind_ok by reflexivity.
  erewrite bind_ok by (eapply server_datetime_text; eassumption).
  reflexivity.
Qed.

(** *** The helper that builds a date from numbers *)

(** X20: [values_to_dobj] looks the constructor up as [dt.datetime], [dt]
    being the class [datetime.datetime] itself: whatever the numbers, it
    raises [AttributeError], and so does [values_to_qdstr]; the state is
    unchanged. *)
Theorem values_to_qdstr_always_raises (local_offset : string)
        (y m d h mi sec : Z) (gmt : bool) (s : st) :
  values_to_dobj y m d h mi sec s = (Raise (AttributeError "datetime"), s)
  /\ values_to_qdstr local_offset y m d h mi sec gmt s
     = (Raise (AttributeError "datetime"), s).
Proof.
  assert (values_to_dobj y m d h mi sec s
          = (Raise (AttributeError "datetime"), s)) as H.
  { unfold values_to_dobj. apply bind_raise. unfold dt_attribute.
    assert (bool_decide ("datetime" ∈ datetime_class_names) = false) as ->
        by (vm_compute; reflexivity).
    reflexivity. }
  split; [exact H|]. unfold values_to_qdstr. apply bind_raise. exact H.
Qed.


(** *** What the queries leave untouched *)

Lemma after_nil (w : world) : after w [] [] = w.
Proof.
  unfold after, set_stdout, set_sent. destruct w. cbn.
  rewrite !app_nil_r. reflexivity.
Qed.

Lemma after_after (w : world) (r1 r2 : list request) (o1 o2 : list printed) :
  after (after w r1 o1) r2 o2 = after w (r1 ++ r2) (o1 ++ o2).
Proof.
  unfold after, set_stdout, set_sent. cbn. rewrite !app_assoc. reflexivity.
Qed.

Lemma observes_same {A} (m : M A) :
  (forall s, snd (m s) = s) -> observes m.
Proof.
  intros H s. exists [], []. rewrite H, after_nil. destruct s. reflexivity.
Qed.

Lemma observes_ret {A} (a : A) : observes (ret a).
Proof. apply observes_same. reflexivity. Qed.

Lemma observes_raise {A} (e : exn) : observes (@raise A e).
Proof. apply observes_same. reflexivity. Qed.

Lemma observes_bind {A B} (m : M A) (k : A -> M B) :
  observes m -> (forall a, observes (k a)) -> observes (bind m k).
Proof.
  intros Hm Hk s. unfold bind. destruct (Hm s) as (r1 & o1 & E1).
  destruct (m s) as [[a|e] s1]; cbn [snd] in E1; subst s1.
  - destruct (Hk a (St (self s) (after (outside s) r1 o1))) as (r2 & o2 & E2).
    rewrite E2. cbn [self outside]. rewrite after_after. eauto.
  - cbn [snd]. eauto.
Qed.

Lemma observes_try {A} (m : M A) (c : exn -> bool) (h : exn -> M A) :
  observes m -> (forall e, observes (h e)) -> observes (try_except m c h).
Proof.
  intros Hm Hh s. unfold try_except. destruct (Hm s) as (r1 & o1 & E1).
  destruct (m s) as [[a|e] s1]; cbn [snd] in E1; subst s1.
  - cbn [snd]. eauto.
  - destruct (c e); [|cbn [snd]; eauto].
    destruct (Hh e (St (self s) (after (outside s) r1 o1))) as (r2 & o2 & E2).
    rewrite E2. cbn [self outside]. rewrite after_after. eauto.
Qed.

Lemma observes_when (b : bool) (m : M unit) :
  observes m -> observes (when b m).
Proof. destruct b; [auto|intros _; apply observes_ret]. Qed.

Lemma observes_of_option {A} (o : option A) (e : exn) :
  observes (of_option o e).
Proof. destruct o; [apply observes_ret|apply observes_raise]. Qed.

Lemma observes_getattr (n : string) : observes (getattr n).
Proof.
  apply observes_same. intros s. unfold getattr, of_option.
  destruct (attrs (self s) !! n); reflexivity.
Qed.

Lemma observes_print (x : printed) : observes (print x).
Proof. intros s. exists [], [x]. unfold print, after, set_stdout, set_sent.
  cbn. rewrite app_nil_r. reflexivity. Qed.

Lemma observes_requests_get (r : request) : observes (requests_get r).
Proof. intros s. exists [r], []. unfold requests_get, after, set_stdout, set_sent.
  cbn. rewrite app_nil_r. reflexivity. Qed.

Lemma observes_dt_now : observes dt_now.
Proof. apply observes_same. reflexivity. Qed.

Lemma observes_get_server_type : observes get_server_type.
Proof. apply observes_same. reflexivity. Qed.

Lemma observes_raise_for_status (r : response) : observes (raise_for_status r).
Proof.
  unfold raise_for_status.
  destruct (_ && _); [apply observes_raise|apply observes_ret].
Qed.

Lemma observes_resp_json (r : response) : observes (resp_json r).
Proof. apply observes_of_option. Qed.

Lemma observes_getitem (rd : json) (k : string) : observes (getitem rd k).
Proof.
  destruct rd; try apply observes_raise. apply observes_of_option.
Qed.

Lemma observes_as_str (v : pyval) : observes (as_str v).
Proof.
  destruct v as [[]|]; first [apply observes_raise | apply observes_ret].
Qed.

Lemma observes_lower_of (x : json) : observes (lower_of x).
Proof. destruct x; first [apply observes_raise | apply observes_ret]. Qed.

Lemma observes_items (v : pyval) : observes (items v).
Proof.
  destruct v as [[]|]; first [apply observes_raise | apply observes_ret].
Qed.

Lemma observes_report_and_exit {A} (args : list printed) :
  observes (@_report_and_exit A args).
Proof.
  unfold _report_and_exit. apply observes_bind; [|intros; apply observes_raise].
  induction args as [|x args IH]; [apply observes_ret|].
  cbn [print_each]. apply observes_bind; [apply observes_print|auto].
Qed.

Lemma observes_strs (l : list pyval) : observes (strs l).
Proof.
  induction l as [|v l IH]; [apply observes_ret|].
  cbn [strs]. apply observes_bind; [apply observes_as_str|intros x].
  apply observes_bind; [exact IH|intros; apply observes_ret].
Qed.

Lemma observes_scan (accounttype : string) (l : list json) :
  observes (scan accounttype l).
Proof.
  induction l as [|a l IH]; [apply observes_ret|].
  cbn [scan]. apply observes_bind; [apply observes_getitem|intros t].
  apply observes_bind; [apply observes_lower_of|intros t'].
  destruct (String.eqb _ _); [apply observes_getitem|exact IH].
Qed.

Lemma observes_find_account_number (accounttype : string) :
  observes (find_account_number accounttype).
Proof.
  unfold find_account_number.
  apply observes_bind; [apply observes_getattr|intros a].
  apply observes_bind; [apply observes_items|intros l].
  apply observes_scan.
Qed.

Lemma observes_address (parts : list pyval) : observes (address parts).
Proof.
  unfold address. apply observes_bind; [apply observes_getattr|intros a].
  apply observes_bind; [apply observes_strs|intros; apply observes_ret].
Qed.

Lemma observes_authorization : observes authorization.
Proof.
  unfold authorization. apply observes_bind; [apply observes_getattr|intros t].
  apply observes_bind; [apply observes_getattr|intros k].
  apply observes_bind; [apply observes_strs|intros; apply observes_ret].
Qed.

Lemma observes_print_request (parts : list pyval) :
  observes (print_request parts).
Proof.
  unfold print_request. apply observes_bind; [apply observes_address|intros u].
  apply observes_bind; [apply observes_print|intros _].
  apply observes_bind; [apply observes_authorization|intros h].
  apply observes_print.
Qed.

Lemma observes_get (parts : list pyval) (parameters : list (string * string)) :
  observes (get parts parameters).
Proof.
  unfold get. apply observes_bind; [apply observes_address|intros u].
  apply observes_bind; [apply observes_authorization|intros h].
  apply observes_requests_get.
Qed.

Lemma observes_report {A} (failed method : string) (unbound ex : exn) :
  observes (@report A failed method unbound ex).
Proof.
  unfold report. destruct ex; try apply observes_raise.
  apply observes_bind; [apply observes_get_server_type|intros st].
  apply observes_report_and_exit.
Qed.

Lemma observes_fetch (m : M response) (failed method : string)
      (unbound : exn) :
  observes m ->
  observes (try_except (resp <- m ;; raise_for_status resp ;; ret resp)
                       is_RequestException (report failed method unbound)).
Proof.
  intros Hm. apply observes_try; [|intros; apply observes_report].
  apply observes_bind; [exact Hm|intros resp].
  apply observes_bind; [apply observes_raise_for_status|intros _].
  apply observes_ret.
Qed.

Lemma observes_result_of (pformat : json -> string) (shown : bool)
      (resp : response) :
  observes (result_of pformat shown resp).
Proof.
  unfold result_of. apply observes_bind; [|intros; apply observes_resp_json].
  apply observes_when.
  apply observes_bind; [apply observes_resp_json|intros; apply observes_print].
Qed.

Lemma observes_account (accounttype : string) : observes (account accounttype).
Proof.
  unfold account.
  apply observes_bind; [apply observes_find_account_number|intros n].
  apply observes_bind; [|intros; apply observes_ret].
  destruct (is_None n); [apply observes_report_and_exit|apply observes_ret].
Qed.

Lemma observes_build_datetime_string (local_offset : string)
      (adatetime : option datetime) (gmt : bool) :
  observes (build_datetime_string local_offset adatetime gmt).
Proof.
  unfold build_datetime_string, object_to_qdstr_. destruct adatetime.
  - apply observes_of_option.
  - apply observes_bind; [apply observes_dt_now|intros].
    apply observes_of_option.
Qed.

Lemma observes_ranged (local_offset : string) (pformat : json -> string)
      (repr_dict : list (string * string) -> string)
      (what failed method : string) (more : list (string * string))
      (a b : option datetime) (accounttype : string) (verbosity : nat) :
  observes (ranged local_offset pformat repr_dict what failed method more
                   a b accounttype verbosity).
Proof.
  unfold ranged. apply observes_bind; [apply observes_account|intros n].
  apply observes_bind; [apply observes_build_datetime_string|intros sdt].
  apply observes_bind; [apply observes_build_datetime_string|intros edt].
  apply observes_bind;
    [apply observes_when, observes_print_request|intros _].
  apply observes_bind; [apply observes_when, observes_print|intros _].
  apply observes_bind; [|intros; apply observes_result_of].
  apply observes_fetch, observes_get.
Qed.

Lemma observes_snapshot (pformat : json -> string)
      (what failed method accounttype : string) (verbosity : nat) :
  observes (snapshot pformat what failed method accounttype verbosity).
Proof.
  unfold snapshot. apply observes_bind; [apply observes_account|intros n].
  apply observes_bind;
    [apply observes_when, observes_print_request|intros _].
  apply observes_bind; [|intros; apply observes_result_of].
  apply observes_fetch, observes_get.
Qed.

Lemma observes_by_ids (pformat : json -> string) (base : list pyval)
      (failed method : string) (ids : ident) (verbosity : nat) :
  observes (by_ids pformat base failed method ids verbosity).
Proof.
  unfold by_ids. apply observes_bind; [|intros; apply observes_result_of].
  apply observes_fetch.
  destruct (contains _ _); [|destruct (negb _)].
  - apply observes_bind;
      [apply observes_when, observes_print_request|intros _].
    apply observes_get.
  - apply observes_bind;
      [apply observes_when, observes_print_request|intros _].
    apply observes_get.
  - apply observes_report_and_exit.
Qed.

Lemma observes_server_datetime (rd : json) : observes (server_datetime rd).
Proof.
  unfold server_datetime. apply observes_bind; [apply observes_getitem|].
  intros []; first [apply observes_raise | apply observes_of_option].
Qed.

Lemma observes_get_server_time (pformat_datetime : datetime -> string)
      (verbosity : nat) :
  observes (get_server_time pformat_datetime verbosity).
Proof.
  unfold get_server_time.
  apply observes_bind;
    [apply observes_when, observes_print_request|intros _].
  apply observes_bind; [apply observes_fetch, observes_get|intros resp].
  apply observes_bind; [apply observes_resp_json|intros rd].
  apply observes_bind.
  - apply observes_when.
    apply observes_bind; [apply observes_server_datetime|intros].
    apply observes_print.
  - intros _. apply observes_bind; [apply observes_server_datetime|intros].
    apply observes_ret.
Qed.

Lemma observes_drain {A} (l : list (M A)) :
  Forall observes l -> observes (drain l).
Proof.
  induction 1 as [|m l Hm _ IH]; [apply observes_ret|].
  cbn [drain]. apply observes_bind; [exact Hm|intros x].
  apply observes_bind; [exact IH|intros; apply observes_ret].
Qed.

Lemma observes_consume (f : option datetime -> option datetime -> M json)
      (start : datetime) (end_ : option datetime) :
  (forall a b, observes (f a b)) ->
  observes (consume (fun now => decorated f now start end_)).
Proof.
  intros Hf. unfold consume, decorated.
  apply observes_bind; [apply observes_dt_now|intros now].
  rewrite get_all_map. cbn [yielded ending].
  apply observes_bind.
  - apply observes_drain.
    induction (yielded (ranges now start end_)) as [|r l IH];
      constructor; [apply Hf|exact IH].
  - intros xs. destruct (ending _);
      first [apply observes_raise | apply observes_ret].
Qed.

(** X21: whatever their arguments, the state and the answers of the
    server, the queries change neither the object (its attributes, hence the
    credentials) nor the files nor the clock: they only send requests and
    print lines. *)
Theorem queries_change_nothing
        (local_offset : string) (pformat : json -> string)
        (pformat_datetime : datetime -> string)
        (repr_dict : list (string * string) -> string)
        (accounttype statefilter : string) (verbosity : nat) (ids : ident)
        (start : datetime) (end_ : option datetime) :
  observes (find_account_number accounttype)
  /\ observes (get_account_balances pformat accounttype verbosity)
  /\ observes (get_account_positions pformat accounttype verbosity)
  /\ observes (get_server_time pformat_datetime verbosity)
  /\ observes (get_market_quotes pformat ids verbosity)
  /\ observes (get_symbols_by_ids pformat ids verbosity)
  /\ observes (consume (fun now => get_account_activities
                                     local_offset pformat repr_dict
                                     accounttype verbosity now start end_))
  /\ observes (consume (fun now => get_account_orders
                                     local_offset pformat repr_dict
                                     accounttype statefilter verbosity
                                     now start end_))
  /\ observes (consume (fun now => get_account_executions
                                     local_offset pformat repr_dict
                                     accounttype verbosity now start end_)).
Proof.
  split; [exact (observes_find_account_number accounttype)|].
  split; [exact (observes_snapshot pformat "balances" _ _ accounttype verbosity)|].
  split; [exact (observes_snapshot pformat "positions" _ _ accounttype verbosity)|].
  split; [exact (observes_get_server_time pformat_datetime verbosity)|].
  split; [exact (observes_by_ids pformat _ _ _ ids verbosity)|].
  split; [exact (observes_by_ids pformat _ _ _ ids verbosity)|].
  split; [|split].
  - refine (observes_consume
              (fun a b => get_account_activities_f
                            local_offset pformat repr_dict a b accounttype
                            verbosity) start end_ _).
    intros a b.
    exact (observes_ranged local_offset pformat repr_dict "activities" _ _ []
                           a b accounttype verbosity).
  - refine (observes_consume
              (fun a b => get_account_orders_f
                            local_offset pformat repr_dict statefilter a b
                            accounttype verbosity) start end_ _).
    intros a b.
    exact (observes_ranged local_offset pformat repr_dict "orders" _ _
                           [("stateFilter", state_filter statefilter)]
                           a b accounttype verbosity).
  - refine (observes_consume
              (fun a b => get_account_executions_f
                            local_offset pformat repr_dict a b accounttype
                            verbosity) start end_ _).
    intros a b.
    exact (observes_ranged local_offset pformat repr_dict "executions" _ _ []
                           a b accounttype verbosity).
Qed.


(** *** The request of a query on a range, whatever the server does *)

Lemma print_request_ok (s : st) (api t k : string) (ps : list string) :
  connected s api t k ->
  print_request (map word ps) s
  = (Ok tt,
     St (self s)
        (after (outside s) []
               [Line (join "/" (api :: ps)); Line (join " " [t; k])])).
Proof.
  intros Hc. unfold print_request.
  erewrite bind_ok by (eapply address_ok; exact Hc).
  erewrite bind_ok by reflexivity.
  erewrite bind_ok by (eapply authorization_ok; exact Hc).
  unfold print. py_state. rewrite app_nil_r, <- app_assoc. reflexivity.
Qed.

Lemma print_after (x : printed) (s : st) :
  print x s = (Ok tt, St (self s) (after (outside s) [] [x])).
Proof. unfold print. py_state. rewrite app_nil_r. reflexivity. Qed.

(** the prints under [if verbosity > ...] send nothing *)
Lemma when_quiet (b : bool) (m : M unit) (s : st) (out : list printed) :
  m s = (Ok tt, St (self s) (after (outside s) [] out)) ->
  exists out',
    when b m s = (Ok tt, St (self s) (after (outside s) [] out')).
Proof.
  intros H. destruct b; [eauto|]. exists []. cbn [when].
  rewrite after_nil. destruct s. reflexivity.
Qed.

Lemma result_of_quiet (pformat : json -> string) (shown : bool)
      (resp : response) (s : st) :
  exists out,
    snd (result_of pformat shown resp s)
    = St (self s) (after (outside s) [] out).
Proof.
  unfold result_of, when, resp_json, of_option, bind, print, ret, raise.
  destruct shown, (body resp); cbn [snd].
  - exists [Line (pformat j)]. py_state. rewrite app_nil_r. reflexivity.
  - exists []. rewrite after_nil. destruct s. reflexivity.
  - exists []. rewrite after_nil. destruct s. reflexivity.
  - exists []. rewrite after_nil. destruct s. reflexivity.
Qed.

(** A decorated function called on an account that exists sends exactly one
    request, the same whatever the verbosity and whatever the server does
    with it. *)
Lemma ranged_sends (local_offset : string) (pformat : json -> string)
      (repr_dict : list (string * string) -> string)
      (what failed method : string) (more : list (string * string))
      (s : st) (api t k accounttype number : string) (a b : datetime)
      (sdt edt : string) (verbosity : nat) :
  connected s api t k ->
  has_account s accounttype number ->
  object_to_qdstr local_offset a false = Some sdt ->
  object_to_qdstr local_offset b false = Some edt ->
  exists out,
    snd (ranged local_offset pformat repr_dict what failed method more
                (Some a) (Some b) accounttype verbosity s)
    = St (self s)
         (after (outside s)
                [query api t k ["v1/accounts"; number; what]
                       ([("startTime", sdt); ("endTime", edt)] ++ more)]
                out).
Proof.
  intros Hc Hacc Ha Hb. unfold ranged.
  erewrite bind_ok by (apply account_found; exact Hacc).
  erewrite bind_ok
    by (unfold build_datetime_string, object_to_qdstr_, of_option;
        rewrite Ha; reflexivity).
  erewrite bind_ok
    by (unfold build_datetime_string, object_to_qdstr_, of_option;
        rewrite Hb; reflexivity).
  set (q := query api t k ["v1/accounts"; number; what]
                  ([("startTime", sdt); ("endTime", edt)] ++ more)).
  destruct (when_quiet (2 <? verbosity)%nat
              (print_request (map word ["v1/accounts"; number; what])) s _
              (print_request_ok s api t k _ Hc)) as (out1 & E1).
  erewrite bind_ok by exact E1.
  set (s1 := St (self s) (after (outside s) [] out1)).
  destruct (when_quiet (0 <? verbosity)%nat
              (print (Line (repr_dict [("startTime", sdt); ("endTime", edt)])))
              s1 _ (print_after _ s1))
    as (out2 & E2).
  erewrite bind_ok by exact E2.
  subst s1. cbn [self outside]. rewrite after_after. cbn [app].
  set (s2 := St (self s) (after (outside s) [] (out1 ++ out2))).
  assert (connected s2 api t k) as Hc2 by exact Hc.
  assert (network (outside s2) (length (sent (outside s2))) q
          = network (outside s) (length (sent (outside s))) q) as Enet.
  { subst s2. unfold after, set_stdout, set_sent. cbn. rewrite app_nil_r.
    reflexivity. }
  destruct (network (outside s) (length (sent (outside s))) q) as [r|] eqn:Hnet.
  - destruct (decide (400 <= status_code r < 600)) as [Hbad|Hok].
    + erewrite bind_raise.
      2:{ apply (fetch_http_error s2 api t k ["v1/accounts"; number; what]);
            [exact Hc2|exact Enet|exact Hbad]. }
      cbn [snd]. subst s2. cbn [self outside]. rewrite after_after.
      cbn [app]. eauto.
    + erewrite bind_ok.
      2:{ apply (fetch_ok s2 api t k ["v1/accounts"; number; what]);
            [exact Hc2|exact Enet|exact Hok]. }
      destruct (result_of_quiet pformat (1 <? verbosity)%nat r
                  (St (self s2) (after (outside s2) [q] [])))
        as (out3 & E3).
      eexists. etransitivity; [exact E3|].
      subst s2. cbn [self outside]. rewrite !after_after. reflexivity.
  - erewrite bind_raise.
    2:{ apply (fetch_no_response s2 api t k ["v1/accounts"; number; what]);
          [exact Hc2|exact Enet]. }
    cbn [snd]. subst s2. cbn [self outside]. rewrite after_after.
    cbn [app]. eauto.
Qed.

(** C9: whatever the string [statefilter], the verbosity and the answer of
    the server, [get_account_orders] (the decorated function, called on an
    account that exists) sends exactly one request, to
    [<api_server>/v1/accounts/<number>/orders], whose parameters are
    [startTime], [endTime] and a [stateFilter] that is one of "Open",
    "Closed" and "All", chosen by the first character alone: "Open" for [o]
    and [O], "Closed" for [c] and [C], "All" for anything else, the empty
    string included.  No string is rejected. *)
Theorem state_filter_first_letter
        (local_offset : string) (pformat : json -> string)
        (repr_dict : list (string * string) -> string)
        (s : st) (api t k accounttype number : string) (a b : datetime)
        (sdt edt : string) (verbosity : nat) (statefilter : string) :
  connected s api t k ->
  has_account s accounttype number ->
  object_to_qdstr local_offset a false = Some sdt ->
  object_to_qdstr local_offset b false = Some edt ->
  let chosen :=
    match statefilter with
    | String c _ =>
        if Ascii.eqb c "o" || Ascii.eqb c "O" then "Open"
        else if Ascii.eqb c "c" || Ascii.eqb c "C" then "Closed"
        else "All"
    | EmptyString => "All"
    end in
  (chosen = "Open" \/ chosen = "Closed" \/ chosen = "All")
  /\ exists out,
      snd (get_account_orders_f local_offset pformat repr_dict statefilter
                                (Some a) (Some b) accounttype verbosity s)
      = St (self s)
           (after (outside s)
                  [Request (join "/" [api; "v1/accounts"; number; "orders"])
                           [("startTime", sdt); ("endTime", edt);
                            ("stateFilter", chosen)]
                           [("Authorization", join " " [t; k])]]
                  out).
Proof.
  intros Hc Hacc Ha Hb chosen. split.
  - subst chosen. destruct statefilter as [|c rest]; [auto|].
    destruct (_ || _); [auto|]. destruct (_ || _); auto.
  - subst chosen. rewrite <- state_filter_cases.
    exact (ranged_sends local_offset pformat repr_dict "orders" _ _
                        [("stateFilter", state_filter statefilter)]
                        s api t k accounttype number a b sdt edt verbosity
                        Hc Hacc Ha Hb).
Qed.

(** *** On the sample account holder *)

Lemma online_connected : connected online no_slash "Bearer" "AT1".
Proof. repeat split; vm_compute; reflexivity. Qed.

Lemma offline_connected : connected offline no_slash "Bearer" "AT1".
Proof. repeat split; vm_compute; reflexivity. Qed.

Lemma refused_connected : connected refused no_slash "Bearer" "AT1".
Proof. repeat split; vm_compute; reflexivity. Qed.

Lemma margin_otherwise :
  typed_otherwise "TFSA" (JObj [("type", JStr "Margin"); ("number", JStr "111")]).
Proof.
  eexists _, _. split; [reflexivity|]. split; [reflexivity|].
  vm_compute. discriminate.
Qed.

Lemma online_has_account : has_account online "TFSA" "222".
Proof.
  exists [JObj [("type", JStr "Margin"); ("number", JStr "111")]],
         [JObj [("type", JStr "tfsa"); ("number", JStr "333")]],
         [("type", JStr "TFSA"); ("number", JStr "222")], "TFSA".
  split; [vm_compute; reflexivity|].
  split; [repeat constructor; apply margin_otherwise|].
  repeat split; reflexivity.
Qed.

Lemma online_has_no_account : has_no_account online "RRSP".
Proof.
  eexists. split; [vm_compute; reflexivity|].
  repeat constructor; (eexists _, _; split; [reflexivity|]; split; [reflexivity|]);
    vm_compute; discriminate.
Qed.

Lemma answers_echo (n : nat) (reqs : list request) :
  Forall (fun r => url r <> no_slash +:+ "/v1/time") reqs ->
  answers api n reqs (map echo reqs).
Proof.
  intros H. revert n. induction H as [|q reqs Hq _ IH]; intros n; [exact I|].
  cbn [map answers]. split; [|apply IH].
  exists (Response 200 (url q) "" (Some (echo q))). unfold api.
  destruct (String.eqb_spec (url q) (no_slash +:+ "/v1/time")); [contradiction|].
  split; [reflexivity|]. split; [cbn; lia|reflexivity].
Qed.

Lemma find_account_number_first_match_witness :
  attrs (self online) !! "accounts" = Some (PJson accounts)
  /\ find_account_number "tfsa" online = (Ok (JStr "222"), online)
  /\ find_account_number "RRSP" online = (Ok JNull, online).
Proof.
  assert (attrs (self online) !! "accounts" = Some (PJson accounts)) as H
      by (vm_compute; reflexivity).
  split; [exact H|].
  destruct (find_account_number_first_match "tfsa" online _ H) as [Hfound _].
  destruct (find_account_number_first_match "RRSP" online _ H) as [_ Hnone].
  split.
  - apply (Hfound [JObj [("type", JStr "Margin"); ("number", JStr "111")]]
                  [JObj [("type", JStr "tfsa"); ("number", JStr "333")]]
                  [("type", JStr "TFSA"); ("number", JStr "222")] "TFSA").
    + reflexivity.
    + repeat constructor. eexists _, _. split; [reflexivity|].
      split; [reflexivity|]. vm_compute. discriminate.
    + reflexivity.
    + vm_compute. reflexivity.
    + reflexivity.
  - apply Hnone.
    repeat constructor;
      (eexists _, _; split; [reflexivity|]; split; [reflexivity|]);
      vm_compute; discriminate.
Defined.

Lemma nonexistent_account_sends_nothing_witness :
  has_no_account online "RRSP"
  /\ get_account_balances show "RRSP" 0 online
     = (Raise (SystemExit 1),
        St holder
           (after (outside online) [] [Line "Nonexistent RRSP account."])).
Proof.
  split; [exact online_has_no_account|].
  exact (proj1 (nonexistent_account_sends_nothing
                  "-0500" show show_dict online "RRSP" "All" 0 None None
                  online_has_no_account)).
Defined.


Lemma decorated_queries_cover_the_ranges_witness :
  connected online no_slash "Bearer" "AT1"
  /\ has_account online "TFSA" "222"
  /\ no_percent "-0500" = true
  /\ sent (outside (snd (consume
                           (fun now => get_account_activities
                                         "-0500" show show_dict "TFSA" 0 now
                                         (date 2024 1 1) (Some (date 2024 3 15)))
                           online)))
     = [query no_slash "Bearer" "AT1" ["v1/accounts"; "222"; "activities"]
              [("startTime", "2024-01-01T00:00:00-05:00");
               ("endTime", "2024-01-30T00:00:00-05:00")];
        query no_slash "Bearer" "AT1" ["v1/accounts"; "222"; "activities"]
              [("startTime", "2024-01-30T00:00:00-05:00");
               ("endTime", "2024-02-28T00:00:00-05:00")];
        query no_slash "Bearer" "AT1" ["v1/accounts"; "222"; "activities"]
              [("startTime", "2024-02-28T00:00:00-05:00");
               ("endTime", "2024-03-15T00:00:00-05:00")]]
  /\ sent (outside (snd (consume
                           (fun now => get_account_orders
                                         "-0500" show show_dict "TFSA" "closed"
                                         0 now
                                         (date 999 12 25) (Some (date 1000 1 5)))
                           online)))
     = [query no_slash "Bearer" "AT1" ["v1/accounts"; "222"; "orders"]
              [("startTime", "999-12-25T00:00:00-05:00");
               ("endTime", "1000-01-05T00:00:00-05:00");
               ("stateFilter", "Closed")]].
Proof.
  assert (no_percent "-0500" = true) as Hp by reflexivity.
  split; [exact online_connected|]. split; [exact online_has_account|].
  split; [exact Hp|]. split.
  - pose proof (proj1 (decorated_queries_cover_the_ranges
                         "-0500" show show_dict online no_slash "Bearer" "AT1"
                         "TFSA" "All" "222" (date 2024 1 1)
                         (Some (date 2024 3 15))
                         online_connected online_has_account Hp)) as H.
    cbv beta zeta in H.
    assert (Forall (fun r => url r <> no_slash +:+ "/v1/time")
                   (map (ranged_request "-0500" no_slash "Bearer" "AT1" "222"
                                        "activities" [])
                        (yielded (ranges noon (date 2024 1 1)
                                         (Some (date 2024 3 15)))))) as Hurls
        by (vm_compute; repeat constructor; discriminate).
    rewrite (H _ (answers_echo 0 _ Hurls)).
    vm_compute. reflexivity.
  - pose proof (proj1 (proj2 (decorated_queries_cover_the_ranges
                                "-0500" show show_dict online no_slash "Bearer"
                                "AT1" "TFSA" "closed" "222" (date 999 12 25)
                                (Some (date 1000 1 5))
                                online_connected online_has_account Hp))) as H.
    cbv beta zeta in H.
    assert (Forall (fun r => url r <> no_slash +:+ "/v1/time")
                   (map (ranged_request "-0500" no_slash "Bearer" "AT1" "222"
                                        "orders"
                                        [("stateFilter", state_filter "closed")])
                        (yielded (ranges noon (date 999 12 25)
                                         (Some (date 1000 1 5)))))) as Hurls
        by (vm_compute; repeat constructor; discriminate).
    rewrite (H _ (answers_echo 0 _ Hurls)).
    vm_compute. reflexivity.
Defined.

Lemma identifiers_are_routed_witness :
  connected online no_slash "Bearer" "AT1"
  /\ str_ident (IdStr "8049,9291") <> ""
  /\ str_ident (IdInt 8049) <> ""
  /\ ~ 400 <= 200 < 600
  /\ sent (outside (snd (get_market_quotes show (IdStr "8049,9291") 0 online)))
     = [query no_slash "Bearer" "AT1" ["v1/markets"; "quotes"]
              [("ids", "8049,9291")]]
  /\ sent (outside (snd (get_symbols_by_ids show (IdInt 8049) 0 online)))
     = [query no_slash "Bearer" "AT1" ["v1/symbols"; "8049"] []].
Proof.
  assert (str_ident (IdStr "8049,9291") <> "") as H1 by discriminate.
  assert (str_ident (IdInt 8049) <> "") as H2 by (vm_compute; discriminate).
  assert (~ 400 <= 200 < 600) as H3 by lia.
  split; [exact online_connected|]. split; [exact H1|]. split; [exact H2|].
  split; [exact H3|]. split.
  - rewrite (proj1 (identifiers_are_routed
                      show (IdStr "8049,9291") online no_slash "Bearer" "AT1"
                      online_connected H1)
                   _ _ eq_refl H3 eq_refl).
    reflexivity.
  - rewrite (proj2 (identifiers_are_routed
                      show (IdInt 8049) online no_slash "Bearer" "AT1"
                      online_connected H2)
                   _ _ eq_refl H3 eq_refl).
    vm_compute. reflexivity.
Defined.

Lemma get_market_quotes_failures_witness :
  str_ident (IdStr "") = ""
  /\ connected offline no_slash "Bearer" "AT1"
  /\ connected refused no_slash "Bearer" "AT1"
  /\ str_ident (IdInt 8049) <> ""
  /\ 400 <= 404 < 600
  /\ fst (get_market_quotes show (IdStr "") 2 online) = Raise (SystemExit 1)
  /\ sent (outside (snd (get_market_quotes show (IdStr "") 2 online))) = []
  /\ fst (get_market_quotes show (IdInt 8049) 0 offline)
     = Raise (AttributeError "request")
  /\ fst (get_market_quotes show (IdInt 8049) 0 refused)
     = Raise (SystemExit 1).
Proof.
  assert (str_ident (IdStr "") = "") as H1 by reflexivity.
  assert (str_ident (IdInt 8049) <> "") as H2 by (vm_compute; discriminate).
  assert (400 <= 404 < 600) as H3 by lia.
  split; [exact H1|]. split; [exact offline_connected|].
  split; [exact refused_connected|]. split; [exact H2|]. split; [exact H3|].
  rewrite (proj1 (get_market_quotes_failures show (IdStr "") online) H1 2%nat).
  split; [reflexivity|]. split; [reflexivity|]. split.
  - rewrite (proj1 (proj2 (get_market_quotes_failures show (IdInt 8049) offline)
                          no_slash "Bearer" "AT1" offline_connected H2)
                   eq_refl).
    reflexivity.
  - rewrite (proj2 (proj2 (get_market_quotes_failures show (IdInt 8049) refused)
                          no_slash "Bearer" "AT1" refused_connected H2)
                   _ eq_refl H3).
    reflexivity.
Defined.

Lemma get_server_time_is_the_text_read_witness :
  connected online no_slash "Bearer" "AT1"
  /\ ~ 400 <= 200 < 600
  /\ time_text
     = (fmt_date (broken_down noon) +:+ "T" +:+ fmt_time (broken_down noon))
       +:+ ".123000-04:00"
  /\ String.length ".123000-04:00" = 13%nat
  /\ dt_valid noon
  /\ fst (get_server_time show_datetime 0 online)
     = Ok (noon, JObj [("time", JStr time_text)]).
Proof.
  assert (~ 400 <= 200 < 600) as H1 by lia.
  assert (time_text
          = (fmt_date (broken_down noon) +:+ "T" +:+ fmt_time (broken_down noon))
            +:+ ".123000-04:00") as H2 by (vm_compute; reflexivity).
  assert (String.length ".123000-04:00" = 13%nat) as H3 by reflexivity.
  assert (dt_valid noon) as H4 by (split; vm_compute; discriminate).
  assert (assoc "time" [("time", JStr time_text)]
          = Some (JStr ((fmt_date (broken_down noon) +:+ "T"
                         +:+ fmt_time (broken_down noon))
                        +:+ ".123000-04:00"))) as H5
      by (rewrite <- H2; reflexivity).
  split; [exact online_connected|]. split; [exact H1|]. split; [exact H2|].
  split; [exact H3|]. split; [exact H4|].
  rewrite (get_server_time_is_the_text_read
             show_datetime online no_slash "Bearer" "AT1"
             (Response 200 (no_slash +:+ "/v1/time") ""
                       (Some (JObj [("time", JStr time_text)])))
             [("time", JStr time_text)] noon ".123000-04:00"
             online_connected eq_refl H1 eq_refl H5 H3 H4).
  cbn [fst]. vm_compute. reflexivity.
Defined.

Lemma holder_has_account (w : world) : has_account (St holder w) "TFSA" "222".
Proof.
  exists [JObj [("type", JStr "Margin"); ("number", JStr "111")]],
         [JObj [("type", JStr "tfsa"); ("number", JStr "333")]],
         [("type", JStr "TFSA"); ("number", JStr "222")], "TFSA".
  split; [vm_compute; reflexivity|].
  split; [repeat constructor; apply margin_otherwise|].
  repeat split; reflexivity.
Qed.

Lemma state_filter_first_letter_witness :
  connected online no_slash "Bearer" "AT1"
  /\ has_account online "TFSA" "222"
  /\ object_to_qdstr "-0500" (date 2024 1 1) false
     = Some "2024-01-01T00:00:00-05:00"
  /\ object_to_qdstr "-0500" (date 2024 1 15) false
     = Some "2024-01-15T00:00:00-05:00"
  /\ sent (outside (snd (get_account_orders_f
                           "-0500" show show_dict "OPENED"
                           (Some (date 2024 1 1)) (Some (date 2024 1 15))
                           "TFSA" 3 online)))
     = [Request "https://api01.iq.questrade.com/v1/accounts/222/orders"
                [("startTime", "2024-01-01T00:00:00-05:00");
                 ("endTime", "2024-01-15T00:00:00-05:00");
                 ("stateFilter", "Open")]
                [("Authorization", "Bearer AT1")]]
  /\ sent (outside (snd (get_account_orders_f
                           "-0500" show show_dict "Closed"
                           (Some (date 2024 1 1)) (Some (date 2024 1 15))
                           "TFSA" 0 refused)))
     = [Request "https://api01.iq.questrade.com/v1/accounts/222/orders"
                [("startTime", "2024-01-01T00:00:00-05:00");
                 ("endTime", "2024-01-15T00:00:00-05:00");
                 ("stateFilter", "Closed")]
                [("Authorization", "Bearer AT1")]]
  /\ sent (outside (snd (get_account_orders_f
                           "-0500" show show_dict "everything"
                           (Some (date 2024 1 1)) (Some (date 2024 1 15))
                           "TFSA" 0 offline)))
     = [Request "https://api01.iq.questrade.com/v1/accounts/222/orders"
                [("startTime", "2024-01-01T00:00:00-05:00");
                 ("endTime", "2024-01-15T00:00:00-05:00");
                 ("stateFilter", "All")]
                [("Authorization", "Bearer AT1")]].
Proof.
  assert (object_to_qdstr "-0500" (date 2024 1 1) false
          = Some "2024-01-01T00:00:00-05:00") as Ha
      by (vm_compute; reflexivity).
  assert (object_to_qdstr "-0500" (date 2024 1 15) false
          = Some "2024-01-15T00:00:00-05:00") as Hb
      by (vm_compute; reflexivity).
  split; [exact online_connected|]. split; [exact online_has_account|].
  split; [exact Ha|]. split; [exact Hb|].
  split; [|split].
  - destruct (state_filter_first_letter
                "-0500" show show_dict online no_slash "Bearer" "AT1" "TFSA"
                "222" (date 2024 1 1) (date 2024 1 15) _ _ 3 "OPENED"
                online_connected online_has_account Ha Hb)
      as (_ & out & E).
    rewrite E. reflexivity.
  - destruct (state_filter_first_letter
                "-0500" show show_dict refused no_slash "Bearer" "AT1" "TFSA"
                "222" (date 2024 1 1) (date 2024 1 15) _ _ 0 "Closed"
                refused_connected (holder_has_account _) Ha Hb)
      as (_ & out & E).
    rewrite E. reflexivity.
  - destruct (state_filter_first_letter
                "-0500" show show_dict offline no_slash "Bearer" "AT1" "TFSA"
                "222" (date 2024 1 1) (date 2024 1 15) _ _ 0 "everything"
                offline_connected (holder_has_account _) Ha Hb)
      as (_ & out & E).
    rewrite E. reflexivity.
Defined.

End QueriesFacts.
